(** * liftinglog: scripts/csv_to_backup.py

    A shallow embedding of the CSV-to-SQLite converter and the proofs of
    the properties its specification states.

    The script reads a WorkoutLog CSV export, keeps the rows of the
    "Strength" section, groups them by date and by exercise, and inserts
    workouts, exercises, workout_exercises and sets rows into a fresh
    SQLite file.

    Modelling choices:
    - Python [str] is [string]; comparison of [str] is comparison of code
      points, which on UTF-8 bytes is [String.compare].  [str.strip] is
      modelled on the ASCII range; no statement below depends on which
      characters count as whitespace.
    - The input file is the list of its lines, as [f.readlines()] returns
      them.
    - A row ([dict] of column name to value) is a [gmap string string].
    - [defaultdict(list)] keeps insertion order and is iterated with
      [.items()]: it is an association list.
    - The dicts [exercises], [workouts], [workout_exercises] are only looked
      up and inserted into: they are [gmap]s.
    - The SQLite connection is the ordered list of the INSERT statements
      executed on it; a table is the projection of that list, and
      [cursor.lastrowid] in a fresh table is one more than its row count.
    - What the script takes from the Python runtime ([float], [int],
      [datetime.strptime], [datetime.now], [csv.reader]) is an instance of
      the class [Runtime].
    - [uuid.uuid4()] values are represented by the ordinal of the call that
      minted them.
    - An SQLite INTEGER holds 64 bits, and [conn.execute] raises
      OverflowError when it is given a Python [int] outside that range.
      Of the integers the script binds only the reps value of a record is
      unbounded, so the INSERT into sets is the statement that can fail.
    - The exceptions of the run are those of the hierarchy builder.  An
      input on which [open], [f.readlines()] or [csv.reader] itself fails
      (a missing file, bytes that are no UTF-8, a field above the field
      size limit of the csv module) is outside the model; the script stops
      there before it touches the output file. *)

From Stdlib Require Import ZArith Lia Ascii.
From Stdlib Require String.
From stdpp Require Import gmap strings list fin_maps sorting.

(** ** Python string primitives used by the script *)

Module Py.

(** [str.isspace] on the ASCII range: TAB, LF, VT, FF, CR, FS, GS, RS,
    US and SPACE. *)
Definition isspace (c : ascii) : bool :=
  match c with
  | "009" | "010" | "011" | "012" | "013"
  | "028" | "029" | "030" | "031" | " " => true
  | _ => false
  end%char.

Fixpoint lstrip (s : string) : string :=
  match s with
  | String c s' => if isspace c then lstrip s' else s
  | EmptyString => EmptyString
  end.

Fixpoint rstrip (s : string) : string :=
  match s with
  | String c s' =>
      match rstrip s' with
      | EmptyString => if isspace c then EmptyString else String c EmptyString
      | t => String c t
      end
  | EmptyString => EmptyString
  end.

(** [s.strip()] *)
Definition strip (s : string) : string := rstrip (lstrip s).

(** Truth value of a [str]: the empty string is falsy. *)
Definition truthy (s : string) : bool :=
  match s with EmptyString => false | _ => true end.

(** [s.startswith(p)] *)
Definition startswith (s p : string) : bool := String.prefix p s.

(** [sub in s] *)
Fixpoint contains (sub s : string) : bool :=
  String.prefix sub s ||
  match s with
  | String _ s' => contains sub s'
  | EmptyString => false
  end.

(** [min] and [max] of two strings; Python keeps the first of two equal
    arguments. *)
Definition min2 (a b : string) : string := if String.ltb b a then b else a.
Definition max2 (a b : string) : string := if String.ltb a b then b else a.

(** [s.lower()] on the ASCII range. *)
Definition lower_char (c : ascii) : ascii :=
  let n := nat_of_ascii c in
  if (65 <=? n)%nat && (n <=? 90)%nat then ascii_of_nat (n + 32) else c.

Fixpoint lower (s : string) : string :=
  match s with
  | String c s' => String (lower_char c) (lower s')
  | EmptyString => EmptyString
  end.

(** [d.get(k, dflt)] *)
Definition get (d : gmap string string) (k dflt : string) : string :=
  default dflt (d !! k).

End Py.

(** ** What the script takes from the Python runtime *)

Class Runtime := {
  (** the values of Python's [float] *)
  pyfloat : Type;
  (** [float(s)]; [None] stands for [ValueError] *)
  float_of_str : string → option pyfloat;
  (** [int(s)]; [None] stands for [ValueError] *)
  int_of_str : string → option Z;
  (** [int(datetime.strptime(text, fmt).timestamp() * 1000)]; [None] stands
      for [ValueError].  The years of a [datetime] run from 1 to 9999, so
      the value fits an SQLite INTEGER. *)
  strptime_ms : string → string → option Z;
  (** [int(datetime.now().timestamp() * 1000)] at the k-th reading of the
      clock *)
  now_ms : nat → Z;
  (** [csv.reader] over a text: the list of its records *)
  csv_reader : string → list (list string)
}.

(** ** Tables *)

Abbreviation row := (gmap string string).

Record exercise_row := {
  ex_id : nat;
  ex_uid : nat;
  ex_name : string;
  ex_created_at : Z
}.

Record workout_row := {
  wo_id : nat;
  wo_uid : nat;
  wo_started_at : Z;
  wo_completed_at : Z
}.

Record workout_exercise_row := {
  we_id : nat;
  we_uid : nat;
  we_workout_id : nat;
  we_exercise_id : nat;
  we_order_index : nat;
  we_note : option string;
  we_performed_at : Z;
  we_completed_at : Z
}.

Record set_row `{Runtime} := {
  set_id : nat;
  set_uid : nat;
  set_workout_id : nat;
  set_exercise_id : nat;
  set_workout_exercise_id : nat;
  set_index : nat;
  set_weight_kg : option pyfloat;
  set_reps : option Z;
  set_note : option string;
  set_performed_at : Z;
  set_is_warmup : Z
}.

(** One executed INSERT.  Besides the inserted row an entry records the
    loop variables in scope when the statement ran ([date_str], and for the
    two inner loops [exercise_name] and the CSV row); these annotations are
    never read by the program. *)
Inductive event `{Runtime} :=
| InsWorkout (date_str : string) (w : workout_row)
| InsExercise (date_str : string) (e : exercise_row)
| InsWorkoutExercise (date_str exercise_name : string) (x : workout_exercise_row)
| InsSet (date_str exercise_name : string) (src : row) (s : set_row).

Section Tables.
Context `{Runtime}.

Definition workouts_of (e : event) : option workout_row :=
  match e with InsWorkout _ w => Some w | _ => None end.
Definition exercises_of (e : event) : option exercise_row :=
  match e with InsExercise _ x => Some x | _ => None end.
Definition workout_exercises_of (e : event) : option workout_exercise_row :=
  match e with InsWorkoutExercise _ _ x => Some x | _ => None end.
Definition sets_of (e : event) : option set_row :=
  match e with InsSet _ _ _ s => Some s | _ => None end.

Definition workouts_table (log : list event) : list workout_row :=
  omap workouts_of log.
Definition exercises_table (log : list event) : list exercise_row :=
  omap exercises_of log.
Definition workout_exercises_table (log : list event)
  : list workout_exercise_row := omap workout_exercises_of log.
Definition sets_table (log : list event) : list set_row :=
  omap sets_of log.

(** The date group an INSERT was executed for. *)
Definition event_date (e : event) : string :=
  match e with
  | InsWorkout d _ | InsExercise d _
  | InsWorkoutExercise d _ _ | InsSet d _ _ _ => d
  end.

(** The synthetic id minted for the inserted row. *)
Definition event_uid (e : event) : nat :=
  match e with
  | InsWorkout _ w => wo_uid w
  | InsExercise _ x => ex_uid x
  | InsWorkoutExercise _ _ x => we_uid x
  | InsSet _ _ _ s => set_uid s
  end.
End Tables.

(** ** The state of one conversion and its monad *)

Inductive exn := ValueError | KeyError | IndexError | OverflowError.

Section Builder.
Context `{Runtime}.

Record state := {
  conn : list event;                           (* executed INSERTs, oldest first *)
  exercises : gmap string nat;                 (* name -> id *)
  workouts : gmap string nat;                  (* date_str -> id *)
  workout_exercises : gmap (nat * nat) nat;    (* (workout_id, exercise_id) -> id *)
  set_count : nat;
  uid_calls : nat;                             (* calls of generate_uid so far *)
  now_calls : nat                              (* readings of the clock so far *)
}.

Definition initial_state : state :=
  {| conn := []; exercises := ∅; workouts := ∅; workout_exercises := ∅;
     set_count := 0; uid_calls := 0; now_calls := 0 |}.

(** A computation ends normally with a value and a state, or with an
    uncaught exception and the state it was raised in. *)
Inductive outcome (A : Type) :=
| Done (a : A) (s : state)
| Raised (e : exn) (s : state).
Global Arguments Done {A} a s.
Global Arguments Raised {A} e s.

Definition M (A : Type) : Type := state → outcome A.

Global Instance M_ret : MRet M := λ A a s, Done a s.
Global Instance M_bind : MBind M := λ A B f m s,
  match m s with
  | Done a s' => f a s'
  | Raised e s' => Raised e s'
  end.

Definition raise {A} (e : exn) : M A := λ s, Raised e s.

Definition final_state {A} (o : outcome A) : state :=
  match o with Done _ s | Raised _ s => s end.

Definition execute (e : event) : M unit := λ s,
  Done tt {| conn := conn s ++ [e]; exercises := exercises s;
             workouts := workouts s;
             workout_exercises := workout_exercises s;
             set_count := set_count s; uid_calls := uid_calls s;
             now_calls := now_calls s |}.

Definition get_state : M state := λ s, Done s s.

Definition remember_exercise (name : string) (id : nat) : M unit := λ s,
  Done tt {| conn := conn s; exercises := <[name := id]> (exercises s);
             workouts := workouts s;
             workout_exercises := workout_exercises s;
             set_count := set_count s; uid_calls := uid_calls s;
             now_calls := now_calls s |}.

Definition remember_workout (date_str : string) (id : nat) : M unit := λ s,
  Done tt {| conn := conn s; exercises := exercises s;
             workouts := <[date_str := id]> (workouts s);
             workout_exercises := workout_exercises s;
             set_count := set_count s; uid_calls := uid_calls s;
             now_calls := now_calls s |}.

Definition remember_workout_exercise (we_key : nat * nat) (id : nat)
  : M unit := λ s,
  Done tt {| conn := conn s; exercises := exercises s;
             workouts := workouts s;
             workout_exercises := <[we_key := id]> (workout_exercises s);
             set_count := set_count s; uid_calls := uid_calls s;
             now_calls := now_calls s |}.

Definition incr_set_count : M unit := λ s,
  Done tt {| conn := conn s; exercises := exercises s;
             workouts := workouts s;
             workout_exercises := workout_exercises s;
             set_count := S (set_count s); uid_calls := uid_calls s;
             now_calls := now_calls s |}.

(** [generate_uid]: the value is the ordinal of the call. *)
Definition generate_uid : M nat := λ s,
  Done (uid_calls s)
       {| conn := conn s; exercises := exercises s; workouts := workouts s;
          workout_exercises := workout_exercises s;
          set_count := set_count s; uid_calls := S (uid_calls s);
          now_calls := now_calls s |}.

(** [datetime.now()] *)
Definition read_clock : M Z := λ s,
  Done (now_ms (now_calls s))
       {| conn := conn s; exercises := exercises s; workouts := workouts s;
          workout_exercises := workout_exercises s;
          set_count := set_count s; uid_calls := uid_calls s;
          now_calls := S (now_calls s) |}.

(** [parse_datetime], lines 29-40. *)
Definition parse_datetime (date_str time_str : string) : M Z :=
  let text := date_str +:+ " " +:+ time_str in
  match strptime_ms text "%d/%m/%Y %H:%M" with
  | Some t => mret t
  | None =>
      match strptime_ms text "%Y-%m-%d %H:%M" with
      | Some t => mret t
      | None => read_clock
      end
  end.

(** [min(g)] and [max(g)] over a generator: the running minimum is
    replaced by a later item only when that item is smaller; [None] for
    the empty generator, where Python raises [ValueError]. *)
Definition min_of (l : list string) : option string :=
  match l with
  | [] => None
  | x :: l' => Some (fold_left Py.min2 l' x)
  end.
Definition max_of (l : list string) : option string :=
  match l with
  | [] => None
  | x :: l' => Some (fold_left Py.max2 l' x)
  end.
Definition py_min (l : list string) : M string :=
  match min_of l with Some t => mret t | None => raise ValueError end.
Definition py_max (l : list string) : M string :=
  match max_of l with Some t => mret t | None => raise ValueError end.

(** [float(s) if s else None] and [int(s) if s else None], lines 322-323. *)
Definition parse_weight (weight_str : string) : M (option pyfloat) :=
  if Py.truthy weight_str then
    match float_of_str weight_str with
    | Some w => mret (Some w)
    | None => raise ValueError
    end
  else mret None.
Definition parse_reps (reps_str : string) : M (option Z) :=
  if Py.truthy reps_str then
    match int_of_str reps_str with
    | Some n => mret (Some n)
    | None => raise ValueError
    end
  else mret None.

(** [x if x else None] *)
Definition or_none (x : string) : option string :=
  if Py.truthy x then Some x else None.

(** *** Grouping: [defaultdict(list)] *)

(** [g[k].append(v)] *)
Fixpoint group_append (k : string) (v : row) (g : list (string * list row))
  : list (string * list row) :=
  match g with
  | [] => [(k, [v])]
  | (k', vs) :: g' =>
      if decide (k = k') then (k', vs ++ [v]) :: g'
      else (k', vs) :: group_append k v g'
  end.

(** [g[k]]; a key that is absent reads as the empty list. *)
Fixpoint group_get (g : list (string * list row)) (k : string) : list row :=
  match g with
  | [] => []
  | (k', vs) :: g' => if decide (k = k') then vs else group_get g' k
  end.

(** The two grouping loops, lines 238-242 and 270-274, have one shape:
    a row whose key is the empty string is skipped, any other row is
    appended to the list of its key. *)
Definition group_rows (key : row → string) (rows : list row)
  : list (string * list row) :=
  fold_left
    (λ groups r,
       let k := key r in
       if Py.truthy k then group_append k r groups else groups)
    rows [].

(** Line 240: [row.get('Date', '')]. *)
Definition date_of (r : row) : string := Py.get r "Date" "".

(** Line 272: [row.get('Exercise', '').strip()]. *)
Definition exercise_of (r : row) : string :=
  Py.strip (Py.get r "Exercise" "").

(** Lines 238-242. *)
Definition group_by_date (rows : list row) : list (string * list row) :=
  group_rows date_of rows.

(** Lines 270-274. *)
Definition group_by_exercise (day_rows : list row)
  : list (string * list row) :=
  group_rows exercise_of day_rows.

(** Lines 254-255: [row.get('Time', '00:00') for row in day_rows]. *)
Definition times_of (day_rows : list row) : list string :=
  (λ r, Py.get r "Time" "00:00") <$> day_rows.

(** [sorted(keys, reverse=True)]: the keys of a dict are distinct and
    the order on [str] is total, so the result is the one descending
    arrangement of the keys. *)
Fixpoint insert_desc (k : string) (l : list string) : list string :=
  match l with
  | [] => [k]
  | x :: l' => if String.leb x k then k :: l else x :: insert_desc k l'
  end.
Definition sorted_reverse (l : list string) : list string :=
  foldr insert_desc [] l.

(** *** INSERT statements and [cursor.lastrowid] *)

Definition insert_workout (date_str : string) (uid : nat)
    (started_at completed_at : Z) : M nat :=
  s ← get_state;
  let id := S (length (workouts_table (conn s))) in
  execute (InsWorkout date_str
             {| wo_id := id; wo_uid := uid; wo_started_at := started_at;
                wo_completed_at := completed_at |});;
  mret id.

Definition insert_exercise (date_str : string) (uid : nat) (name : string)
    (created_at : Z) : M nat :=
  s ← get_state;
  let id := S (length (exercises_table (conn s))) in
  execute (InsExercise date_str
             {| ex_id := id; ex_uid := uid; ex_name := name;
                ex_created_at := created_at |});;
  mret id.

Definition insert_workout_exercise (date_str exercise_name : string)
    (uid workout_id exercise_id order_index : nat) (note : option string)
    (performed_at completed_at : Z) : M nat :=
  s ← get_state;
  let id := S (length (workout_exercises_table (conn s))) in
  execute (InsWorkoutExercise date_str exercise_name
             {| we_id := id; we_uid := uid; we_workout_id := workout_id;
                we_exercise_id := exercise_id;
                we_order_index := order_index; we_note := note;
                we_performed_at := performed_at;
                we_completed_at := completed_at |});;
  mret id.

(** SQLite keeps an INTEGER in 64 bits, two's complement. *)
Definition int64 (n : Z) : bool :=
  ((- 2 ^ 63 <=? n) && (n <? 2 ^ 63))%Z.

(** An optional [int] can be bound to a parameter of a statement when it
    is [None] or fits. *)
Definition fits (x : option Z) : bool :=
  match x with Some n => int64 n | None => true end.

(** [conn.execute] binds its parameters before the statement runs, and
    binding an [int] that does not fit raises OverflowError (Python int
    too large to convert to SQLite INTEGER). *)
Definition bind_int (x : option Z) : M unit :=
  if fits x then mret tt else raise OverflowError.

(** Lines 326-333.  Of the integers bound here [reps] is the one that
    comes from the input, through [int], which has no bound; the others
    are row ids, the set index, the literal 0 and a timestamp in
    milliseconds of a [datetime], whose years run from 1 to 9999. *)
Definition insert_set (date_str exercise_name : string) (src : row)
    (uid workout_id exercise_id we_id set_index : nat)
    (weight : option pyfloat) (reps : option Z) (note : option string)
    (performed_at : Z) (is_warmup : Z) : M unit :=
  bind_int reps;;
  s ← get_state;
  let id := S (length (sets_table (conn s))) in
  execute (InsSet date_str exercise_name src
             {| set_id := id; set_uid := uid; set_workout_id := workout_id;
                set_exercise_id := exercise_id;
                set_workout_exercise_id := we_id; set_index := set_index;
                set_weight_kg := weight; set_reps := reps;
                set_note := note; set_performed_at := performed_at;
                set_is_warmup := is_warmup |}).

(** *** The three nested loops of [convert_csv_to_db] *)

(** Lines 313-335: [for row in exercise_rows]. *)
Fixpoint create_sets (date_str exercise_name : string)
    (workout_id exercise_id we_id : nat) (set_index : nat)
    (exercise_rows : list row) : M unit :=
  match exercise_rows with
  | [] => mret tt
  | r :: rest =>
      performed_at ←
        parse_datetime (Py.get r "Date" date_str) (Py.get r "Time" "00:00");
      let weight_str := Py.strip (Py.get r "Weight" "") in
      let reps_str := Py.strip (Py.get r "# of Reps" "") in
      let note := Py.strip (Py.get r "Notes" "") in
      weight ← parse_weight weight_str;
      reps ← parse_reps reps_str;
      set_uid ← generate_uid;
      insert_set date_str exercise_name r set_uid workout_id exercise_id
        we_id set_index weight reps (or_none note) performed_at 0;;
      incr_set_count;;
      create_sets date_str exercise_name workout_id exercise_id we_id
        (S set_index) rest
  end.

(** [exercise_rows[0]]: a group is created by its first append, so the
    list is never empty. *)
Definition first_row (exercise_rows : list row) : M row :=
  match exercise_rows with
  | r :: _ => mret r
  | [] => raise IndexError
  end.

(** Lines 278-287: the exercise is created when its name is not in
    [exercises] yet; the value is [exercise_id]. *)
Definition ensure_exercise (date_str exercise_name : string)
    (workout_started_at : Z) : M nat :=
  s ← get_state;
  (match exercises s !! exercise_name with
   | None =>
       exercise_uid ← generate_uid;
       id ← insert_exercise date_str exercise_uid exercise_name
              workout_started_at;
       remember_exercise exercise_name id
   | Some _ => mret tt
   end);;
  s ← get_state;
  match exercises s !! exercise_name with
  | Some id => mret id
  | None => raise KeyError
  end.

(** Lines 289-310: the workout_exercises row is created when its key is
    not in [workout_exercises] yet; the value is [we_id] with the new
    value of [exercise_order]. *)
Definition ensure_workout_exercise (date_str exercise_name : string)
    (workout_id exercise_id exercise_order : nat)
    (exercise_rows : list row) : M (nat * nat) :=
  let we_key := (workout_id, exercise_id) in
  s ← get_state;
  exercise_order' ←
    (match workout_exercises s !! we_key with
     | None =>
         first ← first_row exercise_rows;
         performed_at ←
           parse_datetime (Py.get first "Date" date_str)
                          (Py.get first "Time" "00:00");
         let first_note := Py.strip (Py.get first "Notes" "") in
         we_uid ← generate_uid;
         id ← insert_workout_exercise date_str exercise_name we_uid
                workout_id exercise_id exercise_order (or_none first_note)
                performed_at performed_at;
         remember_workout_exercise we_key id;;
         mret (S exercise_order)
     | Some _ => mret exercise_order
     end);
  s ← get_state;
  match workout_exercises s !! we_key with
  | Some id => mret (id, exercise_order')
  | None => raise KeyError
  end.

(** Lines 277-335: [for exercise_name, exercise_rows in
    exercises_for_day.items()]. *)
Fixpoint process_exercises (date_str : string) (workout_id : nat)
    (workout_started_at : Z) (exercise_order : nat)
    (exercises_for_day : list (string * list row)) : M unit :=
  match exercises_for_day with
  | [] => mret tt
  | (exercise_name, exercise_rows) :: rest =>
      exercise_id ←
        ensure_exercise date_str exercise_name workout_started_at;
      '(we_id, exercise_order') ←
        ensure_workout_exercise date_str exercise_name workout_id
          exercise_id exercise_order exercise_rows;
      create_sets date_str exercise_name workout_id exercise_id we_id 0
        exercise_rows;;
      process_exercises date_str workout_id workout_started_at
        exercise_order' rest
  end.

(** Lines 251-335: the body of [for date_str in sorted(...)]. *)
Definition process_day (rows_by_date : list (string * list row))
    (date_str : string) : M unit :=
  let day_rows := group_get rows_by_date date_str in
  earliest_time ← py_min (times_of day_rows);
  latest_time ← py_max (times_of day_rows);
  workout_started_at ← parse_datetime date_str earliest_time;
  workout_completed_at ← parse_datetime date_str latest_time;
  workout_uid ← generate_uid;
  workout_id ← insert_workout date_str workout_uid workout_started_at
                 workout_completed_at;
  remember_workout date_str workout_id;;
  process_exercises date_str workout_id workout_started_at 0
    (group_by_exercise day_rows).

(** Line 250: [for date_str in sorted(rows_by_date.keys(), reverse=True)]. *)
Fixpoint process_days (rows_by_date : list (string * list row))
    (dates : list string) : M unit :=
  match dates with
  | [] => mret tt
  | date_str :: rest =>
      process_day rows_by_date date_str;;
      process_days rows_by_date rest
  end.

(** Lines 232-335: the hierarchy builder, from the extracted rows to the
    last INSERT. *)
Definition build_hierarchy (rows : list row) : M unit :=
  let rows_by_date := group_by_date rows in
  process_days rows_by_date (sorted_reverse (rows_by_date.*1)).
End Builder.

(** ** The record extractor: [read_csv] *)

Section Extractor.
Context `{Runtime}.

Definition newline : string := String "010"%char EmptyString.

(** ['\n'.join(l)] *)
Fixpoint join_lines (l : list string) : string :=
  match l with
  | [] => EmptyString
  | [x] => x
  | x :: l' => x +:+ newline +:+ join_lines l'
  end.

(** The variables of the scanning loop, lines 153-155. *)
Record scan := {
  in_strength_section : bool;
  header_line : option string;
  data_lines : list string
}.

(** Lines 157-173; [break] ends the recursion. *)
Fixpoint scan_lines (lines : list string) (st : scan) : scan :=
  match lines with
  | [] => st
  | line :: rest =>
      let stripped := Py.strip line in
      if Py.startswith stripped "-----" then
        if Py.contains "Strength" stripped then
          scan_lines rest
            {| in_strength_section := true;
               header_line := header_line st;
               data_lines := data_lines st |}
        else if in_strength_section st then st
        else scan_lines rest st
      else if in_strength_section st then
        match header_line st with
        | None =>
            scan_lines rest
              {| in_strength_section := in_strength_section st;
                 header_line := Some stripped;
                 data_lines := data_lines st |}
        | Some _ =>
            if Py.truthy stripped then
              scan_lines rest
                {| in_strength_section := in_strength_section st;
                   header_line := header_line st;
                   data_lines := data_lines st ++ [stripped] |}
            else scan_lines rest st
        end
      else scan_lines rest st
  end.

(** [d[k] = v] on a dict, which keeps the position of a key it already
    has. *)
Fixpoint dict_set {V} (k : string) (v : V) (d : list (string * V))
  : list (string * V) :=
  match d with
  | [] => [(k, v)]
  | (k', v') :: d' =>
      if decide (k = k') then (k', v) :: d'
      else (k', v') :: dict_set k v d'
  end.

(** The dict [csv.DictReader] builds for one record:
    [dict(zip(fieldnames, row))], then [restval = None] for the field
    names a short record leaves over.  The entry under [restkey = None]
    of a long record is left out: line 203 skips it. *)
Definition dict_row (fieldnames record : list string)
  : list (string * option string) :=
  let d := fold_left (λ d kv, dict_set kv.1 (Some kv.2) d)
             (zip fieldnames record) [] in
  fold_left (λ d k, dict_set k None d)
    (drop (length record) fieldnames) d.

(** [value.strip() if value else ''] *)
Definition clean_value (value : option string) : string :=
  match value with
  | Some v => if Py.truthy v then Py.strip v else ""
  | None => ""
  end.

(** Lines 201-205. *)
Definition clean (d : list (string * option string)) : row :=
  fold_left
    (λ clean_row kv,
       if Py.truthy kv.1
       then <[Py.strip kv.1 := clean_value kv.2]> clean_row
       else clean_row)
    d ∅.

(** [for row in csv.DictReader(f)] with the body of lines 200-207 (and
    185-192): the first record gives the field names, empty records are
    skipped, and a cleaned row is kept when it is not the empty dict. *)
Definition read_dicts (text : string) : list row :=
  match csv_reader text with
  | [] => []
  | fieldnames :: records =>
      List.filter (λ clean_row, negb (bool_decide (clean_row = ∅)))
        ((λ record, clean (dict_row fieldnames record)) <$>
           List.filter (λ record, negb (bool_decide (record = []))) records)
  end.

(** Lines 175-193: the whole file is read, without its first line when
    that line is a section marker. *)
Definition read_whole_file (lines : list string) : list row :=
  match lines with
  | first_line :: rest =>
      if Py.startswith (Py.strip first_line) "-----"
      then read_dicts (String.concat "" rest)
      else read_dicts (String.concat "" lines)
  | [] => read_dicts ""
  end.

(** [read_csv] on the lines [f.readlines()] returns. *)
Definition read_csv (lines : list string) : list row :=
  let st := scan_lines lines
              {| in_strength_section := false; header_line := None;
                 data_lines := [] |} in
  match header_line st with
  | Some h =>
      if Py.truthy h
      then read_dicts (h +:+ newline +:+ join_lines (data_lines st))
      else read_whole_file lines
  | None => read_whole_file lines
  end.
End Extractor.

(** ** [convert_csv_to_db] *)

Section Convert.
Context `{Runtime}.

(** The output path holds no file, or a database with the rows committed
    to it (schema and default settings are the same in every database the
    script writes). *)
Record result := {
  exit_code : Z;
  db_file : option (list event)
}.

(** Lines 212-346.  An empty extraction exits with status 1 before the
    output path is touched.  Otherwise the old file is removed and a new
    one created; the INSERTs run in one transaction that line 338
    commits, so an uncaught exception, which ends the process with
    status 1, leaves the new file without data rows. *)
Definition convert_csv_to_db (csv_lines : list string)
    (db_path : option (list event)) : result :=
  let rows := read_csv csv_lines in
  match rows with
  | [] => {| exit_code := 1; db_file := db_path |}
  | _ =>
      match build_hierarchy rows initial_state with
      | Done _ s => {| exit_code := 0; db_file := Some (conn s) |}
      | Raised _ _ => {| exit_code := 1; db_file := Some [] |}
      end
  end.
End Convert.

(** ** Vocabulary of the statements *)

Section Vocabulary.
Context `{Runtime}.

(** The value [parse_datetime] returns when the clock reads [now]. *)
Definition parse_datetime_at (now : Z) (date_str time_str : string) : Z :=
  let text := date_str +:+ " " +:+ time_str in
  match strptime_ms text "%d/%m/%Y %H:%M" with
  | Some t => t
  | None =>
      match strptime_ms text "%Y-%m-%d %H:%M" with
      | Some t => t
      | None => now
      end
  end.

(** A row reaches the sets loop when its date and its trimmed exercise
    name are not empty (lines 241 and 273). *)
Definition kept (r : row) : bool :=
  Py.truthy (date_of r) && Py.truthy (exercise_of r).

(** Line 322 does not raise on the row. *)
Definition weight_ok (r : row) : bool :=
  let weight_str := Py.strip (Py.get r "Weight" "") in
  negb (Py.truthy weight_str) || bool_decide (is_Some (float_of_str weight_str)).

(** Line 323 does not raise on the row. *)
Definition reps_ok (r : row) : bool :=
  let reps_str := Py.strip (Py.get r "# of Reps" "") in
  negb (Py.truthy reps_str) || bool_decide (is_Some (int_of_str reps_str)).

Definition numeric_ok (r : row) : bool := weight_ok r && reps_ok r.

(** The value line 323 gives to [reps], where it does not raise. *)
Definition reps_of (r : row) : option Z :=
  let reps_str := Py.strip (Py.get r "# of Reps" "") in
  if Py.truthy reps_str then int_of_str reps_str else None.

(** The INSERT of lines 326-333 does not raise on the row: its reps
    value can be bound. *)
Definition reps_fits (r : row) : bool := fits (reps_of r).

(** Nothing in the sets loop raises on the row. *)
Definition insertable (r : row) : bool := numeric_ok r && reps_fits r.

(** The exception the body of the sets loop raises on the row, if any:
    ValueError from [float] or [int], OverflowError from the INSERT. *)
Definition row_error (r : row) : option exn :=
  if negb (numeric_ok r) then Some ValueError
  else if negb (reps_fits r) then Some OverflowError
  else None.

(** The exception that ends the sets loop over the rows, if any: that of
    the first row that raises. *)
Fixpoint first_error (rs : list row) : option exn :=
  match rs with
  | [] => None
  | r :: rs' =>
      match row_error r with
      | Some e => Some e
      | None => first_error rs'
      end
  end.

(** The exercise name an INSERT into workout_exercises or sets was
    executed for. *)
Definition event_name (e : event) : option string :=
  match e with
  | InsWorkoutExercise _ n _ | InsSet _ n _ _ => Some n
  | _ => None
  end.

(** The [exercise_id] column of a workout_exercises or sets row. *)
Definition event_exercise_id (e : event) : option nat :=
  match e with
  | InsWorkoutExercise _ _ x => Some (we_exercise_id x)
  | InsSet _ _ _ s => Some (set_exercise_id s)
  | _ => None
  end.

(** The workout_exercises rows inserted for one date, oldest first. *)
Definition day_links (d : string) (log : list event)
  : list workout_exercise_row :=
  omap (λ e, match e with
             | InsWorkoutExercise d' _ x =>
                 if decide (d' = d) then Some x else None
             | _ => None
             end) log.

(** The exercise names of the workout_exercises rows inserted for one
    date, oldest first. *)
Definition day_link_names (d : string) (log : list event) : list string :=
  omap (λ e, match e with
             | InsWorkoutExercise d' n _ =>
                 if decide (d' = d) then Some n else None
             | _ => None
             end) log.

(** The workouts rows inserted for one date. *)
Definition day_workouts (d : string) (log : list event) : list workout_row :=
  omap (λ e, match e with
             | InsWorkout d' w => if decide (d' = d) then Some w else None
             | _ => None
             end) log.

(** The CSV rows the sets rows were inserted for, oldest first. *)
Definition set_sources (log : list event) : list row :=
  omap (λ e, match e with InsSet _ _ r _ => Some r | _ => None end) log.

(** What an INSERT is for, without the inserted values; the INSERTs into
    exercises, which depend on the names seen before, are left out. *)
Inductive tag :=
| TWorkout (d : string)
| TLink (d n : string)
| TSet (d n : string) (r : row).

Definition tag_of (e : event) : option tag :=
  match e with
  | InsWorkout d _ => Some (TWorkout d)
  | InsExercise _ _ => None
  | InsWorkoutExercise d n _ => Some (TLink d n)
  | InsSet d n r _ => Some (TSet d n r)
  end.

Definition skeleton (log : list event) : list tag := omap tag_of log.

Definition tag_source (t : tag) : option row :=
  match t with TSet _ _ r => Some r | _ => None end.

Definition tag_workout (t : tag) : option string :=
  match t with TWorkout d => Some d | _ => None end.

Definition tag_link (d : string) (t : tag) : option string :=
  match t with
  | TLink d' n => if decide (d' = d) then Some n else None
  | _ => None
  end.

(** The skeleton of a completed run, read off the grouping. *)
Definition exercise_skeleton (d : string) (group : string * list row)
  : list tag :=
  TLink d group.1 :: (TSet d group.1 <$> group.2).

Definition day_skeleton (rows_by_date : list (string * list row))
    (d : string) : list tag :=
  TWorkout d ::
  concat (exercise_skeleton d <$> group_by_exercise (group_get rows_by_date d)).

(** The rows of one date that reach the sets loop, in the order of their
    sets rows. *)
Definition day_sources (rows_by_date : list (string * list row))
    (d : string) : list row :=
  concat (group_by_exercise (group_get rows_by_date d)).*2.

(** The rows that reach the sets loop, in the order of their sets rows. *)
Definition sources (rows : list row) : list row :=
  let rows_by_date := group_by_date rows in
  concat (day_sources rows_by_date <$> sorted_reverse rows_by_date.*1).

(** First-seen order: each value once, at the place of its first
    occurrence. *)
Fixpoint first_seen (l : list string) : list string :=
  match l with
  | [] => []
  | x :: l' => x :: filter (λ y, y ≠ x) (first_seen l')
  end.

(** What the log must satisfy where [e] is appended to [pre]. *)
Definition event_ok (rows_by_date : list (string * list row))
    (pre : list event) (e : event) : Prop :=
  (∀ e', e' ∈ pre → event_uid e' < event_uid e) ∧
  (∀ e', e' ∈ pre → String.le (event_date e) (event_date e')) ∧
  match e with
  | InsWorkout d w =>
      wo_id w = S (length (workouts_table pre)) ∧
      (∀ e', e' ∈ pre → event_date e' ≠ d) ∧
      ∃ t1 t2 k1 k2,
        min_of (times_of (group_get rows_by_date d)) = Some t1 ∧
        max_of (times_of (group_get rows_by_date d)) = Some t2 ∧
        wo_started_at w = parse_datetime_at (now_ms k1) d t1 ∧
        wo_completed_at w = parse_datetime_at (now_ms k2) d t2
  | InsExercise d x =>
      ex_id x = S (length (exercises_table pre)) ∧
      (∀ y, y ∈ exercises_table pre → ex_name y ≠ ex_name x) ∧
      ex_name x ∈ (group_by_exercise (group_get rows_by_date d)).*1
  | InsWorkoutExercise d n x =>
      we_id x = S (length (workout_exercises_table pre)) ∧
      (∃ w, InsWorkout d w ∈ pre ∧ wo_id w = we_workout_id x) ∧
      (∃ d0 y, InsExercise d0 y ∈ pre ∧ ex_name y = n ∧
               ex_id y = we_exercise_id x) ∧
      (∀ e', e' ∈ pre → event_date e' = d → event_name e' ≠ Some n) ∧
      we_order_index x = length (day_links d pre)
  | InsSet d n r s =>
      set_id s = S (length (sets_table pre)) ∧
      (∃ x, InsWorkoutExercise d n x ∈ pre ∧
            we_id x = set_workout_exercise_id s ∧
            we_workout_id x = set_workout_id s ∧
            we_exercise_id x = set_exercise_id s) ∧
      r ∈ group_get rows_by_date d ∧
      date_of r = d ∧ exercise_of r = n ∧
      (let weight_str := Py.strip (Py.get r "Weight" "") in
       set_weight_kg s =
         if Py.truthy weight_str then float_of_str weight_str else None) ∧
      (let reps_str := Py.strip (Py.get r "# of Reps" "") in
       set_reps s =
         if Py.truthy reps_str then int_of_str reps_str else None) ∧
      numeric_ok r = true ∧
      set_is_warmup s = 0%Z ∧
      ∃ k, set_performed_at s =
             parse_datetime_at (now_ms k) (Py.get r "Date" d)
               (Py.get r "Time" "00:00")
  end.

(** Every INSERT of the log was consistent with the INSERTs before it. *)
Definition log_ok (rows_by_date : list (string * list row))
    (log : list event) : Prop :=
  ∀ i e, log !! i = Some e → event_ok rows_by_date (take i log) e.

(** The dicts and counters of the state agree with the log. *)
Record maps_ok (s : state) : Prop := {
  mo_uid : ∀ e, e ∈ conn s → event_uid e < uid_calls s;
  mo_count : set_count s = length (sets_table (conn s));
  mo_ex : ∀ n id,
    exercises s !! n = Some id ↔
    ∃ d x, InsExercise d x ∈ conn s ∧ ex_name x = n ∧ ex_id x = id;
  mo_wo : ∀ d id,
    workouts s !! d = Some id ↔
    ∃ w, InsWorkout d w ∈ conn s ∧ wo_id w = id;
  mo_we : ∀ w e id,
    workout_exercises s !! (w, e) = Some id →
    ∃ d n x, InsWorkoutExercise d n x ∈ conn s ∧ we_workout_id x = w ∧
             we_exercise_id x = e ∧ we_id x = id
}.

Definition inv (rows_by_date : list (string * list row)) (s : state) : Prop :=
  log_ok rows_by_date (conn s) ∧ maps_ok s.

(** What the loops use of the grouping by date. *)
Definition groups_ok (rows_by_date : list (string * list row)) : Prop :=
  NoDup rows_by_date.*1 ∧
  ∀ d, d ∈ rows_by_date.*1 →
       group_get rows_by_date d ≠ [] ∧
       Forall (λ r, date_of r = d) (group_get rows_by_date d).

(** A dict of groups as the loops build it: every list is non-empty and
    holds rows of its key. *)
Definition group_wf (key : row → string) (g : list (string * list row)) : Prop :=
  NoDup g.*1 ∧
  Forall (λ p, p.2 ≠ [] ∧ Py.truthy p.1 = true ∧ Forall (λ r, key r = p.1) p.2) g.

(** Two states that differ at most in the number of clock readings. *)
Definition same_core (s s' : state) : Prop :=
  conn s' = conn s ∧ exercises s' = exercises s ∧ workouts s' = workouts s ∧
  workout_exercises s' = workout_exercises s ∧ set_count s' = set_count s ∧
  uid_calls s' = uid_calls s.

(** The state after a call of [generate_uid] whose INSERT raised. *)
Definition after_uid (s : state) : state :=
  {| conn := conn s; exercises := exercises s; workouts := workouts s;
     workout_exercises := workout_exercises s; set_count := set_count s;
     uid_calls := S (uid_calls s); now_calls := now_calls s |}.

(** The state after one INSERT and its bookkeeping. *)
Definition after_insert (s : state) (e : event) : state :=
  {| conn := conn s ++ [e];
     exercises :=
       match e with
       | InsExercise _ x => <[ex_name x := ex_id x]> (exercises s)
       | _ => exercises s
       end;
     workouts :=
       match e with
       | InsWorkout d w => <[d := wo_id w]> (workouts s)
       | _ => workouts s
       end;
     workout_exercises :=
       match e with
       | InsWorkoutExercise _ _ x =>
           <[(we_workout_id x, we_exercise_id x) := we_id x]>
             (workout_exercises s)
       | _ => workout_exercises s
       end;
     set_count :=
       match sets_of e with
       | Some _ => S (set_count s)
       | None => set_count s
       end;
     uid_calls := S (uid_calls s);
     now_calls := now_calls s |}.

(** The dict of a record when no field name repeats: the field names in
    order, each with its field, or with [None] past the end of the
    record. *)
Fixpoint padded (fieldnames record : list string)
  : list (string * option string) :=
  match fieldnames with
  | [] => []
  | k :: fieldnames' =>
      match record with
      | [] => (k, None) :: padded fieldnames' []
      | v :: record' => (k, Some v) :: padded fieldnames' record'
      end
  end.

Definition is_done {A} (o : outcome A) : Prop :=
  match o with Done _ _ => True | Raised _ _ => False end.
End Vocabulary.

(** ** Five statements of the specification, as it words them

    The code does not satisfy these; each is refuted on a concrete input
    below, next to the statement that does hold. *)

Section As_stated.
Context `{Runtime}.

(** One sets row per extracted record, when every numeric field parses. *)
Definition one_set_per_record (lines : list string) : Prop :=
  let rows := read_csv lines in
  forallb numeric_ok rows = true →
  ∃ s, build_hierarchy rows initial_state = Done tt s ∧
       length (sets_table (conn s)) = length rows.

(** The instant a date string stands for: midnight of that day, read with
    the two formats of [parse_datetime]. *)
Definition date_ms (d : string) : option Z :=
  match strptime_ms (d +:+ " 00:00") "%d/%m/%Y %H:%M" with
  | Some t => Some t
  | None => strptime_ms (d +:+ " 00:00") "%Y-%m-%d %H:%M"
  end.

(** Most recent workout first: a row inserted for a later day is inserted,
    and its synthetic id minted, before every row of an earlier day. *)
Definition most_recent_first (rows : list row) : Prop :=
  let log := conn (final_state (build_hierarchy rows initial_state)) in
  ∀ i j e1 e2 t1 t2,
    log !! i = Some e1 → log !! j = Some e2 →
    date_ms (event_date e1) = Some t1 → date_ms (event_date e2) = Some t2 →
    (t2 < t1)%Z →
    i < j ∧ event_uid e1 < event_uid e2.

(** Header fields that differ only in letter case or surrounding
    whitespace give the same run of the builder. *)
Definition header_case_insensitive (text text' : string) : Prop :=
  ∀ fieldnames fieldnames' records,
    csv_reader text = fieldnames :: records →
    csv_reader text' = fieldnames' :: records →
    (Py.lower ∘ Py.strip) <$> fieldnames =
    (Py.lower ∘ Py.strip) <$> fieldnames' →
    build_hierarchy (read_dicts text) initial_state =
    build_hierarchy (read_dicts text') initial_state.

(** One exercises row for every exercise name of the extracted records. *)
Definition one_exercise_per_name (rows : list row) : Prop :=
  ∀ s n,
    build_hierarchy rows initial_state = Done tt s →
    n ∈ exercise_of <$> rows → n ≠ "" →
    ∃ x, filter (λ y, ex_name y = n) (exercises_table (conn s)) = [x].

End As_stated.

(** ** Vocabulary for the lines of the input file *)

(** Line 161: the stripped line starts with five dashes. *)
Definition marker_line (line : string) : bool :=
  Py.startswith (Py.strip line) "-----".

(** Lines 161-162: a marker line that names the Strength section. *)
Definition strength_marker (line : string) : bool :=
  marker_line line && Py.contains "Strength" (Py.strip line).

(** The stripped lines that are not empty (line 172). *)
Definition nonblank (lines : list string) : list string :=
  filter (λ l, l ≠ "") (Py.strip <$> lines).

(** The text the fallback path gives to [csv.DictReader] (lines 178-184):
    the file without its first line when that line is a marker. *)
Definition fallback_text (lines : list string) : string :=
  match lines with
  | first_line :: rest =>
      if marker_line first_line then String.concat "" rest
      else String.concat "" lines
  | [] => ""
  end.

(** The variables of the scanning loop before the first line, lines
    153-155. *)
Definition scan0 : scan :=
  {| in_strength_section := false; header_line := None; data_lines := [] |}.

(** ** Vocabulary for the columns of the inserted rows *)

Section Details.
Context `{Runtime}.

(** [exercises_for_day[exercise_name]] while the date [d] is processed
    (lines 270-277): the records of one exercise on one date, in file
    order. *)
Definition exercise_rows_of (rows_by_date : list (string * list row))
    (d n : string) : list row :=
  group_get (group_by_exercise (group_get rows_by_date d)) n.

(** The sets rows inserted for one exercise of one date, oldest first,
    each with the CSV row it was made from. *)
Definition group_sets (d n : string) (log : list event)
  : list (row * set_row) :=
  omap (λ e, match e with
             | InsSet d' n' r s =>
                 if decide (d' = d ∧ n' = n) then Some (r, s) else None
             | _ => None
             end) log.

(** The sets rows that refer to one workout_exercises row, oldest first,
    each with the CSV row it was made from. *)
Definition link_sets (we : nat) (log : list event) : list (row * set_row) :=
  omap (λ e, match e with
             | InsSet _ _ r s =>
                 if decide (set_workout_exercise_id s = we)
                 then Some (r, s) else None
             | _ => None
             end) log.

(** A workouts row with the date it was inserted for. *)
Definition dated_workout (e : event) : option (string * workout_row) :=
  match e with InsWorkout d w => Some (d, w) | _ => None end.

(** The CSV row of a [TSet] tag of one exercise of one date. *)
Definition tag_set (d n : string) (t : tag) : option row :=
  match t with
  | TSet d' n' r => if decide (d' = d ∧ n' = n) then Some r else None
  | _ => None
  end.

(** What the columns of an inserted row hold, where [e] is appended to
    [pre]: the creation time of an exercise, the note and times of a
    workout_exercises row, and the position and note of a sets row. *)
Definition event_detail (rows_by_date : list (string * list row))
    (pre : list event) (e : event) : Prop :=
  match e with
  | InsWorkout _ _ => True
  | InsExercise d x =>
      ∃ w, InsWorkout d w ∈ pre ∧ ex_created_at x = wo_started_at w
  | InsWorkoutExercise d n x =>
      ∃ first k,
        head (exercise_rows_of rows_by_date d n) = Some first ∧
        we_note x = or_none (Py.strip (Py.get first "Notes" "")) ∧
        we_performed_at x =
          parse_datetime_at (now_ms k) (Py.get first "Date" d)
            (Py.get first "Time" "00:00") ∧
        we_completed_at x = we_performed_at x
  | InsSet d n r s =>
      set_index s = length (group_sets d n pre) ∧
      exercise_rows_of rows_by_date d n !! set_index s = Some r ∧
      set_note s = or_none (Py.strip (Py.get r "Notes" ""))
  end.

Definition log_detail (rows_by_date : list (string * list row))
    (log : list event) : Prop :=
  ∀ i e, log !! i = Some e → event_detail rows_by_date (take i log) e.

(** The dict [workout_exercises] holds the key and the id of every
    workout_exercises row (line 307). *)
Definition links_recorded (s : state) : Prop :=
  ∀ d n x, InsWorkoutExercise d n x ∈ conn s →
    workout_exercises s !! (we_workout_id x, we_exercise_id x) =
      Some (we_id x).

Definition detail (rows_by_date : list (string * list row)) (s : state)
  : Prop :=
  log_detail rows_by_date (conn s) ∧ links_recorded s.
End Details.

(** ** A concrete runtime

    One instance of [Runtime], used to run the model on concrete inputs:
    signed runs of digits for [int], unsigned runs of digits with at most
    one point for [float], zero-padded dates and times in UTC for
    [strptime], a clock that starts at 2026-02-01 00:00 UTC and advances by
    one millisecond per reading, and a CSV reader for records on one line
    with optional double quotes around a field.  On the sample inputs
    below it agrees with CPython run with TZ=UTC. *)

Module Sample.

Definition digit (c : ascii) : option Z :=
  Z.of_nat <$> Ascii.is_nat c.

Fixpoint digits_acc (acc : Z) (l : list ascii) : option Z :=
  match l with
  | [] => Some acc
  | c :: l' => d ← digit c; digits_acc (10 * acc + d)%Z l'
  end.

(** A non-empty run of decimal digits. *)
Definition digits (l : list ascii) : option Z :=
  match l with
  | [] => None
  | _ => digits_acc 0 l
  end.

Definition dec_int (s : string) : option Z :=
  match String.list_ascii_of_string s with
  | "-"%char :: l => Z.opp <$> digits l
  | "+"%char :: l => digits l
  | l => digits l
  end.

(** A float is kept as mantissa and number of decimals:
    [(525, 1)] is 52.5. *)
Fixpoint split_dot (l : list ascii) : list ascii * option (list ascii) :=
  match l with
  | [] => ([], None)
  | "."%char :: l' => ([], Some l')
  | c :: l' => let '(a, b) := split_dot l' in (c :: a, b)
  end.

Definition dec_float (s : string) : option (Z * nat) :=
  match split_dot (String.list_ascii_of_string s) with
  | (a, None) => m ← digits a; Some (m, 0)
  | (a, Some b) => m ← digits (a ++ b); Some (m, length b)
  end.

(** Days from 1970-01-01 to the given civil date. *)
Definition days_from_civil (y m d : Z) : Z :=
  let y' := (if (m <=? 2) then y - 1 else y)%Z in
  let era := (y' / 400)%Z in
  let yoe := (y' - era * 400)%Z in
  let mp := (if (m <=? 2) then m + 9 else m - 3)%Z in
  let doy := ((153 * mp + 2) / 5 + d - 1)%Z in
  let doe := (yoe * 365 + yoe / 4 - yoe / 100 + doy)%Z in
  (era * 146097 + doe - 719468)%Z.

Definition is_leap (y : Z) : bool :=
  ((y mod 4 =? 0) && (negb (y mod 100 =? 0) || (y mod 400 =? 0)))%Z.

Definition days_in_month (y m : Z) : Z :=
  (if m =? 2 then (if is_leap y then 29 else 28)
   else if (m =? 4) || (m =? 6) || (m =? 9) || (m =? 11) then 30
   else 31)%Z.

Definition civil_ms (y m d hh mm : Z) : option Z :=
  if ((1 <=? y) && (1 <=? m) && (m <=? 12) && (1 <=? d)
      && (d <=? days_in_month y m) && (hh <=? 23) && (mm <=? 59))%Z
  then Some (((days_from_civil y m d * 24 + hh) * 60 + mm) * 60000)%Z
  else None.

Definition utc_strptime (text fmt : string) : option Z :=
  if decide (fmt = "%d/%m/%Y %H:%M") then
    match String.list_ascii_of_string text with
    | [d1; d2; "/"; m1; m2; "/"; y1; y2; y3; y4; " "; h1; h2; ":"; n1; n2]%char =>
        d ← digits [d1; d2]; m ← digits [m1; m2];
        y ← digits [y1; y2; y3; y4];
        hh ← digits [h1; h2]; mm ← digits [n1; n2];
        civil_ms y m d hh mm
    | _ => None
    end
  else if decide (fmt = "%Y-%m-%d %H:%M") then
    match String.list_ascii_of_string text with
    | [y1; y2; y3; y4; "-"; m1; m2; "-"; d1; d2; " "; h1; h2; ":"; n1; n2]%char =>
        d ← digits [d1; d2]; m ← digits [m1; m2];
        y ← digits [y1; y2; y3; y4];
        hh ← digits [h1; h2]; mm ← digits [n1; n2];
        civil_ms y m d hh mm
    | _ => None
    end
  else None.

Definition tick_clock (k : nat) : Z := (1769904000000 + Z.of_nat k)%Z.

(** Fields of one line: a field is quoted (up to the closing quote) or
    runs up to the next comma. *)
Fixpoint fields (quoted : bool) (cur : string) (l : list ascii)
  : list string :=
  match l with
  | [] => [String.rev cur]
  | c :: l' =>
      if quoted then
        if Ascii.eqb c "034"%char then fields false cur l'
        else fields true (String c cur) l'
      else if Ascii.eqb c ","%char then String.rev cur :: fields false "" l'
      else if Ascii.eqb c "034"%char then fields true cur l'
      else fields false (String c cur) l'
  end.

Fixpoint lines (cur : string) (l : list ascii) : list string :=
  match l with
  | [] => match cur with EmptyString => [] | _ => [String.rev cur] end
  | c :: l' =>
      if Ascii.eqb c "010"%char then String.rev cur :: lines "" l'
      else lines (String c cur) l'
  end.

Definition line_reader (text : string) : list (list string) :=
  (λ ln, match ln with
         | EmptyString => []
         | _ => fields false "" (String.list_ascii_of_string ln)
         end) <$> lines "" (String.list_ascii_of_string text).

Definition runtime : Runtime :=
  {| pyfloat := Z * nat;
     float_of_str := dec_float;
     int_of_str := dec_int;
     strptime_ms := utc_strptime;
     now_ms := tick_clock;
     csv_reader := line_reader |}.

(** Sample inputs. *)

Definition line (s : string) : string := s +:+ newline.

(** A file with a Strength section of the given records. *)
Definition strength_file (records : list string) : list string :=
  line "-----Strength-----" ::
  line "Date,Time,Exercise,# of Reps,Weight,Notes" ::
  (line <$> records).


(** A record without a date. *)
Definition blank_date : list string :=
  strength_file ["19/01/2026,18:34,Bicep Curl,6,50,Right";
                 ",18:40,Squat,5,100,"].


(** 2 January and 1 February 2026. *)
Definition two_months : list string :=
  strength_file ["02/01/2026,10:00,Squat,5,100,";
                 "01/02/2026,10:00,Squat,5,105,"].

(** Two dates, the exercise of the first repeated on the second. *)
Definition two_days : list string :=
  strength_file ["19/01/2026,18:30,Bicep Curl,6,50,Right";
                 "20/01/2026,09:40,Squat,8,100,";
                 "20/01/2026,09:50,Bicep Curl,8,52.5,";
                 "20/01/2026,09:55,Squat,6,110,"].



(** A Strength section with its header and no record. *)
Definition header_only : list string := strength_file [].

(** Three texts for [csv.reader] with the same record; their first header
    field is Date, the same with spaces around it, and date. *)
Definition text_plain : string :=
  line "Date,Exercise" +:+ "19/01/2026,Squat".
Definition text_spaced : string :=
  line " Date ,Exercise" +:+ "19/01/2026,Squat".
Definition text_lower : string :=
  line "date,Exercise" +:+ "19/01/2026,Squat".
End Sample.

(** ** More sample inputs *)

Module Cases.

(** A section that comes before the Strength section. *)
Definition cardio : list string :=
  [Sample.line "-----Cardio-----"; Sample.line "Date,Distance";
   Sample.line "18/01/2026,5"].

Definition marker : string := Sample.line "-----Strength-----".

Definition header : string :=
  Sample.line "  Date,Time,Exercise,# of Reps,Weight,Notes".

(** Two records with a blank line between them; the second is
    indented and has trailing spaces. *)
Definition body : list string :=
  [Sample.line "19/01/2026,18:30,Bicep Curl,6,50,Right";
   Sample.line "";
   Sample.line "  20/01/2026,09:40,Squat,8,100,  "].

(** A section that comes after the Strength section. *)
Definition notes : list string :=
  [Sample.line "-----Notes-----"; Sample.line "19/01/2026,felt strong"].

Definition sectioned : list string :=
  cardio ++ marker :: header :: body ++ notes.

(** A file without section markers. *)
Definition plain : list string :=
  [Sample.line "Date,Exercise"; Sample.line "19/01/2026,Squat"].

(** A Strength marker followed by a blank line. *)
Definition headless : list string :=
  [Sample.line "Date,Exercise"; Sample.line "19/01/2026,Squat"; marker;
   Sample.line ""; Sample.line "20/01/2026,Bench Press"].

(** A header with spaces around a name, and a record that is one field
    short and has spaces around a field. *)
Definition spaced_fields : list string := [" Date "; "Exercise"; "Weight"].
Definition short_record : list string := ["19/01/2026"; " Squat "].

(** A record of two blank fields. *)
Definition blank_fields : string := Sample.line "Date,Exercise" +:+ ",".

(** A record without a date and nothing else. *)
Definition undated : list string :=
  Sample.strength_file [",18:40,Squat,5,100,"].

(** A reps field that is no integer on 19 January, and on 20 January,
    the day that is processed first, a reps value one above the largest
    SQLite INTEGER. *)
Definition big_reps : list string :=
  Sample.strength_file
    ["19/01/2026,18:34,Bicep Curl,six,50,";
     "20/01/2026,09:40,Squat,9223372036854775808,100,"].
End Cases.

(** * Proofs *)

(** ** The order on strings *)

Lemma ltb_not_le (a b : string) : String.ltb a b = true ↔ ¬ String.le b a.
Proof.
  unfold String.le, String.ltb, String.leb.
  rewrite (String.compare_antisym b a).
  destruct (String.compare a b); simpl; intuition congruence.
Qed.

Lemma le_ltb_false (a b : string) : String.le a b → String.ltb b a = false.
Proof.
  intros Hle. destruct (String.ltb b a) eqn:E; [|done].
  by apply ltb_not_le in E.
Qed.

Lemma leb_le (a b : string) : String.leb a b = true ↔ String.le a b.
Proof. unfold String.le. by rewrite Is_true_true. Qed.

Lemma leb_false_le (a b : string) : String.leb a b = false → String.le b a.
Proof.
  intros E. destruct (total String.le a b) as [Hab|]; [|done].
  apply leb_le in Hab. congruence.
Qed.

(** ** [sorted(keys, reverse=True)] *)

Lemma insert_desc_perm k l : insert_desc k l ≡ₚ k :: l.
Proof.
  induction l as [|x l IH]; simpl; [done|].
  destruct (String.leb x k); [done|].
  rewrite IH. apply Permutation_swap.
Qed.

Lemma sorted_reverse_perm l : sorted_reverse l ≡ₚ l.
Proof.
  induction l as [|x l IH]; simpl; [done|].
  by rewrite insert_desc_perm, IH.
Qed.

Lemma insert_desc_sorted k l :
  StronglySorted (flip String.le) l →
  StronglySorted (flip String.le) (insert_desc k l).
Proof.
  induction 1 as [|x l Hs IH Hx]; simpl.
  - repeat constructor.
  - destruct (String.leb x k) eqn:E.
    + apply leb_le in E. constructor; [by constructor|].
      constructor; [done|].
      eapply Forall_impl; [exact Hx|]. intros y Hy. unfold flip in *.
      by etrans.
    + apply leb_false_le in E. constructor; [done|].
      rewrite insert_desc_perm. by constructor.
Qed.

Lemma sorted_reverse_sorted l : StronglySorted (flip String.le) (sorted_reverse l).
Proof.
  induction l; simpl; [constructor|]. by apply insert_desc_sorted.
Qed.

Lemma sorted_reverse_NoDup l : NoDup l → NoDup (sorted_reverse l).
Proof. by rewrite sorted_reverse_perm. Qed.

Lemma elem_of_sorted_reverse d l : d ∈ sorted_reverse l ↔ d ∈ l.
Proof. by rewrite sorted_reverse_perm. Qed.

(** ** Grouping *)

Lemma group_append_keys k v g :
  (group_append k v g).*1 = if decide (k ∈ g.*1) then g.*1 else g.*1 ++ [k].
Proof.
  induction g as [|[k' vs] g IH]; csimpl.
  - done.
  - destruct (decide (k = k')) as [->|Hne]; csimpl.
    + rewrite decide_True; [done|]. apply list_elem_of_here.
    + rewrite IH. destruct (decide (k ∈ g.*1)) as [Hin|Hin].
      * rewrite decide_True; [done|]. by apply list_elem_of_further.
      * rewrite decide_False; [done|]. rewrite elem_of_cons. naive_solver.
Qed.

Lemma group_get_append k v g k' :
  group_get (group_append k v g) k' =
  group_get g k' ++ (if decide (k' = k) then [v] else []).
Proof.
  induction g as [|[k0 vs] g IH]; csimpl.
  - destruct (decide (k' = k)); done.
  - destruct (decide (k = k0)) as [->|Hne]; csimpl.
    + destruct (decide (k' = k0)); [done|]. by rewrite app_nil_r.
    + destruct (decide (k' = k0)) as [->|].
      * rewrite decide_False by done. by rewrite app_nil_r.
      * apply IH.
Qed.

Lemma group_append_concat k v g :
  concat (group_append k v g).*2 ≡ₚ v :: concat g.*2.
Proof.
  induction g as [|[k0 vs] g IH]; csimpl; [done|].
  destruct (decide (k = k0)) as [->|Hne]; csimpl.
  - rewrite <- app_assoc. simpl. by rewrite <- Permutation_middle.
  - rewrite IH. by rewrite <- Permutation_middle.
Qed.

Lemma group_get_notin g k : k ∉ g.*1 → group_get g k = [].
Proof.
  induction g as [|[k0 vs] g IH]; csimpl; [done|].
  rewrite not_elem_of_cons. intros [Hne Hnin].
  rewrite decide_False by done. by apply IH.
Qed.

Lemma group_get_elem g k vs :
  NoDup g.*1 → (k, vs) ∈ g → group_get g k = vs.
Proof.
  induction g as [|[k0 vs0] g IH]; csimpl.
  - intros _ Hin. by apply elem_of_nil in Hin.
  - rewrite NoDup_cons, elem_of_cons. intros [Hnin Hnd] [Heq|Hin].
    + simplify_eq. by rewrite decide_True.
    + rewrite decide_False; [by apply IH|].
      intros ->. apply Hnin. apply list_elem_of_fmap. by exists (k0, vs).
Qed.

Lemma group_elem_get g k :
  k ∈ g.*1 → (k, group_get g k) ∈ g.
Proof.
  induction g as [|[k0 vs0] g IH]; csimpl.
  - intros Hin. by apply elem_of_nil in Hin.
  - destruct (decide (k = k0)) as [->|Hne]; [intros _; apply list_elem_of_here|].
    rewrite elem_of_cons. intros [?|Hin]; [done|].
    apply list_elem_of_further. by apply IH.
Qed.

Lemma group_append_wf key r g :
  Py.truthy (key r) = true →
  group_wf key g → group_wf key (group_append (key r) r g).
Proof.
  intros Ht [Hnd Hall]. split.
  - rewrite group_append_keys. case_decide; [done|].
    apply NoDup_app. split_and!; [done| |apply NoDup_singleton].
    intros x Hx ->%list_elem_of_singleton. done.
  - clear Hnd. induction Hall as [|[k0 vs] g [Hne [Hk Hvs]] Hall IH]; csimpl in *.
    + repeat constructor; csimpl; done.
    + destruct (decide (key r = k0)) as [<-|Hneq].
      * constructor; [|done]. simpl. split_and!; [|done|].
        -- by destruct vs.
        -- apply Forall_app. split; [done|]. by repeat constructor.
      * constructor; [|done]. done.
Qed.

Section Group_rows.
Variable key : row → string.

Let step (groups : list (string * list row)) (r : row) :=
  let k := key r in
  if Py.truthy k then group_append k r groups else groups.

Lemma fold_group_wf rows acc :
  group_wf key acc → group_wf key (fold_left step rows acc).
Proof.
  revert acc. induction rows as [|r rows IH]; intros acc Hacc; csimpl; [done|].
  apply IH. unfold step. destruct (Py.truthy (key r)) eqn:E; [|done].
  by apply group_append_wf.
Qed.

Lemma fold_group_get rows acc k :
  Py.truthy k = true →
  group_get (fold_left step rows acc) k =
  group_get acc k ++ filter (λ r, key r = k) rows.
Proof.
  intros Hk. revert acc.
  induction rows as [|r rows IH]; intros acc; csimpl.
  - by rewrite app_nil_r.
  - rewrite IH. unfold step. rewrite filter_cons.
    destruct (decide (k = key r)) as [->|Hne].
    + rewrite Hk, group_get_append, decide_True by done.
      rewrite decide_True by done. by rewrite <- app_assoc.
    + rewrite (decide_False (P:=key r = k)) by done.
      destruct (Py.truthy (key r)); [|done].
      rewrite group_get_append, decide_False by done. by rewrite app_nil_r.
Qed.

Lemma fold_group_concat rows acc :
  concat (fold_left step rows acc).*2 ≡ₚ
  concat acc.*2 ++ filter (λ r, Py.truthy (key r) = true) rows.
Proof.
  revert acc. induction rows as [|r rows IH]; intros acc; csimpl.
  - by rewrite app_nil_r.
  - rewrite IH. unfold step. rewrite filter_cons.
    destruct (Py.truthy (key r)) eqn:E.
    + rewrite decide_True by done. rewrite group_append_concat.
      by rewrite <- Permutation_middle.
    + by rewrite decide_False by done.
Qed.

Lemma fold_group_keys rows acc :
  (fold_left step rows acc).*1 =
  acc.*1 ++ filter (λ k, k ∉ acc.*1)
              (first_seen (filter (λ k, Py.truthy k = true) (key <$> rows))).
Proof.
  revert acc. induction rows as [|r rows IH]; intros acc; csimpl.
  - by rewrite app_nil_r.
  - rewrite IH. unfold step. rewrite filter_cons.
    destruct (Py.truthy (key r)) eqn:E.
    + rewrite decide_True by done. simpl. rewrite filter_cons.
      rewrite group_append_keys.
      destruct (decide (key r ∈ acc.*1)) as [Hin|Hnin].
      * rewrite decide_False by naive_solver. f_equal.
        rewrite list_filter_filter. apply list_filter_iff.
        intros k. split; [|naive_solver]. intros Hk. split; [done|].
        by intros ->.
      * rewrite decide_True by done. rewrite <- app_assoc. simpl. do 2 f_equal.
        rewrite list_filter_filter. apply list_filter_iff.
        intros k. rewrite not_elem_of_app, list_elem_of_singleton. naive_solver.
    + by rewrite decide_False by done.
Qed.
End Group_rows.

Lemma group_rows_wf key rows : group_wf key (group_rows key rows).
Proof.
  apply fold_group_wf. split; csimpl; constructor.
Qed.

Lemma group_rows_get key rows k :
  Py.truthy k = true →
  group_get (group_rows key rows) k = filter (λ r, key r = k) rows.
Proof. intros Hk. unfold group_rows. by rewrite fold_group_get. Qed.

Lemma group_rows_concat key rows :
  concat (group_rows key rows).*2 ≡ₚ
  filter (λ r, Py.truthy (key r) = true) rows.
Proof. unfold group_rows. by rewrite fold_group_concat. Qed.

Lemma filter_all {A} (P : A → Prop) `{!∀ x, Decision (P x)} (l : list A) :
  Forall P l → filter P l = l.
Proof.
  induction 1 as [|x l Hx Hl IH]; [done|].
  rewrite filter_cons, decide_True by done. by rewrite IH.
Qed.

Lemma group_rows_keys key rows :
  (group_rows key rows).*1 =
  first_seen (filter (λ k, Py.truthy k = true) (key <$> rows)).
Proof.
  unfold group_rows. rewrite fold_group_keys. simpl.
  apply filter_all, Forall_forall. intros k _. apply not_elem_of_nil.
Qed.

Section Log.
Context `{Runtime}.
Implicit Types (l pre : list event) (e : event) (s : state).

(** ** Logs *)

Lemma omap_snoc {A B} (f : A → option B) (l : list A) (x : A) :
  omap f (l ++ [x]) = omap f l ++ option_list (f x).
Proof. rewrite omap_app. simpl. by destruct (f x). Qed.

Lemma omap_take_mono {A B} (f : A → option B) (l : list A) i j :
  i ≤ j → length (omap f (take i l)) ≤ length (omap f (take j l)).
Proof.
  intros Hij. replace (take i l) with (take i (take j l)).
  - rewrite <- (take_drop i (take j l)) at 2.
    rewrite omap_app, length_app. lia.
  - rewrite take_take. f_equal. lia.
Qed.

Lemma omap_take_lt {A B} (f : A → option B) (l : list A) i j x y :
  l !! i = Some x → f x = Some y → i < j →
  length (omap f (take i l)) < length (omap f (take j l)).
Proof.
  intros Hi Hf Hij.
  pose proof (omap_take_mono f l (S i) j ltac:(lia)) as Hm.
  rewrite (take_S_r _ _ _ Hi), omap_snoc, Hf, length_app in Hm. simpl in Hm.
  lia.
Qed.

(** Two rows of one table with the same row id are one row. *)
Lemma same_id_same_index {A} (f : event → option A) l i j ei ej a b :
  l !! i = Some ei → l !! j = Some ej → f ei = Some a → f ej = Some b →
  length (omap f (take i l)) = length (omap f (take j l)) → i = j.
Proof.
  intros Hi Hj Ha Hb Hlen.
  destruct (lt_eq_lt_dec i j) as [[Hlt| ->]|Hlt]; [|done|].
  - pose proof (omap_take_lt f l i j _ _ Hi Ha Hlt). lia.
  - pose proof (omap_take_lt f l j i _ _ Hj Hb Hlt). lia.
Qed.

Lemma log_ok_nil g : log_ok g [].
Proof. intros i e Hi. by rewrite lookup_nil in Hi. Qed.

Lemma log_ok_snoc g l e : log_ok g l → event_ok g l e → log_ok g (l ++ [e]).
Proof.
  intros Hl He i e' Hi.
  apply lookup_snoc_Some in Hi as [[Hlt Hi]|[-> ->]].
  - rewrite take_app_le by lia. by apply Hl.
  - by rewrite take_app_length.
Qed.

Lemma log_ok_elem g l e :
  log_ok g l → e ∈ l → ∃ i, l !! i = Some e ∧ event_ok g (take i l) e.
Proof.
  intros Hl [i Hi]%list_elem_of_lookup. exists i. split; [done|]. by apply Hl.
Qed.

Lemma elem_of_take_elem {A} (x : A) i (l : list A) : x ∈ take i l → x ∈ l.
Proof. apply subseteq_take. Qed.

Lemma workout_id_inj g l d1 w1 d2 w2 :
  log_ok g l → InsWorkout d1 w1 ∈ l → InsWorkout d2 w2 ∈ l →
  wo_id w1 = wo_id w2 → d1 = d2 ∧ w1 = w2.
Proof.
  intros Hl (i & Hi & Hoki)%(log_ok_elem g) (j & Hj & Hokj)%(log_ok_elem g) Hid;
    [|done..].
  destruct Hoki as (_ & _ & Hidi & _), Hokj as (_ & _ & Hidj & _).
  assert (i = j) as ->.
  { eapply (same_id_same_index workouts_of); [exact Hi|exact Hj|done..|].
    unfold workouts_table in *. lia. }
  by simplify_eq.
Qed.

Lemma exercise_id_inj g l d1 x1 d2 x2 :
  log_ok g l → InsExercise d1 x1 ∈ l → InsExercise d2 x2 ∈ l →
  ex_id x1 = ex_id x2 → d1 = d2 ∧ x1 = x2.
Proof.
  intros Hl (i & Hi & Hoki)%(log_ok_elem g) (j & Hj & Hokj)%(log_ok_elem g) Hid;
    [|done..].
  destruct Hoki as (_ & _ & Hidi & _), Hokj as (_ & _ & Hidj & _).
  assert (i = j) as ->.
  { eapply (same_id_same_index exercises_of); [exact Hi|exact Hj|done..|].
    unfold exercises_table in *. lia. }
  by simplify_eq.
Qed.

Lemma link_id_inj g l d1 n1 x1 d2 n2 x2 :
  log_ok g l → InsWorkoutExercise d1 n1 x1 ∈ l →
  InsWorkoutExercise d2 n2 x2 ∈ l →
  we_id x1 = we_id x2 → d1 = d2 ∧ n1 = n2 ∧ x1 = x2.
Proof.
  intros Hl (i & Hi & Hoki)%(log_ok_elem g) (j & Hj & Hokj)%(log_ok_elem g) Hid;
    [|done..].
  destruct Hoki as (_ & _ & Hidi & _), Hokj as (_ & _ & Hidj & _).
  assert (i = j) as ->.
  { eapply (same_id_same_index workout_exercises_of); [exact Hi|exact Hj|done..|].
    unfold workout_exercises_table in *. lia. }
  by simplify_eq.
Qed.

Lemma elem_of_exercises_table l x :
  x ∈ exercises_table l ↔ ∃ d, InsExercise d x ∈ l.
Proof.
  unfold exercises_table. rewrite list_elem_of_omap. split.
  - intros (e & He & Hx). destruct e; simplify_eq/=. eauto.
  - intros (d & Hd). by exists (InsExercise d x).
Qed.

(** One exercises row per name; the index of the INSERT is unique too. *)
Lemma exercise_name_index g l i j d1 x1 d2 x2 :
  log_ok g l → l !! i = Some (InsExercise d1 x1) →
  l !! j = Some (InsExercise d2 x2) → ex_name x1 = ex_name x2 → i = j.
Proof.
  intros Hl Hi Hj Hname.
  destruct (lt_eq_lt_dec i j) as [[Hlt| ->]|Hlt]; [|done|].
  - destruct (Hl _ _ Hj) as (_ & _ & _ & Hfresh & _).
    destruct (Hfresh x1); [|done].
    apply elem_of_exercises_table. exists d1.
    apply elem_of_take. eauto.
  - destruct (Hl _ _ Hi) as (_ & _ & _ & Hfresh & _).
    destruct (Hfresh x2); [|done].
    apply elem_of_exercises_table. exists d2.
    apply elem_of_take. eauto.
Qed.

Lemma exercise_name_inj g l d1 x1 d2 x2 :
  log_ok g l → InsExercise d1 x1 ∈ l → InsExercise d2 x2 ∈ l →
  ex_name x1 = ex_name x2 → d1 = d2 ∧ x1 = x2.
Proof.
  intros Hl [i Hi]%list_elem_of_lookup [j Hj]%list_elem_of_lookup Hname.
  assert (i = j) as -> by eauto using exercise_name_index.
  by simplify_eq.
Qed.

(** Synthetic ids are minted in the order of the INSERTs. *)
Lemma log_ok_uid g l i j ei ej :
  log_ok g l → l !! i = Some ei → l !! j = Some ej → i < j →
  event_uid ei < event_uid ej.
Proof.
  intros Hl Hi Hj Hlt. destruct (Hl _ _ Hj) as (Hu & _).
  apply Hu, elem_of_take. eauto.
Qed.

(** Dates never increase along the log. *)
Lemma log_ok_dates g l i j ei ej :
  log_ok g l → l !! i = Some ei → l !! j = Some ej → i < j →
  String.le (event_date ej) (event_date ei).
Proof.
  intros Hl Hi Hj Hlt. destruct (Hl _ _ Hj) as (_ & Hd & _).
  apply Hd, elem_of_take. eauto.
Qed.
End Log.

Section Steps.
Context `{Runtime}.
Implicit Types (l pre : list event) (e : event) (s : state).

(** ** Steps of the state *)

Lemma same_core_refl s : same_core s s.
Proof. by repeat split. Qed.

Lemma maps_ok_same_core s s' : same_core s s' → maps_ok s → maps_ok s'.
Proof.
  intros (Hc & He & Hw & Hx & Hn & Hu) [mu mc mex mwo mwe].
  split; rewrite ?Hc, ?He, ?Hw, ?Hx, ?Hn, ?Hu; done.
Qed.

Lemma inv_same_core g s s' : same_core s s' → inv g s → inv g s'.
Proof.
  intros Hsame [Hl Hm]. split; [|by eapply maps_ok_same_core].
  destruct Hsame as (-> & _). done.
Qed.

Lemma parse_datetime_run d t s :
  ∃ s', parse_datetime d t s =
          Done (parse_datetime_at (now_ms (now_calls s)) d t) s' ∧
        same_core s s'.
Proof.
  unfold parse_datetime, parse_datetime_at.
  destruct (strptime_ms _ "%d/%m/%Y %H:%M").
  { eexists. split; [done|]. apply same_core_refl. }
  destruct (strptime_ms _ "%Y-%m-%d %H:%M").
  { eexists. split; [done|]. apply same_core_refl. }
  eexists. split; [done|]. by repeat split.
Qed.

Lemma parse_weight_run r s :
  let weight_str := Py.strip (Py.get r "Weight" "") in
  parse_weight weight_str s =
    if weight_ok r
    then Done (if Py.truthy weight_str then float_of_str weight_str else None) s
    else Raised ValueError s.
Proof.
  unfold parse_weight, weight_ok. simpl.
  destruct (Py.truthy _); simpl; [|done].
  destruct (float_of_str _) eqn:E; reflexivity.
Qed.

Lemma parse_reps_run r s :
  let reps_str := Py.strip (Py.get r "# of Reps" "") in
  parse_reps reps_str s =
    if reps_ok r
    then Done (if Py.truthy reps_str then int_of_str reps_str else None) s
    else Raised ValueError s.
Proof.
  unfold parse_reps, reps_ok. simpl.
  destruct (Py.truthy _); simpl; [|done].
  destruct (int_of_str _) eqn:E; reflexivity.
Qed.

Lemma elem_of_snoc {A} (l : list A) (x y : A) : y ∈ l ++ [x] ↔ y ∈ l ∨ y = x.
Proof. by rewrite elem_of_app, list_elem_of_singleton. Qed.

(** One INSERT, with the bookkeeping the script does for it, keeps the
    invariant. *)
Lemma inv_step g s s' e :
  inv g s → event_ok g (conn s) e →
  conn s' = conn s ++ [e] →
  event_uid e = uid_calls s →
  uid_calls s' = S (uid_calls s) →
  set_count s' =
    match sets_of e with
    | Some _ => S (set_count s)
    | None => set_count s
    end →
  exercises s' =
    match e with
    | InsExercise _ x => <[ex_name x := ex_id x]> (exercises s)
    | _ => exercises s
    end →
  workouts s' =
    match e with
    | InsWorkout d w => <[d := wo_id w]> (workouts s)
    | _ => workouts s
    end →
  workout_exercises s' =
    match e with
    | InsWorkoutExercise _ _ x =>
        <[(we_workout_id x, we_exercise_id x) := we_id x]> (workout_exercises s)
    | _ => workout_exercises s
    end →
  inv g s'.
Proof.
  intros [Hl Hm] He Hc Hnew Hu Hn Hex Hwo Hwe. split.
  { rewrite Hc. by apply log_ok_snoc. }
  destruct Hm as [mu mc mex mwo mwe].
  split.
  - intros e'. rewrite Hu, Hc. intros [Hin| ->]%elem_of_snoc; [|lia].
    specialize (mu _ Hin). lia.
  - rewrite Hn, Hc. unfold sets_table in *. rewrite omap_snoc, length_app.
    destruct (sets_of e); simpl; lia.
  - intros n id. rewrite Hex, Hc. setoid_rewrite elem_of_snoc.
    destruct e as [d w|d x|d m x|d m r row];
      try (rewrite mex; split; intros (d' & x' & Hin & ?);
           exists d', x'; (split; [|done]); [by left|by destruct Hin]).
    destruct (decide (n = ex_name x)) as [->|Hne].
    + rewrite lookup_insert_eq. split.
      * intros [= <-]. exists d, x. eauto.
      * intros (d' & x' & [Hin| [= -> ->]] & Hname & <-); [|done].
        destruct He as (_ & _ & _ & Hfresh & _).
        destruct (Hfresh x'); [|done].
        apply elem_of_exercises_table. eauto.
    + rewrite lookup_insert_ne by done. rewrite mex.
      split; intros (d' & x' & Hin & Hname & Hid); exists d', x'.
      * eauto.
      * destruct Hin as [Hin|[= -> ->]]; [done|]. by destruct Hne.
  - intros d id. rewrite Hwo, Hc. setoid_rewrite elem_of_snoc.
    destruct e as [d0 w|d0 x|d0 m x|d0 m r row];
      try (rewrite mwo; split; intros (w' & Hin & ?);
           exists w'; (split; [|done]); [by left|by destruct Hin]).
    destruct (decide (d = d0)) as [->|Hne].
    + rewrite lookup_insert_eq. split.
      * intros [= <-]. exists w. eauto.
      * intros (w' & [Hin| [= ->]] & <-); [|done].
        destruct He as (_ & _ & _ & Hfresh & _).
        by destruct (Hfresh _ Hin).
    + rewrite lookup_insert_ne by done. rewrite mwo.
      split; intros (w' & Hin & Hid); exists w'.
      * eauto.
      * destruct Hin as [Hin|[= -> ->]]; [done|]. by destruct Hne.
  - intros w x id. rewrite Hwe, Hc. setoid_rewrite elem_of_snoc.
    destruct e as [d0 w0|d0 x0|d0 m x0|d0 m r row];
      try (intros (d' & n' & y & Hin & ?)%mwe; exists d', n', y; eauto).
    destruct (decide ((w, x) = (we_workout_id x0, we_exercise_id x0)))
      as [[= -> ->]|Hne].
    + rewrite lookup_insert_eq. intros [= <-]. exists d0, m, x0. eauto.
    + rewrite lookup_insert_ne by done.
      intros (d' & n' & y & Hin & ?)%mwe; exists d', n', y; eauto.
Qed.
End Steps.

Section Sets_loop.
Context `{Runtime}.
Implicit Types (l pre : list event) (e : event) (s : state).

Lemma bind_done {A B} (m : M A) (f : A → M B) s a s1 :
  m s = Done a s1 → (m ≫= f) s = f a s1.
Proof. unfold mbind, M_bind. by intros ->. Qed.

Lemma bind_raised {A B} (m : M A) (f : A → M B) s x s1 :
  m s = Raised x s1 → (m ≫= f) s = Raised x s1.
Proof. unfold mbind, M_bind. by intros ->. Qed.

Lemma inv_after_insert g s e :
  inv g s → event_ok g (conn s) e → event_uid e = uid_calls s →
  inv g (after_insert s e).
Proof. intros Hinv He Hid. by eapply inv_step. Qed.

Lemma set_step d n r w x we i weight reps note t (k : unit → M unit) s :
  fits reps = true →
  (generate_uid ≫= λ set_uid,
     insert_set d n r set_uid w x we i weight reps note t 0 ≫= λ _,
     incr_set_count ≫= k) s =
  k tt (after_insert s
          (InsSet d n r
             {| set_id := S (length (sets_table (conn s)));
                set_uid := uid_calls s; set_workout_id := w;
                set_exercise_id := x; set_workout_exercise_id := we;
                set_index := i; set_weight_kg := weight; set_reps := reps;
                set_note := note; set_performed_at := t;
                set_is_warmup := 0 |})).
Proof. intros Hf. unfold insert_set, bind_int. rewrite Hf. reflexivity. Qed.

Lemma set_step_overflow d n r w x we i weight reps note t
    (k : unit → M unit) s :
  fits reps = false →
  (generate_uid ≫= λ set_uid,
     insert_set d n r set_uid w x we i weight reps note t 0 ≫= λ _,
     incr_set_count ≫= k) s =
  Raised OverflowError (after_uid s).
Proof. intros Hf. unfold insert_set, bind_int. rewrite Hf. reflexivity. Qed.

Lemma inv_after_uid g s : inv g s → inv g (after_uid s).
Proof.
  intros [Hl [mu mc mex mwo mwe]]. split; [done|].
  split; simpl; try done.
  intros e He. specialize (mu e He). lia.
Qed.

Lemma workout_step d t1 t2 (k : unit → M unit) s :
  (generate_uid ≫= λ workout_uid,
     insert_workout d workout_uid t1 t2 ≫= λ workout_id,
     remember_workout d workout_id ≫= k) s =
  k tt (after_insert s
          (InsWorkout d
             {| wo_id := S (length (workouts_table (conn s)));
                wo_uid := uid_calls s; wo_started_at := t1;
                wo_completed_at := t2 |})).
Proof. reflexivity. Qed.

Lemma exercise_step d n t (k : unit → M unit) s :
  (generate_uid ≫= λ exercise_uid,
     insert_exercise d exercise_uid n t ≫= λ id,
     remember_exercise n id ≫= k) s =
  k tt (after_insert s
          (InsExercise d
             {| ex_id := S (length (exercises_table (conn s)));
                ex_uid := uid_calls s; ex_name := n; ex_created_at := t |})).
Proof. reflexivity. Qed.

Lemma link_step d n w x order note t (k : unit → M nat) s :
  (generate_uid ≫= λ we_uid,
     insert_workout_exercise d n we_uid w x order note t t ≫= λ id,
     remember_workout_exercise (w, x) id ≫= k) s =
  k tt (after_insert s
          (InsWorkoutExercise d n
             {| we_id := S (length (workout_exercises_table (conn s)));
                we_uid := uid_calls s; we_workout_id := w;
                we_exercise_id := x; we_order_index := order;
                we_note := note; we_performed_at := t;
                we_completed_at := t |})).
Proof. reflexivity. Qed.

(** ** The sets loop *)

Lemma create_sets_spec g d n w x we i rs s :
  inv g s →
  (∃ y, InsWorkoutExercise d n y ∈ conn s ∧ we_id y = we ∧
        we_workout_id y = w ∧ we_exercise_id y = x) →
  (∀ e', e' ∈ conn s → String.le d (event_date e')) →
  Forall (λ r, r ∈ group_get g d ∧ date_of r = d ∧ exercise_of r = n) rs →
  ∃ ext, let o := create_sets d n w x we i rs s in
    inv g (final_state o) ∧
    conn (final_state o) = conn s ++ ext ∧
    Forall (λ e', event_date e' = d ∧ event_name e' = Some n) ext ∧
    day_links d ext = [] ∧
    match first_error rs with
    | None => is_done o ∧ skeleton ext = TSet d n <$> rs
    | Some e => ∃ s', o = Raised e s'
    end.
Proof.
  intros Hinv Hlink Hdates Hrs. revert s i Hinv Hlink Hdates.
  induction Hrs as [|r rs (Hin & Hd & Hn) Hrs IH]; intros s i Hinv Hlink Hdates.
  { exists []. cbn. rewrite app_nil_r. by split_and!. }
  destruct (parse_datetime_run (Py.get r "Date" d) (Py.get r "Time" "00:00") s)
    as (s1 & Hrun & Hcore).
  assert (inv g s1) as Hinv1 by eauto using inv_same_core.
  destruct Hcore as (Hc & _).
  cbn [create_sets first_error]. cbv zeta.
  rewrite (bind_done _ _ _ _ _ Hrun).
  pose proof (parse_weight_run r s1) as Hw. cbv zeta in Hw.
  pose proof (parse_reps_run r s1) as Hr. cbv zeta in Hr.
  unfold row_error, numeric_ok.
  destruct (weight_ok r) eqn:Ew; cycle 1.
  { rewrite (bind_raised _ _ _ _ _ Hw). exists []. cbn.
    rewrite app_nil_r. split_and!; eauto. }
  rewrite (bind_done _ _ _ _ _ Hw).
  destruct (reps_ok r) eqn:Er; cycle 1.
  { rewrite (bind_raised _ _ _ _ _ Hr). exists []. cbn.
    rewrite app_nil_r. split_and!; eauto. }
  rewrite (bind_done _ _ _ _ _ Hr).
  destruct (reps_fits r) eqn:Ef; cycle 1.
  { rewrite set_step_overflow by exact Ef. exists []. cbn.
    rewrite app_nil_r. split_and!; eauto using inv_after_uid. }
  rewrite set_step by exact Ef.
  match goal with |- context [after_insert s1 ?e] => set (ev := e) end.
  assert (event_ok g (conn s1) ev) as Hev.
  { destruct Hinv1 as [_ [mu mc mex mwo mwe]]. rewrite Hc.
    split; [simpl; intros e' He'; apply mu; by rewrite Hc|].
    split; [simpl; intros; by apply Hdates|].
    simpl. split_and!; try done.
    - by rewrite Hc.
    - unfold numeric_ok. by rewrite Ew, Er.
    - eauto. }
  destruct (IH (after_insert s1 ev) (S i)) as (ext & Hext).
  { by apply inv_after_insert. }
  { destruct Hlink as (y & ? & ?). exists y. split; [|done].
    simpl. rewrite Hc. apply elem_of_app. by left. }
  { simpl. intros e' [He'| ->]%elem_of_snoc; [rewrite Hc in He'; eauto|].
    simpl. done. }
  cbv zeta in Hext. destruct Hext as (Hi & Hconn & Hall & Hlinks & Hres).
  exists (ev :: ext). split_and!.
  - done.
  - rewrite Hconn. simpl. rewrite Hc, <- app_assoc. done.
  - constructor; [|done]. done.
  - done.
  - simpl. destruct (first_error rs); [done|].
    destruct Hres as [? Hsk]. split; [done|].
    unfold skeleton in *. simpl. by rewrite Hsk.
Qed.
End Sets_loop.

Section Exercises_loop.
Context `{Runtime}.
Implicit Types (l pre : list event) (e : event) (s : state).

(** ** The body of the exercises loop *)

Lemma new_exercise_run d n t s :
  (generate_uid ≫= λ exercise_uid,
     insert_exercise d exercise_uid n t ≫= λ id,
     remember_exercise n id) s =
  Done tt (after_insert s
             (InsExercise d
                {| ex_id := S (length (exercises_table (conn s)));
                   ex_uid := uid_calls s; ex_name := n;
                   ex_created_at := t |})).
Proof. reflexivity. Qed.

Lemma ensure_exercise_spec g d n t s :
  inv g s →
  (∀ e', e' ∈ conn s → String.le d (event_date e')) →
  n ∈ (group_by_exercise (group_get g d)).*1 →
  ∃ x s' ext,
    ensure_exercise d n t s = Done x s' ∧
    inv g s' ∧
    conn s' = conn s ++ ext ∧
    Forall (λ e', event_date e' = d ∧ event_name e' = None) ext ∧
    skeleton ext = [] ∧ day_links d ext = [] ∧
    ∃ d0 y, InsExercise d0 y ∈ conn s' ∧ ex_name y = n ∧ ex_id y = x.
Proof.
  intros Hinv Hdates Hn. unfold ensure_exercise.
  rewrite (bind_done get_state _ s s s eq_refl).
  destruct (exercises s !! n) as [id|] eqn:Eex.
  - exists id, s, []. split.
    { rewrite (bind_done (mret tt) _ s tt s eq_refl).
      rewrite (bind_done get_state _ s s s eq_refl). by rewrite Eex. }
    rewrite app_nil_r. split_and!; try done.
    destruct Hinv as [_ [mu mc mex mwo mwe]]. by apply mex.
  - set (ev := InsExercise d
                 {| ex_id := S (length (exercises_table (conn s)));
                    ex_uid := uid_calls s; ex_name := n;
                    ex_created_at := t |}).
    assert (event_ok g (conn s) ev) as Hev.
    { destruct Hinv as [_ [mu mc mex mwo mwe]].
      split; [done|]. split; [simpl; intros; by apply Hdates|].
      simpl. split_and!; try done.
      intros y [d0 Hy]%elem_of_exercises_table Hname.
      assert (exercises s !! n = Some (ex_id y)) as Heq by (apply mex; eauto).
      congruence. }
    exists (S (length (exercises_table (conn s)))), (after_insert s ev), [ev].
    split.
    { rewrite (bind_done _ _ _ _ _ (new_exercise_run d n t s)).
      rewrite (bind_done get_state _ _ _ _ eq_refl).
      simpl. by rewrite lookup_insert_eq. }
    split_and!; try done.
    + by apply inv_after_insert.
    + by repeat constructor.
    + eexists d, _.
      split; [simpl; apply elem_of_app; right; apply list_elem_of_here|done].
Qed.
(** A (workout, exercise) key has no row before its group is reached. *)
Lemma no_link_yet g s d n w x :
  inv g s →
  (∃ w0, InsWorkout d w0 ∈ conn s ∧ wo_id w0 = w) →
  (∃ d0 y, InsExercise d0 y ∈ conn s ∧ ex_name y = n ∧ ex_id y = x) →
  (∀ e', e' ∈ conn s → event_date e' = d → event_name e' ≠ Some n) →
  workout_exercises s !! (w, x) = None.
Proof.
  intros [Hl Hm] (w0 & Hw0 & Hw) (d0 & y & Hy & Hyn & Hyx) Hnone.
  destruct (workout_exercises s !! (w, x)) as [id|] eqn:E; [|done].
  exfalso.
  apply (mo_we _ Hm) in E as (d' & n' & z & Hz & Hzw & Hzx & _).
  destruct (log_ok_elem _ _ _ Hl Hz) as (i & Hi & _ & _ & _ & Hwz & Hxz & _).
  destruct Hwz as (w1 & Hw1%elem_of_take_elem & Hw1id).
  destruct Hxz as (d1 & y1 & Hy1%elem_of_take_elem & Hy1n & Hy1id).
  destruct (workout_id_inj g (conn s) d w0 d' w1) as [-> _];
    [done..|congruence|].
  destruct (exercise_id_inj g (conn s) d0 y d1 y1) as [_ ->];
    [done..|congruence|].
  apply (Hnone _ Hz); simpl; congruence.
Qed.

Lemma ensure_workout_exercise_spec g d n w x order rs s :
  inv g s →
  (∃ w0, InsWorkout d w0 ∈ conn s ∧ wo_id w0 = w) →
  (∃ d0 y, InsExercise d0 y ∈ conn s ∧ ex_name y = n ∧ ex_id y = x) →
  (∀ e', e' ∈ conn s → String.le d (event_date e')) →
  (∀ e', e' ∈ conn s → event_date e' = d → event_name e' ≠ Some n) →
  order = length (day_links d (conn s)) →
  rs ≠ [] →
  ∃ we s' y,
    ensure_workout_exercise d n w x order rs s = Done (we, S order) s' ∧
    inv g s' ∧
    conn s' = conn s ++ [InsWorkoutExercise d n y] ∧
    we_id y = we ∧ we_workout_id y = w ∧ we_exercise_id y = x.
Proof.
  intros Hinv Hw Hx Hdates Hnone Horder Hrs.
  pose proof (no_link_yet _ _ _ _ _ _ Hinv Hw Hx Hnone) as Hkey.
  destruct rs as [|first rest]; [done|].
  destruct (parse_datetime_run (Py.get first "Date" d)
              (Py.get first "Time" "00:00") s) as (s1 & Hrun & Hcore).
  assert (inv g s1) as Hinv1 by eauto using inv_same_core.
  destruct Hcore as (Hc & _).
  unfold ensure_workout_exercise. cbv zeta.
  rewrite (bind_done get_state _ s s s eq_refl).
  rewrite Hkey.
  set (t := parse_datetime_at _ _ _) in Hrun.
  set (ev := InsWorkoutExercise d n
               {| we_id := S (length (workout_exercises_table (conn s1)));
                  we_uid := uid_calls s1; we_workout_id := w;
                  we_exercise_id := x; we_order_index := order;
                  we_note := or_none (Py.strip (Py.get first "Notes" ""));
                  we_performed_at := t; we_completed_at := t |}).
  assert (event_ok g (conn s1) ev) as Hev.
  { destruct Hinv1 as [_ [mu mc mex mwo mwe]]. rewrite Hc.
    split; [simpl; by rewrite <- Hc|].
    split; [simpl; intros; by apply Hdates|].
    simpl. split_and!; try done. by rewrite Hc. }
  match goal with |- context [mbind ?f ?m s] =>
    assert (m s = Done (S order) (after_insert s1 ev)) as Hinner
  end.
  { rewrite (bind_done (first_row (first :: rest)) _ s first s eq_refl).
    rewrite (bind_done _ _ _ _ _ Hrun).
    by rewrite link_step. }
  rewrite (bind_done _ _ _ _ _ Hinner).
  rewrite (bind_done get_state _ _ _ _ eq_refl).
  simpl. rewrite lookup_insert_eq.
  eexists _, _, _. split; [reflexivity|].
  split_and!;
    [by apply inv_after_insert|simpl; by rewrite Hc|reflexivity..].
Qed.
(** ** The exercises loop *)

Lemma day_links_app d l1 l2 :
  day_links d (l1 ++ l2) = day_links d l1 ++ day_links d l2.
Proof. apply omap_app. Qed.

Lemma first_error_app (l1 l2 : list row) :
  first_error (l1 ++ l2) =
  match first_error l1 with
  | Some e => Some e
  | None => first_error l2
  end.
Proof.
  induction l1 as [|r l1 IH]; [done|].
  simpl. by destruct (row_error r).
Qed.

Lemma process_exercises_spec g d w t order groups s :
  inv g s →
  (∃ w0, InsWorkout d w0 ∈ conn s ∧ wo_id w0 = w) →
  (∀ e', e' ∈ conn s → String.le d (event_date e')) →
  NoDup groups.*1 →
  Forall (λ p, p.2 ≠ [] ∧
               p.1 ∈ (group_by_exercise (group_get g d)).*1 ∧
               Forall (λ r, r ∈ group_get g d ∧ date_of r = d ∧
                            exercise_of r = p.1) p.2)
         groups →
  (∀ e' n, e' ∈ conn s → event_date e' = d → n ∈ groups.*1 →
           event_name e' ≠ Some n) →
  order = length (day_links d (conn s)) →
  ∃ ext, let o := process_exercises d w t order groups s in
    inv g (final_state o) ∧
    conn (final_state o) = conn s ++ ext ∧
    Forall (λ e', event_date e' = d) ext ∧
    match first_error (concat groups.*2) with
    | None => is_done o ∧ skeleton ext = concat (exercise_skeleton d <$> groups)
    | Some e => ∃ s', o = Raised e s'
    end.
Proof.
  intros Hinv Hw Hdates Hnd Hgroups. revert s order Hinv Hw Hdates Hnd.
  induction Hgroups as [|[n rs] groups (Hne & Hkey & Hrs) Hgroups IH];
    intros s order Hinv Hw Hdates Hnd Hnames Horder.
  { exists []. cbn. rewrite app_nil_r. by split_and!. }
  simpl in Hne, Hkey, Hrs. rewrite fmap_cons in Hnd, Hnames.
  apply NoDup_cons in Hnd as [Hnin Hnd].
  destruct (ensure_exercise_spec g d n t s Hinv Hdates Hkey)
    as (x & s1 & ext1 & Hrun1 & Hinv1 & Hc1 & Hall1 & Hsk1 & Hl1 & Hx).
  assert (∀ e', e' ∈ conn s1 → String.le d (event_date e')) as Hdates1.
  { rewrite Hc1. intros e' [He'|He']%elem_of_app; [eauto|].
    rewrite Forall_forall in Hall1. by destruct (Hall1 _ He') as [-> _]. }
  destruct (ensure_workout_exercise_spec g d n w x order rs s1)
    as (we & s2 & y & Hrun2 & Hinv2 & Hc2 & Hy1 & Hy2 & Hy3); try done.
  { destruct Hw as (w0 & Hw0 & ?). exists w0. split; [|done].
    rewrite Hc1. apply elem_of_app. by left. }
  { rewrite Hc1. intros e' [He'|He']%elem_of_app Hd.
    - apply (Hnames e' n); [done..|]. apply list_elem_of_here.
    - rewrite Forall_forall in Hall1. destruct (Hall1 _ He') as [_ ->]. done. }
  { rewrite Hc1, day_links_app, length_app, Hl1. simpl. lia. }
  assert (∀ e', e' ∈ conn s2 → String.le d (event_date e')) as Hdates2.
  { rewrite Hc2. intros e' [He'| ->]%elem_of_snoc; [eauto|]. simpl. done. }
  destruct (create_sets_spec g d n w x we 0 rs s2)
    as (ext3 & Hinv3 & Hc3 & Hall3 & Hl3 & Hres3); try done.
  { exists y. split; [|done]. rewrite Hc2. apply elem_of_app. right.
    apply list_elem_of_here. }
  cbv zeta in Hinv3, Hc3, Hres3.
  assert (Forall (λ e', event_date e' = d) ext1) as Hd1.
  { eapply Forall_impl; [exact Hall1|]. by intros ? [? ?]. }
  assert (Forall (λ e', event_date e' = d) ext3) as Hd3.
  { eapply Forall_impl; [exact Hall3|]. by intros ? [? ?]. }
  cbn [process_exercises]. cbv zeta.
  rewrite (bind_done _ _ _ _ _ Hrun1), (bind_done _ _ _ _ _ Hrun2).
  cbn beta iota. cbn [fmap list_fmap snd concat]. rewrite first_error_app.
  destruct (create_sets d n w x we 0 rs s2) as [[] s3|exn s3] eqn:Hrun3;
    cycle 1.
  { rewrite (bind_raised _ _ _ _ _ Hrun3).
    destruct (first_error rs) as [e0|]; [|by destruct Hres3].
    destruct Hres3 as [s' [= -> ->]].
    exists (ext1 ++ InsWorkoutExercise d n y :: ext3).
    simpl in *. split_and!; try done.
    - rewrite Hc3, Hc2, Hc1. by rewrite <- !app_assoc.
    - apply Forall_app. split; [done|]. by constructor.
    - eauto. }
  rewrite (bind_done _ _ _ _ _ Hrun3).
  destruct (first_error rs); [by destruct Hres3|].
  simpl in Hinv3, Hc3. destruct Hres3 as [_ Hsk3].
  destruct (IH s3 (S order)) as (ext4 & Hres4); try done.
  { destruct Hw as (w0 & Hw0 & ?). exists w0. split; [|done].
    rewrite Hc3, Hc2, Hc1. rewrite !elem_of_app. by do 3 left. }
  { rewrite Hc3. intros e' [He'|He']%elem_of_app; [eauto|].
    rewrite Forall_forall in Hall3. by destruct (Hall3 _ He') as [-> _]. }
  { intros e' n' He' Hd Hn'. rewrite Hc3, Hc2, Hc1 in He'.
    rewrite !elem_of_app, list_elem_of_singleton in He'.
    destruct He' as [[[He'|He']| ->]|He'].
    - apply (Hnames e' n'); [done..|]. by apply list_elem_of_further.
    - rewrite Forall_forall in Hall1. destruct (Hall1 _ He') as [_ ->]. done.
    - simpl. intros [= ->]. done.
    - rewrite Forall_forall in Hall3. destruct (Hall3 _ He') as [_ ->].
      intros [= ->]. done. }
  { rewrite Hc3, Hc2, Hc1, !day_links_app, !length_app, Hl1, Hl3. simpl.
    rewrite decide_True by done. simpl. lia. }
  cbv zeta in Hres4. destruct Hres4 as (Hinv4 & Hc4 & Hall4 & Hres4).
  exists (ext1 ++ InsWorkoutExercise d n y :: ext3 ++ ext4).
  split_and!; try done.
  - rewrite Hc4, Hc3, Hc2, Hc1. by rewrite <- !app_assoc.
  - apply Forall_app. split; [done|]. constructor; [done|].
    apply Forall_app. by split.
  - simpl. destruct (first_error (concat groups.*2)); [done|].
    destruct Hres4 as [? Hsk4]. split; [done|].
    unfold skeleton in *. rewrite omap_app, Hsk1. csimpl.
    by rewrite omap_app, Hsk3, Hsk4.
Qed.
End Exercises_loop.

Section Days_loop.
Context `{Runtime}.
Implicit Types (l pre : list event) (e : event) (s : state).

(** ** The days loop *)

Lemma day_links_other d l :
  (∀ e', e' ∈ l → event_date e' ≠ d) → day_links d l = [].
Proof.
  induction l as [|e l IH]; intros Hl; [done|].
  unfold day_links in *. csimpl. rewrite IH.
  - destruct e as [| |d' n x|]; try done.
    rewrite decide_False; [done|]. apply (Hl (InsWorkoutExercise d' n x)).
    apply list_elem_of_here.
  - intros e' He'. apply Hl. by apply list_elem_of_further.
Qed.

Lemma min_of_is_Some (l : list string) : l ≠ [] → is_Some (min_of l).
Proof. destruct l; [done|]. by eexists. Qed.

Lemma max_of_is_Some (l : list string) : l ≠ [] → is_Some (max_of l).
Proof. destruct l; [done|]. by eexists. Qed.

Lemma group_by_exercise_ok g d :
  groups_ok g → d ∈ g.*1 →
  Forall (λ p, p.2 ≠ [] ∧
               p.1 ∈ (group_by_exercise (group_get g d)).*1 ∧
               Forall (λ r, r ∈ group_get g d ∧ date_of r = d ∧
                            exercise_of r = p.1) p.2)
         (group_by_exercise (group_get g d)).
Proof.
  intros [_ Hg] Hd. destruct (Hg d Hd) as [_ Hday].
  destruct (group_rows_wf exercise_of (group_get g d)) as [_ Hwf].
  fold (group_by_exercise (group_get g d)) in Hwf.
  rewrite Forall_forall in Hwf. apply Forall_forall. intros p Hp.
  destruct (Hwf p Hp) as (Hne & _ & Hkey). split_and!; [done| |].
  - apply list_elem_of_fmap. by exists p.
  - apply Forall_forall. intros r Hr. rewrite Forall_forall in Hkey.
    assert (r ∈ group_get g d) as Hrd; cycle 1.
    { split_and!; [done| |by apply Hkey].
      rewrite Forall_forall in Hday. by apply Hday. }
    assert (r ∈ concat (group_by_exercise (group_get g d)).*2) as Hin.
    { apply list_elem_of_In, in_concat. exists p.2.
      rewrite <- !list_elem_of_In. split; [|done].
      apply list_elem_of_fmap. by exists p. }
    unfold group_by_exercise in Hin. rewrite group_rows_concat in Hin.
    by apply list_elem_of_filter in Hin as [_ ?].
Qed.

Lemma process_day_spec g d s :
  inv g s → groups_ok g → d ∈ g.*1 →
  (∀ e', e' ∈ conn s → event_date e' ≠ d ∧ String.le d (event_date e')) →
  ∃ ext, let o := process_day g d s in
    inv g (final_state o) ∧
    conn (final_state o) = conn s ++ ext ∧
    Forall (λ e', event_date e' = d) ext ∧
    match first_error (day_sources g d) with
    | None => is_done o ∧ skeleton ext = day_skeleton g d
    | Some e => ∃ s', o = Raised e s'
    end.
Proof.
  intros Hinv Hg Hd Hfresh.
  destruct (proj2 Hg d Hd) as [Hne Hday].
  assert (times_of (group_get g d) ≠ []) as Htimes.
  { unfold times_of. by destruct (group_get g d). }
  destruct (min_of_is_Some _ Htimes) as [t1 Ht1].
  destruct (max_of_is_Some _ Htimes) as [t2 Ht2].
  destruct (parse_datetime_run d t1 s) as (s1 & Hrun1 & Hcore1).
  destruct (parse_datetime_run d t2 s1) as (s2 & Hrun2 & Hcore2).
  assert (inv g s2) as Hinv2 by eauto using inv_same_core.
  assert (conn s2 = conn s) as Hc.
  { destruct Hcore1 as (? & _), Hcore2 as (? & _). congruence. }
  set (ev := InsWorkout d
               {| wo_id := S (length (workouts_table (conn s2)));
                  wo_uid := uid_calls s2;
                  wo_started_at :=
                    parse_datetime_at (now_ms (now_calls s)) d t1;
                  wo_completed_at :=
                    parse_datetime_at (now_ms (now_calls s1)) d t2 |}).
  assert (event_ok g (conn s2) ev) as Hev.
  { destruct Hinv2 as [_ [mu mc mex mwo mwe]]. rewrite Hc.
    split; [simpl; by rewrite <- Hc|].
    split; [simpl; intros; by apply Hfresh|].
    simpl. split_and!.
    - by rewrite Hc.
    - intros. by apply Hfresh.
    - exists t1, t2, (now_calls s), (now_calls s1). by split_and!. }
  destruct (process_exercises_spec g d
              (S (length (workouts_table (conn s2))))
              (parse_datetime_at (now_ms (now_calls s)) d t1) 0
              (group_by_exercise (group_get g d)) (after_insert s2 ev))
    as (ext & Hres).
  { by apply inv_after_insert. }
  { eexists. split; [simpl; apply elem_of_app; right; apply list_elem_of_here|].
    done. }
  { simpl. rewrite Hc. intros e' [He'| ->]%elem_of_snoc; [by apply Hfresh|].
    simpl. done. }
  { apply group_rows_wf. }
  { by apply group_by_exercise_ok. }
  { simpl. rewrite Hc. intros e' n [He'| ->]%elem_of_snoc Hdate Hn; [|done].
    by destruct (Hfresh _ He'). }
  { simpl. rewrite Hc, day_links_app, day_links_other; [done|].
    intros e' He'. by apply Hfresh. }
  cbv zeta in Hres. destruct Hres as (Hinv' & Hc' & Hall & Hres).
  assert (process_day g d s =
          process_exercises d (S (length (workouts_table (conn s2))))
            (parse_datetime_at (now_ms (now_calls s)) d t1) 0
            (group_by_exercise (group_get g d)) (after_insert s2 ev)) as ->.
  { unfold process_day. cbv zeta. unfold py_min, py_max.
    rewrite Ht1, Ht2.
    rewrite (bind_done (mret t1) _ s t1 s eq_refl).
    rewrite (bind_done (mret t2) _ s t2 s eq_refl).
    rewrite (bind_done _ _ _ _ _ Hrun1), (bind_done _ _ _ _ _ Hrun2).
    reflexivity. }
  exists (ev :: ext). cbv zeta. split_and!.
  - done.
  - rewrite Hc'. simpl. by rewrite Hc, <- app_assoc.
  - by constructor.
  - unfold day_sources, day_skeleton.
    destruct (first_error _); [done|].
    destruct Hres as [? Hsk]. split; [done|].
    unfold skeleton in *. csimpl. by rewrite Hsk.
Qed.

Lemma process_days_spec g dates s :
  inv g s → groups_ok g →
  Forall (λ d, d ∈ g.*1) dates →
  StronglySorted (flip String.le) dates → NoDup dates →
  (∀ e' d, e' ∈ conn s → d ∈ dates →
           event_date e' ≠ d ∧ String.le d (event_date e')) →
  ∃ ext, let o := process_days g dates s in
    inv g (final_state o) ∧
    conn (final_state o) = conn s ++ ext ∧
    match first_error (concat (day_sources g <$> dates)) with
    | None => is_done o ∧ skeleton ext = concat (day_skeleton g <$> dates)
    | Some e => ∃ s', o = Raised e s'
    end.
Proof.
  intros Hinv Hg Hdates. revert s Hinv.
  induction Hdates as [|d dates Hd Hdates IH]; intros s Hinv Hsorted Hnd Hfresh.
  { exists []. cbn. rewrite app_nil_r. by split_and!. }
  apply StronglySorted_inv in Hsorted as [Hsorted Hle].
  apply NoDup_cons in Hnd as [Hnin Hnd].
  destruct (process_day_spec g d s) as (ext1 & Hinv1 & Hc1 & Hall1 & Hres1);
    try done.
  { intros e' He'. apply Hfresh; [done|]. apply list_elem_of_here. }
  cbv zeta in Hinv1, Hc1, Hres1.
  cbn [process_days]. cbv zeta. csimpl. rewrite first_error_app.
  destruct (process_day g d s) as [[] s1|exn s1] eqn:Hrun1; cycle 1.
  { rewrite (bind_raised _ _ _ _ _ Hrun1).
    destruct (first_error (day_sources g d)) as [e0|]; [|by destruct Hres1].
    destruct Hres1 as [s' [= -> ->]].
    exists ext1. split_and!; [done..|eauto]. }
  rewrite (bind_done _ _ _ _ _ Hrun1).
  destruct (first_error (day_sources g d)); [by destruct Hres1|].
  simpl in Hinv1, Hc1. destruct Hres1 as [_ Hsk1].
  destruct (IH s1) as (ext2 & Hres2); try done.
  { intros e' d' He' Hd'. rewrite Hc1 in He'.
    apply elem_of_app in He' as [He'|He'].
    - apply Hfresh; [done|]. by apply list_elem_of_further.
    - rewrite Forall_forall in Hall1. rewrite Forall_forall in Hle.
      rewrite (Hall1 _ He'). split.
      + by intros ->.
      + by apply Hle. }
  cbv zeta in Hres2. destruct Hres2 as (Hinv2 & Hc2 & Hres2).
  exists (ext1 ++ ext2). split_and!; [done| |].
  - by rewrite Hc2, Hc1, <- app_assoc.
  - simpl. destruct (first_error _); [done|].
    destruct Hres2 as [? Hsk2]. split; [done|].
    unfold skeleton in *. by rewrite omap_app, Hsk1, Hsk2.
Qed.

(** ** The hierarchy builder *)

Lemma inv_initial g : inv g initial_state.
Proof.
  split; [apply log_ok_nil|]. split; simpl; try done.
  - intros e []%elem_of_nil.
  - intros n id. rewrite lookup_empty. split; [done|].
    intros (? & ? & []%elem_of_nil & _).
  - intros d id. rewrite lookup_empty. split; [done|].
    intros (? & []%elem_of_nil & _).
Qed.

Lemma group_by_date_ok rows : groups_ok (group_by_date rows).
Proof.
  destruct (group_rows_wf date_of rows) as [Hnd Hwf].
  fold (group_by_date rows) in Hnd, Hwf. split; [done|].
  intros d Hd. apply group_elem_get in Hd.
  rewrite Forall_forall in Hwf. by destruct (Hwf _ Hd) as (? & _ & ?).
Qed.

Lemma build_hierarchy_spec rows :
  let g := group_by_date rows in
  let o := build_hierarchy rows initial_state in
  inv g (final_state o) ∧
  match first_error (sources rows) with
  | None => is_done o ∧
            skeleton (conn (final_state o)) =
            concat (day_skeleton g <$> sorted_reverse g.*1)
  | Some e => ∃ s', o = Raised e s'
  end.
Proof.
  intros g o.
  destruct (process_days_spec g (sorted_reverse g.*1) initial_state)
    as (ext & Hinv & Hc & Hres).
  - apply inv_initial.
  - apply group_by_date_ok.
  - apply Forall_forall. intros d. by rewrite elem_of_sorted_reverse.
  - apply sorted_reverse_sorted.
  - apply sorted_reverse_NoDup, group_by_date_ok.
  - intros e' d []%elem_of_nil.
  - cbv zeta in Hinv, Hc, Hres. simpl in Hc. subst ext.
    split; [done|]. done.
Qed.
End Days_loop.

(** ** First-seen order *)

Lemma elem_of_first_seen x l : x ∈ first_seen l ↔ x ∈ l.
Proof.
  induction l as [|y l IH]; simpl; [done|].
  rewrite !elem_of_cons, list_elem_of_filter, IH.
  destruct (decide (x = y)); naive_solver.
Qed.

Lemma first_seen_NoDup l : NoDup (first_seen l).
Proof.
  induction l as [|y l IH]; simpl; [constructor|].
  apply NoDup_cons. split.
  - rewrite list_elem_of_filter. naive_solver.
  - by apply NoDup_filter.
Qed.

(** ** Concatenation *)

Lemma concat_perm {A} (l1 l2 : list (list A)) :
  l1 ≡ₚ l2 → concat l1 ≡ₚ concat l2.
Proof.
  induction 1 as [|x l1 l2 _ IH|x y l|l1 l2 l3 _ IH1 _ IH2]; simpl.
  - done.
  - by rewrite IH.
  - rewrite !app_assoc. f_equiv. apply Permutation_app_comm.
  - by etrans.
Qed.

Lemma concat_fmap_perm {A B} (f f' : A → list B) (l : list A) :
  (∀ x, x ∈ l → f x ≡ₚ f' x) → concat (f <$> l) ≡ₚ concat (f' <$> l).
Proof.
  induction l as [|x l IH]; intros Hf; csimpl; [done|].
  rewrite (Hf x) by apply list_elem_of_here.
  rewrite IH; [done|]. intros y Hy. apply Hf. by apply list_elem_of_further.
Qed.

Lemma filter_concat {A} (P : A → Prop) `{!∀ x, Decision (P x)}
    (ls : list (list A)) :
  filter P (concat ls) = concat (filter P <$> ls).
Proof.
  induction ls as [|l ls IH]; csimpl; [done|]. by rewrite filter_app, IH.
Qed.

Lemma omap_concat {A B} (f : A → option B) (ls : list (list A)) :
  omap f (concat ls) = concat (omap (M:=list) f <$> ls).
Proof.
  induction ls as [|l ls IH]; csimpl; [done|]. by rewrite omap_app, IH.
Qed.

Lemma forallb_perm {A} (f : A → bool) (l1 l2 : list A) :
  l1 ≡ₚ l2 → forallb f l1 = forallb f l2.
Proof.
  induction 1 as [|x l1 l2 _ IH|x y l|l1 l2 l3 _ IH1 _ IH2]; simpl.
  - done.
  - by rewrite IH.
  - by destruct (f x), (f y).
  - congruence.
Qed.

(** ** The rows that reach the sets loop *)

Lemma group_get_keys g (F : list row → list row) :
  NoDup g.*1 →
  (λ d, F (group_get g d)) <$> g.*1 = (λ p, F p.2) <$> g.
Proof.
  intros Hnd. rewrite <- list_fmap_compose.
  apply Forall_fmap_ext_1, Forall_forall. intros [k vs] Hp. simpl.
  by rewrite (group_get_elem g k vs).
Qed.

Lemma kept_iff (r : row) :
  kept r = true ↔
  Py.truthy (exercise_of r) = true ∧ Py.truthy (date_of r) = true.
Proof. unfold kept. rewrite andb_true_iff. tauto. Qed.

Lemma sources_perm rows : sources rows ≡ₚ filter (λ r, kept r = true) rows.
Proof.
  unfold sources. cbv zeta.
  pose proof (group_rows_wf date_of rows) as [Hnd _].
  fold (group_by_date rows) in Hnd.
  rewrite (concat_perm _ (day_sources (group_by_date rows) <$>
                            (group_by_date rows).*1)); cycle 1.
  { by rewrite sorted_reverse_perm. }
  unfold day_sources.
  rewrite (group_get_keys _ (λ rs, concat (group_by_exercise rs).*2)) by done.
  unfold group_by_date in *.
  rewrite (concat_fmap_perm _
             (λ p, filter (λ r, Py.truthy (exercise_of r) = true) p.2));
    cycle 1.
  { intros p _. apply group_rows_concat. }
  replace ((λ p : string * list row,
              filter (λ r, Py.truthy (exercise_of r) = true) p.2) <$>
           group_rows date_of rows)
    with (filter (λ r, Py.truthy (exercise_of r) = true) <$>
            (group_rows date_of rows).*2)
    by (by rewrite <- list_fmap_compose).
  rewrite <- filter_concat.
  rewrite group_rows_concat, list_filter_filter.
  apply reflexive_eq, list_filter_iff. intros r. by rewrite kept_iff.
Qed.

Section Skeleton.
Context `{Runtime}.

Lemma set_sources_skeleton (l : list event) :
  set_sources l = omap tag_source (skeleton l).
Proof.
  unfold set_sources, skeleton.
  induction l as [|e l IH]; [done|]. csimpl. rewrite IH. by destruct e.
Qed.

Lemma day_link_names_skeleton d (l : list event) :
  day_link_names d l = omap (tag_link d) (skeleton l).
Proof.
  unfold day_link_names, skeleton.
  induction l as [|e l IH]; [done|]. csimpl. rewrite IH. by destruct e.
Qed.

Lemma length_day_links d (l : list event) :
  length (day_links d l) = length (day_link_names d l).
Proof.
  unfold day_links, day_link_names.
  induction l as [|e l IH]; [done|]. csimpl.
  destruct e as [| |d' n x|]; try done. by destruct (decide (d' = d)); simpl; rewrite IH.
Qed.
End Skeleton.

Lemma exercise_skeleton_source d p :
  omap tag_source (exercise_skeleton d p) = p.2.
Proof.
  unfold exercise_skeleton. csimpl. induction p.2 as [|r rs IH]; [done|].
  csimpl. by rewrite IH.
Qed.

Lemma day_skeleton_source g d :
  omap tag_source (day_skeleton g d) = day_sources g d.
Proof.
  unfold day_skeleton, day_sources. csimpl. rewrite omap_concat.
  rewrite <- list_fmap_compose. f_equal.
  apply Forall_fmap_ext_1, Forall_forall. intros p _. simpl.
  apply exercise_skeleton_source.
Qed.

Lemma skeleton_sources g dates :
  omap tag_source (concat (day_skeleton g <$> dates)) =
  concat (day_sources g <$> dates).
Proof.
  rewrite omap_concat, <- list_fmap_compose. f_equal.
  apply Forall_fmap_ext_1, Forall_forall. intros d _. simpl.
  apply day_skeleton_source.
Qed.

Lemma exercise_skeleton_link d d' p :
  omap (tag_link d) (exercise_skeleton d' p) =
  if decide (d' = d) then [p.1] else [].
Proof.
  unfold exercise_skeleton. csimpl.
  assert (omap (tag_link d) (TSet d' p.1 <$> p.2) = []) as ->.
  { induction p.2 as [|r rs IH]; [done|]. csimpl. by rewrite IH. }
  by destruct (decide (d' = d)).
Qed.

Lemma day_skeleton_link g d d' :
  omap (tag_link d) (day_skeleton g d') =
  if decide (d' = d) then (group_by_exercise (group_get g d)).*1 else [].
Proof.
  unfold day_skeleton. csimpl.
  destruct (decide (d' = d)) as [->|Hne].
  - induction (group_by_exercise (group_get g d)) as [|p l IH]; [done|].
    rewrite !fmap_cons. cbn [concat].
    rewrite omap_app, IH, exercise_skeleton_link, decide_True by done.
    done.
  - induction (group_by_exercise (group_get g d')) as [|p l IH]; [done|].
    rewrite !fmap_cons. cbn [concat].
    rewrite omap_app, IH, exercise_skeleton_link, decide_False by done.
    done.
Qed.

Lemma skeleton_links g d dates :
  NoDup dates → d ∈ dates →
  omap (tag_link d) (concat (day_skeleton g <$> dates)) =
  (group_by_exercise (group_get g d)).*1.
Proof.
  intros Hnd Hd.
  induction Hnd as [|d' dates Hnin Hnd IH]; [by apply elem_of_nil in Hd|].
  rewrite fmap_cons. cbn [concat]. rewrite omap_app, day_skeleton_link.
  destruct (decide (d' = d)) as [->|Hne].
  - assert (omap (tag_link d) (concat (day_skeleton g <$> dates)) = []) as ->;
      [|by rewrite app_nil_r].
    clear IH Hd Hnd. induction dates as [|d' dates IH]; [done|].
    apply not_elem_of_cons in Hnin as [Hne Hnin].
    rewrite fmap_cons. cbn [concat].
    rewrite omap_app, day_skeleton_link, decide_False by done.
    by apply IH.
  - apply elem_of_cons in Hd as [->|Hd]; [done|]. by apply IH.
Qed.

Lemma day_skeleton_workout g d : omap tag_workout (day_skeleton g d) = [d].
Proof.
  unfold day_skeleton. csimpl. f_equal.
  induction (group_by_exercise (group_get g d)) as [|p l IH]; [done|].
  rewrite !fmap_cons. cbn [concat]. rewrite omap_app, IH, app_nil_r.
  unfold exercise_skeleton. csimpl.
  induction p.2 as [|r rs IHr]; [done|]. csimpl. by rewrite IHr.
Qed.

Lemma skeleton_workouts g dates :
  omap tag_workout (concat (day_skeleton g <$> dates)) = dates.
Proof.
  induction dates as [|d dates IH]; [done|].
  rewrite fmap_cons. cbn [concat].
  by rewrite omap_app, day_skeleton_workout, IH.
Qed.

Section Runs.
Context `{Runtime}.
Implicit Types (rows : list row) (s : state).

(** ** Runs of the hierarchy builder *)

Lemma run_inv rows :
  inv (group_by_date rows)
      (final_state (build_hierarchy rows initial_state)).
Proof. apply build_hierarchy_spec. Qed.

Lemma row_error_None (r : row) : row_error r = None ↔ insertable r = true.
Proof.
  unfold row_error, insertable.
  destruct (numeric_ok r), (reps_fits r); simpl; naive_solver.
Qed.

Lemma first_error_None (l : list row) :
  first_error l = None ↔ forallb insertable l = true.
Proof.
  induction l as [|r l IH]; [done|]. simpl.
  rewrite andb_true_iff, <- IH, <- row_error_None.
  destruct (row_error r); naive_solver.
Qed.

Lemma first_error_Some (l : list row) e :
  first_error l = Some e → ∃ r, r ∈ l ∧ row_error r = Some e.
Proof.
  induction l as [|r l IH]; [done|]. simpl.
  destruct (row_error r) as [e'|] eqn:E.
  - intros [= ->]. exists r. split; [apply list_elem_of_here|done].
  - intros (r' & Hr' & He)%IH. exists r'.
    split; [by apply list_elem_of_further|done].
Qed.

Lemma row_error_kind (r : row) e :
  row_error r = Some e →
  (e = ValueError ∧ numeric_ok r = false) ∨
  (e = OverflowError ∧ numeric_ok r = true ∧ reps_fits r = false).
Proof.
  unfold row_error.
  destruct (numeric_ok r), (reps_fits r); simpl; naive_solver.
Qed.

Lemma run_outcome rows :
  match first_error (sources rows) with
  | None => ∃ s, build_hierarchy rows initial_state = Done tt s
  | Some e => ∃ s, build_hierarchy rows initial_state = Raised e s
  end.
Proof.
  destruct (build_hierarchy_spec rows) as [_ Hres].
  destruct (first_error (sources rows)); [done|].
  destruct Hres as [Hdone _].
  destruct (build_hierarchy rows initial_state) as [[] s|]; [eauto|done].
Qed.

Lemma run_numeric_ok rows :
  forallb insertable (filter (λ r, kept r = true) rows) = true →
  ∃ s, build_hierarchy rows initial_state = Done tt s.
Proof.
  intros Hok. pose proof (run_outcome rows) as Hres.
  rewrite <- (forallb_perm _ _ _ (sources_perm rows)) in Hok.
  apply first_error_None in Hok. by rewrite Hok in Hres.
Qed.

Lemma run_numeric_bad rows :
  forallb insertable (filter (λ r, kept r = true) rows) = false →
  ∃ e s, build_hierarchy rows initial_state = Raised e s ∧
         first_error (sources rows) = Some e.
Proof.
  intros Hbad. pose proof (run_outcome rows) as Hres.
  rewrite <- (forallb_perm _ _ _ (sources_perm rows)) in Hbad.
  destruct (first_error (sources rows)) as [e|] eqn:E.
  - destruct Hres as [s Hs]. eauto.
  - apply first_error_None in E. congruence.
Qed.

(** A run that is aborted was aborted by a row that reaches the sets
    loop. *)
Lemma run_raised rows e s :
  build_hierarchy rows initial_state = Raised e s →
  ∃ r, r ∈ rows ∧ kept r = true ∧ row_error r = Some e.
Proof.
  intros Hrun. pose proof (run_outcome rows) as Hres.
  destruct (first_error (sources rows)) as [e'|] eqn:E.
  - destruct Hres as [s' Hs']. rewrite Hrun in Hs'. injection Hs' as -> _.
    apply first_error_Some in E as (r & Hr & He).
    rewrite sources_perm in Hr. apply list_elem_of_filter in Hr as [? ?].
    eauto.
  - destruct Hres as [s' Hs']. congruence.
Qed.


Lemma run_done rows s :
  build_hierarchy rows initial_state = Done tt s →
  inv (group_by_date rows) s ∧
  skeleton (conn s) =
    concat (day_skeleton (group_by_date rows) <$>
              sorted_reverse (group_by_date rows).*1).
Proof.
  intros Hrun. destruct (build_hierarchy_spec rows) as [Hinv Hres].
  rewrite Hrun in Hinv, Hres. simpl in Hinv, Hres. split; [done|].
  destruct (first_error (sources rows)); [by destruct Hres|].
  by destruct Hres.
Qed.

Lemma run_sources rows s :
  build_hierarchy rows initial_state = Done tt s →
  set_sources (conn s) = sources rows.
Proof.
  intros [_ Hsk]%run_done.
  by rewrite set_sources_skeleton, Hsk, skeleton_sources.
Qed.

Lemma length_set_sources (l : list event) :
  length (set_sources l) = length (sets_table l).
Proof.
  unfold set_sources, sets_table.
  induction l as [|e l IH]; [done|]. csimpl. destruct e; simpl; by rewrite ?IH.
Qed.

Lemma elem_of_set_sources r (l : list event) :
  r ∈ set_sources l ↔ ∃ d n st, InsSet d n r st ∈ l.
Proof.
  unfold set_sources. rewrite list_elem_of_omap. split.
  - intros (e & He & Hr). destruct e; simplify_eq/=. eauto.
  - intros (d & n & st & Hin). by exists (InsSet d n r st).
Qed.

(** Every row that reaches the sets loop has its sets row. *)
Lemma run_covers rows s r :
  build_hierarchy rows initial_state = Done tt s →
  r ∈ rows → kept r = true → ∃ d n st, InsSet d n r st ∈ conn s.
Proof.
  intros Hrun Hr Hk. apply elem_of_set_sources.
  rewrite (run_sources _ _ Hrun), sources_perm.
  by apply list_elem_of_filter.
Qed.
End Runs.

Section Builder_claims.
Context `{Runtime}.
Implicit Types (rows : list row) (s : state).

(** C1 (amended).  When no row that reaches the sets loop has a weight or
    reps field that fails to parse, or a reps value outside the signed
    64-bit range of an SQLite INTEGER, the conversion completes and the
    number of sets rows it inserts (and the counter it prints) is the
    number of extracted records whose date and trimmed exercise name are
    both non-empty. *)
Theorem sets_match_kept_records (lines : list string) :
  let rows := read_csv lines in
  forallb insertable (filter (λ r, kept r = true) rows) = true →
  ∃ s, build_hierarchy rows initial_state = Done tt s ∧
       length (sets_table (conn s)) =
         length (filter (λ r, kept r = true) rows) ∧
       set_count s = length (filter (λ r, kept r = true) rows).
Proof.
  intros rows Hok. destruct (run_numeric_ok rows Hok) as [s Hrun].
  exists s. split; [done|].
  pose proof (run_sources _ _ Hrun) as Hsrc.
  destruct (run_done _ _ Hrun) as [[_ Hm] _].
  assert (length (sets_table (conn s)) =
          length (filter (λ r, kept r = true) rows)) as Hlen.
  { by rewrite <- length_set_sources, Hsrc, sources_perm. }
  split; [done|]. by rewrite (mo_count _ Hm).
Qed.

(** C2 (amended).  Date groups are processed in descending order of the
    date strings: of two rows inserted for different dates, the one whose
    date string is the greater is inserted first, and its synthetic id is
    minted first. *)
Theorem descending_date_strings rows i j e1 e2 :
  let log := conn (final_state (build_hierarchy rows initial_state)) in
  log !! i = Some e1 → log !! j = Some e2 →
  String.ltb (event_date e2) (event_date e1) = true →
  i < j ∧ event_uid e1 < event_uid e2.
Proof.
  intros log Hi Hj Hlt. destruct (run_inv rows) as [Hl _]. fold log in Hl.
  apply ltb_not_le in Hlt.
  assert (i < j) as Hij.
  { destruct (lt_eq_lt_dec i j) as [[?| ->]|Hji]; [done| |].
    - simplify_eq. by destruct Hlt.
    - destruct Hlt. by eapply log_ok_dates. }
  split; [done|].
  by apply (log_ok_uid _ _ i j _ _ Hl Hi Hj).
Qed.

(** C10.  Every sets row carries the workout_id and exercise_id of the
    workout_exercises row its workout_exercise_id identifies, and that
    workout_id is the one recorded for the date group its CSV row belongs
    to. *)
Theorem set_references_consistent rows d n r st :
  let s := final_state (build_hierarchy rows initial_state) in
  InsSet d n r st ∈ conn s →
  (∃ x, x ∈ workout_exercises_table (conn s) ∧
        we_id x = set_workout_exercise_id st) ∧
  (∀ x, x ∈ workout_exercises_table (conn s) →
        we_id x = set_workout_exercise_id st →
        we_workout_id x = set_workout_id st ∧
        we_exercise_id x = set_exercise_id st) ∧
  r ∈ group_get (group_by_date rows) d ∧
  workouts s !! d = Some (set_workout_id st).
Proof.
  intros s Hin. destruct (run_inv rows) as [Hl Hm]. fold s in Hl, Hm.
  destruct (log_ok_elem _ _ _ Hl Hin)
    as (i & Hi & _ & _ & _ & (x & Hx & Hxid & Hxw & Hxe) & Hr & _).
  apply elem_of_take_elem in Hx.
  assert (∀ y, y ∈ workout_exercises_table (conn s) ↔
               ∃ d' n', InsWorkoutExercise d' n' y ∈ conn s) as Htable.
  { intros y. unfold workout_exercises_table. rewrite list_elem_of_omap.
    split.
    - intros (e & He & Hy). destruct e; simplify_eq/=. eauto.
    - intros (d' & n' & Hy). by exists (InsWorkoutExercise d' n' y). }
  split_and!.
  - exists x. split; [|done]. apply Htable. eauto.
  - intros y (d' & n' & Hy)%Htable Hyid.
    destruct (link_id_inj _ _ _ _ _ _ _ _ Hl Hx Hy) as (_ & _ & <-);
      [congruence|done].
  - done.
  - destruct (log_ok_elem _ _ _ Hl Hx)
      as (k & _ & _ & _ & _ & (w & Hw%elem_of_take_elem & Hwid) & _).
    apply (mo_wo _ Hm). exists w. split; [done|]. congruence.
Qed.
Lemma truthy_iff (x : string) : Py.truthy x = true ↔ x ≠ "".
Proof. by destruct x. Qed.

Lemma truthy_false_iff (x : string) : Py.truthy x = false ↔ x = "".
Proof. by destruct x. Qed.

Lemma get_date_default (r : row) : Py.get r "Date" (date_of r) = date_of r.
Proof. unfold date_of, Py.get. by destruct (r !! "Date"). Qed.

Lemma convert_done lines db s :
  read_csv lines ≠ [] →
  build_hierarchy (read_csv lines) initial_state = Done tt s →
  convert_csv_to_db lines db = {| exit_code := 0; db_file := Some (conn s) |}.
Proof.
  intros Hne Hrun. unfold convert_csv_to_db. cbv zeta. rewrite Hrun.
  by destruct (read_csv lines).
Qed.

Lemma convert_raised lines db x s :
  read_csv lines ≠ [] →
  build_hierarchy (read_csv lines) initial_state = Raised x s →
  convert_csv_to_db lines db = {| exit_code := 1; db_file := Some [] |}.
Proof.
  intros Hne Hrun. unfold convert_csv_to_db. cbv zeta. rewrite Hrun.
  by destruct (read_csv lines).
Qed.


End Builder_claims.

(** ** Minimum and maximum of strings *)









(** ** Date groups *)

Lemma elem_of_date_keys rows d :
  d ∈ (group_by_date rows).*1 ↔ d ∈ date_of <$> rows ∧ d ≠ "".
Proof.
  unfold group_by_date.
  rewrite group_rows_keys, elem_of_first_seen, list_elem_of_filter.
  rewrite truthy_iff. tauto.
Qed.

Lemma group_by_date_get rows d :
  d ≠ "" →
  group_get (group_by_date rows) d = filter (λ r, date_of r = d) rows.
Proof. intros Hd. apply group_rows_get. by apply truthy_iff. Qed.

Lemma elem_of_date_group rows d r :
  r ∈ group_get (group_by_date rows) d → r ∈ rows ∧ date_of r = d ∧ d ≠ "".
Proof.
  intros Hr.
  assert (d ∈ (group_by_date rows).*1) as Hd.
  { destruct (decide (d ∈ (group_by_date rows).*1)) as [|Hn]; [done|].
    rewrite (group_get_notin _ _ Hn) in Hr. by apply elem_of_nil in Hr. }
  apply elem_of_date_keys in Hd as [_ Hd].
  rewrite group_by_date_get in Hr by done.
  apply list_elem_of_filter in Hr as [? ?]. done.
Qed.

Lemma exercise_keys rows d :
  d ≠ "" →
  (group_by_exercise (group_get (group_by_date rows) d)).*1 =
  first_seen (filter (λ n, n ≠ "")
                (exercise_of <$> filter (λ r, date_of r = d) rows)).
Proof.
  intros Hd. unfold group_by_exercise.
  rewrite group_rows_keys, group_by_date_get by done. f_equal.
  apply list_filter_iff. intros n. apply truthy_iff.
Qed.

Section Shape.
Context `{Runtime}.
Implicit Types (l : list event) (s : state).

Lemma log_ok_snoc_inv g l e : log_ok g (l ++ [e]) → log_ok g l ∧ event_ok g l e.
Proof.
  intros Hl. split.
  - intros i e' Hi. pose proof (lookup_lt_Some _ _ _ Hi) as Hlt.
    specialize (Hl i e'). rewrite lookup_app_l, take_app_le in Hl by lia.
    by apply Hl.
  - specialize (Hl (length l) e).
    rewrite take_app_length in Hl. apply Hl.
    by rewrite lookup_app_r, Nat.sub_diag by lia.
Qed.

Lemma omap_nil_iff {A B} (f : A → option B) (l : list A) :
  omap f l = [] ↔ ∀ x, x ∈ l → f x = None.
Proof.
  induction l as [|x l IH]; csimpl.
  - split; [|done]. by intros _ x ?%elem_of_nil.
  - destruct (f x) eqn:E.
    + split; [done|]. intros Hall. specialize (Hall x (list_elem_of_here _ _)).
      congruence.
    + rewrite IH. split.
      * intros Hall y [->|?]%elem_of_cons; eauto.
      * intros Hall y Hy. apply Hall. by apply list_elem_of_further.
Qed.

(** One workouts row per date. *)
Lemma day_workouts_unique g l d w :
  log_ok g l → InsWorkout d w ∈ l → day_workouts d l = [w].
Proof.
  intros Hl Hin. destruct (list_elem_of_split _ _ Hin) as (l1 & l2 & ->).
  pose proof (Hl (length l1) (InsWorkout d w)) as Hok.
  rewrite take_app_length, list_lookup_middle in Hok by done.
  destruct (Hok eq_refl) as (_ & _ & _ & Hfresh & _).
  unfold day_workouts. rewrite omap_app. csimpl.
  rewrite decide_True by done.
  match goal with |- ?a ++ _ :: ?b = _ =>
    assert (a = []) as ->; [|assert (b = []) as ->; [|done]] end.
  - apply omap_nil_iff. intros e He. destruct e as [d' w'| | |]; try done.
    rewrite decide_False; [done|]. apply (Hfresh _ He).
  - apply omap_nil_iff. intros e He. destruct e as [d' w'| | |]; try done.
    rewrite decide_False; [done|]. intros ->.
    apply list_elem_of_lookup in He as [k Hk].
    pose proof (Hl (length l1 + S k) (InsWorkout d w')) as Hok'.
    rewrite lookup_app_r in Hok' by lia.
    replace (length l1 + S k - length l1) with (S k) in Hok' by lia.
    destruct (Hok' Hk) as (_ & _ & _ & Hfresh' & _).
    apply (Hfresh' (InsWorkout d w)); [|done].
    apply elem_of_take. exists (length l1). split; [|lia].
    by apply list_lookup_middle.
Qed.


(** The workout_exercises rows of a date are the rows that carry the id of
    its workouts row. *)
Lemma day_links_filter g l d w :
  log_ok g l → InsWorkout d w ∈ l →
  filter (λ x, we_workout_id x = wo_id w) (workout_exercises_table l) =
  day_links d l.
Proof.
  intros Hl Hw.
  assert (∀ d' n' x, InsWorkoutExercise d' n' x ∈ l →
                     d' = d ↔ we_workout_id x = wo_id w) as Hiff.
  { intros d' n' x Hx.
    destruct (log_ok_elem _ _ _ Hl Hx)
      as (i & _ & _ & _ & _ & (w' & Hw'%elem_of_take_elem & Hid) & _).
    split.
    - intros ->.
      pose proof (day_workouts_unique g l d w Hl Hw) as E1.
      pose proof (day_workouts_unique g l d w' Hl Hw') as E2.
      congruence.
    - intros Heq. destruct (workout_id_inj g l d' w' d w); try done.
      congruence. }
  clear Hl Hw. unfold workout_exercises_table, day_links.
  induction l as [|e l IH]; [done|].
  csimpl. destruct e as [| |d' n' x|]; csimpl.
  - apply IH. intros. eapply Hiff. by apply list_elem_of_further.
  - apply IH. intros. eapply Hiff. by apply list_elem_of_further.
  - rewrite filter_cons.
    pose proof (Hiff d' n' x (list_elem_of_here _ _)) as Hx.
    destruct (decide (d' = d)) as [Heq|Hne].
    + rewrite decide_True by (by apply Hx). f_equal.
      apply IH. intros. eapply Hiff. by apply list_elem_of_further.
    + rewrite decide_False by (by rewrite <- Hx).
      apply IH. intros. eapply Hiff. by apply list_elem_of_further.
  - apply IH. intros. eapply Hiff. by apply list_elem_of_further.
Qed.

(** Order indices count the rows of the date so far. *)
Lemma day_links_order g l d :
  log_ok g l →
  we_order_index <$> day_links d l = seq 0 (length (day_links d l)).
Proof.
  induction l as [|e l IH] using rev_ind; [done|].
  intros [Hl He]%log_ok_snoc_inv. specialize (IH Hl).
  rewrite day_links_app, fmap_app, length_app, seq_app, IH. f_equal.
  destruct e as [| |d' n x|]; try done. simpl.
  destruct (decide (d' = d)) as [->|]; [|done]. simpl.
  destruct He as (_ & _ & _ & _ & _ & _ & ->). done.
Qed.

Lemma day_links_names_Forall2 d l (P : string → workout_exercise_row → Prop) :
  (∀ n x, InsWorkoutExercise d n x ∈ l → P n x) →
  Forall2 P (day_link_names d l) (day_links d l).
Proof.
  unfold day_link_names, day_links.
  induction l as [|e l IH]; intros HP; [constructor|].
  csimpl.
  assert (Forall2 P (day_link_names d l) (day_links d l)) as IH'.
  { apply IH. intros. apply HP. by apply list_elem_of_further. }
  destruct e as [| |d' n x|]; try done.
  destruct (decide (d' = d)) as [->|]; [|done].
  constructor; [|done]. apply HP, list_elem_of_here.
Qed.
End Shape.

Section Hierarchy_claims.
Context `{Runtime}.
Implicit Types (rows : list row) (s : state).


(** The exercises row a workout_exercises or sets row refers to was
    inserted before it, under the name the row was inserted for. *)
Lemma exercise_before_use g (l : list event) j e n :
  log_ok g l → l !! j = Some e → event_name e = Some n →
  ∃ i d x, i < j ∧ l !! i = Some (InsExercise d x) ∧ ex_name x = n ∧
           event_exercise_id e = Some (ex_id x).
Proof.
  intros Hl Hj Hn.
  assert (∀ j d' x', l !! j = Some (InsWorkoutExercise d' n x') →
            ∃ i d x, i < j ∧ l !! i = Some (InsExercise d x) ∧
                     ex_name x = n ∧ we_exercise_id x' = ex_id x) as Hlink.
  { intros j' d' x' Hj'.
    destruct (Hl _ _ Hj') as (_ & _ & _ & _ & (d0 & y & Hy & Hyn & Hyid) & _).
    apply elem_of_take in Hy as (i & Hi & Hlt). by exists i, d0, y. }
  destruct e as [| |d' n' x'|d' n' r st]; simplify_eq/=.
  - destruct (Hlink _ _ _ Hj) as (i & d & x & ? & ? & ? & ->). by exists i, d, x.
  - destruct (Hl _ _ Hj) as (_ & _ & _ & (x' & Hx' & _ & _ & Hxe) & _).
    apply elem_of_take in Hx' as (j' & Hj' & Hlt).
    destruct (Hlink _ _ _ Hj') as (i & d & x & ? & ? & ? & Hid).
    exists i, d, x. split_and!; [lia|done..|]. simpl. congruence.
Qed.

(** C5 (amended).  In a completed conversion every non-empty trimmed
    exercise name that occurs in a record with a non-empty date has exactly
    one exercises row, recorded under that name in [exercises]; the row is
    inserted while the group of a date that has a record of that name is
    processed, before every workout_exercises and sets row inserted for
    the name, and all of these carry its id. *)
Theorem one_exercise_per_kept_name rows s n :
  build_hierarchy rows initial_state = Done tt s →
  (∃ r, r ∈ rows ∧ kept r = true ∧ exercise_of r = n) →
  ∃ i d x,
    conn s !! i = Some (InsExercise d x) ∧ ex_name x = n ∧
    exercises s !! n = Some (ex_id x) ∧
    (∀ j d' x', conn s !! j = Some (InsExercise d' x') →
                ex_name x' = n → j = i) ∧
    (∀ j e, conn s !! j = Some e → event_name e = Some n →
            i < j ∧ event_exercise_id e = Some (ex_id x)) ∧
    (∃ r, r ∈ rows ∧ date_of r = d ∧ exercise_of r = n).
Proof.
  intros Hrun (r & Hr & Hk & Hn).
  destruct (run_covers _ _ _ Hrun Hr Hk) as (d0 & n0 & st & Hin).
  destruct (run_done _ _ Hrun) as [[Hl Hm] _].
  apply list_elem_of_lookup in Hin as [j Hj].
  assert (n0 = n) as ->.
  { destruct (Hl _ _ Hj) as (_ & _ & _ & _ & _ & _ & ? & _). congruence. }
  destruct (exercise_before_use _ _ _ _ n Hl Hj eq_refl)
    as (i & d & x & _ & Hi & Hx & _).
  exists i, d, x. split_and!; try done.
  - apply (mo_ex _ Hm). exists d, x. split; [|done].
    by eapply list_elem_of_lookup_2.
  - intros j' d' x' Hj' Hx'. eapply exercise_name_index; [done..|congruence].
  - intros j' e Hj' He.
    destruct (exercise_before_use _ _ _ _ n Hl Hj' He)
      as (i' & d' & x' & Hlt & Hi' & Hx' & Hid).
    assert (i' = i) as -> by (eapply exercise_name_index; [done..|congruence]).
    simplify_eq. done.
  - destruct (Hl _ _ Hi) as (_ & _ & _ & _ & Hkey).
    unfold group_by_exercise in Hkey.
    rewrite group_rows_keys, elem_of_first_seen, list_elem_of_filter in Hkey.
    destruct Hkey as [_ (r' & Hr'n & Hr')%list_elem_of_fmap].
    apply elem_of_date_group in Hr' as (? & ? & _).
    exists r'. split_and!; [done..|congruence].
Qed.

(** Every workouts row was inserted for a date value of the input. *)
Lemma workout_date rows s d w :
  build_hierarchy rows initial_state = Done tt s →
  InsWorkout d w ∈ conn s → d ∈ (group_by_date rows).*1.
Proof.
  intros [_ Hsk]%run_done Hw.
  rewrite <- (elem_of_sorted_reverse d), <- (skeleton_workouts (group_by_date rows)).
  rewrite <- Hsk. apply list_elem_of_omap. exists (TWorkout d). split; [|done].
  apply list_elem_of_omap. by exists (InsWorkout d w).
Qed.

(** C6.  In a completed conversion, the workout_exercises rows of any one
    workout (the rows that carry the id of its workouts row) have, in
    insertion order, the order_index values 0, 1, 2, ... and refer, in
    that order, to the exercises named by the non-empty trimmed exercise
    names of the records of the workout's date in first-seen order. *)
Theorem order_index_dense_first_seen rows s d w :
  build_hierarchy rows initial_state = Done tt s →
  InsWorkout d w ∈ conn s →
  let names :=
    first_seen (filter (λ n, n ≠ "")
                  (exercise_of <$> filter (λ r, date_of r = d) rows)) in
  let links :=
    filter (λ x, we_workout_id x = wo_id w)
           (workout_exercises_table (conn s)) in
  workouts s !! d = Some (wo_id w) ∧
  we_order_index <$> links = seq 0 (length links) ∧
  length links = length names ∧
  Forall2 (λ n x, exercises s !! n = Some (we_exercise_id x)) names links.
Proof.
  intros Hrun Hw names links.
  pose proof (workout_date _ _ _ _ Hrun Hw) as Hkey.
  pose proof Hkey as [_ Hne]%elem_of_date_keys.
  destruct (run_done _ _ Hrun) as [[Hl Hm] Hsk].
  assert (day_link_names d (conn s) = names) as Hnames.
  { rewrite day_link_names_skeleton, Hsk, skeleton_links.
    - by apply exercise_keys.
    - apply sorted_reverse_NoDup, group_by_date_ok.
    - by apply elem_of_sorted_reverse. }
  assert (links = day_links d (conn s)) as -> by (by eapply day_links_filter).
  split_and!.
  - apply (mo_wo _ Hm). eauto.
  - by apply (day_links_order _ _ _ Hl).
  - by rewrite length_day_links, Hnames.
  - rewrite <- Hnames. apply day_links_names_Forall2.
    intros n x Hx.
    destruct (log_ok_elem _ _ _ Hl Hx)
      as (i & _ & _ & _ & _ & _ & (d0 & y & Hy%elem_of_take_elem & Hyn & Hyid)
          & _).
    apply (mo_ex _ Hm). eauto.
Qed.
End Hierarchy_claims.

(** ** The record extractor *)

Lemma dict_set_keys {V} k (v : V) d :
  (dict_set k v d).*1 = if decide (k ∈ d.*1) then d.*1 else d.*1 ++ [k].
Proof.
  induction d as [|[k' v'] d IH]; csimpl; [done|].
  destruct (decide (k = k')) as [->|Hne]; csimpl.
  - rewrite decide_True; [done|]. apply list_elem_of_here.
  - rewrite IH. destruct (decide (k ∈ d.*1)) as [Hin|Hin].
    + rewrite decide_True; [done|]. by apply list_elem_of_further.
    + rewrite decide_False; [done|]. rewrite elem_of_cons. naive_solver.
Qed.

Lemma dict_set_fresh {V} k (v : V) d :
  k ∉ d.*1 → dict_set k v d = d ++ [(k, v)].
Proof.
  induction d as [|[k' v'] d IH]; csimpl; [done|].
  rewrite not_elem_of_cons. intros [Hne Hnin].
  rewrite decide_False by done. by rewrite IH.
Qed.

Lemma dict_row_padded_acc fieldnames record acc :
  NoDup (acc.*1 ++ fieldnames) →
  fold_left (λ d k, dict_set k None d)
    (drop (length record) fieldnames)
    (fold_left (λ d kv, dict_set kv.1 (Some kv.2) d)
       (zip fieldnames record) acc) =
  acc ++ padded fieldnames record.
Proof.
  revert record acc.
  induction fieldnames as [|k fn IH]; intros record acc Hnd.
  { simpl. rewrite drop_nil. simpl. by rewrite app_nil_r. }
  assert (k ∉ acc.*1) as Hk.
  { apply NoDup_app in Hnd as (_ & Hdisj & _). intros Hin.
    apply (Hdisj _ Hin), list_elem_of_here. }
  assert (∀ v : option string, NoDup ((acc ++ [(k, v)]).*1 ++ fn)) as Hnd'.
  { intros v. rewrite fmap_app, <- app_assoc. done. }
  destruct record as [|v record]; simpl.
  - rewrite dict_set_fresh by done.
    pose proof (IH [] (acc ++ [(k, None)]) (Hnd' None)) as IH0.
    rewrite zip_with_nil_r, drop_0 in IH0. simpl in IH0.
    rewrite IH0, <- app_assoc. done.
  - rewrite dict_set_fresh by done.
    rewrite (IH record (acc ++ [(k, Some v)]) (Hnd' (Some v))).
    by rewrite <- app_assoc.
Qed.

Lemma dict_row_padded fieldnames record :
  NoDup fieldnames → dict_row fieldnames record = padded fieldnames record.
Proof.
  intros Hnd. unfold dict_row. cbv zeta.
  by rewrite (dict_row_padded_acc fieldnames record []).
Qed.

Lemma strip_empty_truthy (k : string) : Py.strip k ≠ "" → Py.truthy k = true.
Proof. by destruct k. Qed.

Lemma clean_padded_acc fieldnames fieldnames' record (acc : row) :
  Py.strip <$> fieldnames = Py.strip <$> fieldnames' →
  Forall (λ h, Py.strip h ≠ "") fieldnames →
  fold_left
    (λ clean_row kv,
       if Py.truthy kv.1
       then <[Py.strip kv.1 := clean_value kv.2]> clean_row
       else clean_row)
    (padded fieldnames record) acc =
  fold_left
    (λ clean_row kv,
       if Py.truthy kv.1
       then <[Py.strip kv.1 := clean_value kv.2]> clean_row
       else clean_row)
    (padded fieldnames' record) acc.
Proof.
  intros Heq Hall. revert fieldnames' record acc Heq.
  induction Hall as [|k fn Hk Hall IH]; intros fn' record acc Heq.
  { destruct fn'; [done|]. csimpl in Heq. discriminate. }
  destruct fn' as [|k' fn']; csimpl in Heq; [discriminate|].
  injection Heq as Hkk Heq.
  assert (Py.strip k' ≠ "") as Hk' by congruence.
  destruct record as [|v record]; simpl;
    rewrite (strip_empty_truthy k Hk), (strip_empty_truthy k' Hk'), Hkk;
    by apply IH.
Qed.

Section Extractor_claims.
Context `{Runtime}.

(** C3 (amended).  Column names are matched exactly after trimming: two
    inputs with the same data records whose header fields are equal after
    trimming surrounding whitespace, each trimmed name being non-empty and
    occurring once, give the same extracted rows and the same run of the
    hierarchy builder.  Letter case is not ignored. *)
Theorem header_whitespace_insensitive (text text' : string)
    (fieldnames fieldnames' : list string) (records : list (list string)) :
  csv_reader text = fieldnames :: records →
  csv_reader text' = fieldnames' :: records →
  Py.strip <$> fieldnames = Py.strip <$> fieldnames' →
  NoDup (Py.strip <$> fieldnames) →
  Forall (λ h, Py.strip h ≠ "") fieldnames →
  read_dicts text = read_dicts text' ∧
  build_hierarchy (read_dicts text) initial_state =
  build_hierarchy (read_dicts text') initial_state.
Proof.
  intros Ht Ht' Heq Hnd Hall.
  assert (read_dicts text = read_dicts text') as Hrows; [|by rewrite Hrows].
  unfold read_dicts. rewrite Ht, Ht'. f_equal.
  apply Forall_fmap_ext_1, Forall_forall. intros record _.
  rewrite !dict_row_padded.
  - unfold clean. by apply clean_padded_acc.
  - rewrite Heq in Hnd. by apply NoDup_fmap_1 in Hnd.
  - by apply NoDup_fmap_1 in Hnd.
Qed.

(** C9.  When the extractor returns no record the converter ends with
    status 1 and what the output path holds is what it held before. *)
Theorem empty_extraction_leaves_output (lines : list string)
    (db : option (list event)) :
  read_csv lines = [] →
  convert_csv_to_db lines db = {| exit_code := 1; db_file := db |}.
Proof. intros Hrows. unfold convert_csv_to_db. by rewrite Hrows. Qed.

(** With at least one record the old file is replaced, whatever happens
    later. *)
Lemma nonempty_extraction_replaces_output (lines : list string)
    (db : option (list event)) :
  read_csv lines ≠ [] →
  ∃ log, db_file (convert_csv_to_db lines db) = Some log.
Proof.
  intros Hrows. unfold convert_csv_to_db. cbv zeta.
  destruct (read_csv lines) as [|r rows]; [done|].
  destruct (build_hierarchy _ _); simpl; eauto.
Qed.
End Extractor_claims.

(** * More of the script *)

(** ** [str.strip] *)

Lemma lstrip_head (s : string) :
  match Py.lstrip s with
  | String c _ => Py.isspace c = false
  | EmptyString => True
  end.
Proof.
  induction s as [|c s IH]; simpl; [done|].
  destruct (Py.isspace c) eqn:E; [done|]. by rewrite E.
Qed.

Lemma rstrip_cons c (s : string) :
  Py.rstrip (String c s) =
  match Py.rstrip s with
  | EmptyString => if Py.isspace c then EmptyString else String c EmptyString
  | t => String c t
  end.
Proof. done. Qed.

Lemma rstrip_idemp (s : string) : Py.rstrip (Py.rstrip s) = Py.rstrip s.
Proof.
  induction s as [|c s IH]; [done|].
  rewrite rstrip_cons.
  destruct (Py.rstrip s) as [|c' t] eqn:E.
  - destruct (Py.isspace c) eqn:Ec; [done|]. rewrite rstrip_cons.
    simpl. by rewrite Ec.
  - rewrite rstrip_cons, IH. done.
Qed.

Lemma rstrip_head (s : string) :
  match s with
  | String c _ => Py.isspace c = false
  | EmptyString => True
  end →
  Py.lstrip (Py.rstrip s) = Py.rstrip s.
Proof.
  destruct s as [|c s]; simpl; [done|]. intros Hc.
  destruct (Py.rstrip s); rewrite ?Hc; simpl; by rewrite Hc.
Qed.

Lemma strip_idemp (s : string) : Py.strip (Py.strip s) = Py.strip s.
Proof.
  unfold Py.strip. rewrite (rstrip_head (Py.lstrip s)) by apply lstrip_head.
  apply rstrip_idemp.
Qed.

(** ** The scan for the Strength section *)

Section Scan.
Context `{Runtime}.

Lemma scan_before pre rest :
  Forall (λ l, strength_marker l = false) pre →
  scan_lines (pre ++ rest) scan0 = scan_lines rest scan0.
Proof.
  induction 1 as [|l pre Hl Hpre IH]; [done|].
  simpl. unfold strength_marker, marker_line in Hl.
  destruct (Py.startswith (Py.strip l) "-----"); simpl in *.
  - by rewrite Hl.
  - done.
Qed.

Lemma scan_marker m rest :
  strength_marker m = true →
  scan_lines (m :: rest) scan0 =
  scan_lines rest {| in_strength_section := true; header_line := None;
                     data_lines := [] |}.
Proof.
  unfold strength_marker, marker_line. intros [H1 H2]%andb_true_iff.
  simpl. by rewrite H1, H2.
Qed.

Lemma scan_header h rest acc :
  marker_line h = false →
  scan_lines (h :: rest)
    {| in_strength_section := true; header_line := None;
       data_lines := acc |} =
  scan_lines rest
    {| in_strength_section := true; header_line := Some (Py.strip h);
       data_lines := acc |}.
Proof. unfold marker_line. intros Hh. simpl. by rewrite Hh. Qed.

Lemma scan_stop m rest st :
  marker_line m = true → strength_marker m = false →
  in_strength_section st = true →
  scan_lines (m :: rest) st = st.
Proof.
  unfold strength_marker, marker_line. intros H1 H2 Hst.
  rewrite H1 in H2. simpl in *. by rewrite H1, H2, Hst.
Qed.

Lemma scan_body body post hh acc :
  Forall (λ l, marker_line l = false) body →
  post = [] ∨
    (∃ m post', post = m :: post' ∧ marker_line m = true ∧
                strength_marker m = false) →
  scan_lines (body ++ post)
    {| in_strength_section := true; header_line := Some hh;
       data_lines := acc |} =
  {| in_strength_section := true; header_line := Some hh;
     data_lines := acc ++ nonblank body |}.
Proof.
  intros Hbody Hpost. revert acc.
  induction Hbody as [|l body Hl Hbody IH]; intros acc.
  - simpl. unfold nonblank. simpl. rewrite app_nil_r.
    destruct Hpost as [->|(m & post' & -> & Hm1 & Hm2)]; [done|].
    by apply scan_stop.
  - unfold marker_line in Hl. simpl. rewrite Hl.
    unfold nonblank. rewrite fmap_cons, filter_cons.
    destruct (Py.truthy (Py.strip l)) eqn:E.
    + rewrite IH. apply truthy_iff in E.
      rewrite decide_True by done. by rewrite <- app_assoc.
    + rewrite IH. apply truthy_false_iff in E.
      by rewrite decide_False by (by intros []).
Qed.

(** X1.  Lines 152-173 and 195-198.  Only the Strength section is read: the
    lines before its marker and
    the lines from the next marker on have no effect, lines are stripped
    and blank lines are skipped. *)
Theorem read_csv_strength_section (pre body post : list string)
    (marker h : string) :
  Forall (λ l, strength_marker l = false) pre →
  strength_marker marker = true →
  marker_line h = false → Py.strip h ≠ "" →
  Forall (λ l, marker_line l = false) body →
  post = [] ∨
    (∃ m post', post = m :: post' ∧ marker_line m = true ∧
                strength_marker m = false) →
  read_csv (pre ++ marker :: h :: body ++ post) =
  read_dicts (Py.strip h +:+ newline +:+ join_lines (nonblank body)).
Proof.
  intros Hpre Hm Hh Hne Hbody Hpost. unfold read_csv. cbv zeta.
  fold scan0. rewrite scan_before by done.
  rewrite scan_marker by done.
  rewrite scan_header by done. rewrite scan_body by done.
  simpl. apply truthy_iff in Hne. by rewrite Hne.
Qed.

Lemma read_whole_file_text lines :
  read_whole_file lines = read_dicts (fallback_text lines).
Proof.
  destruct lines as [|l lines]; [done|].
  unfold read_whole_file, fallback_text, marker_line.
  by destruct (Py.startswith _ _).
Qed.

(** X2.  Lines 157-193.  Without a Strength marker the whole file is parsed,
    less its first line when that is a marker. *)
Theorem read_csv_without_strength (lines : list string) :
  Forall (λ l, strength_marker l = false) lines →
  read_csv lines = read_dicts (fallback_text lines).
Proof.
  intros Hall. unfold read_csv. cbv zeta. fold scan0.
  rewrite <- (app_nil_r lines), scan_before by done.
  simpl. rewrite app_nil_r. apply read_whole_file_text.
Qed.

(** X3.  Lines 162-193.  A Strength section without a header line (the marker
    is the last
    line, or the next line is blank or the marker of another section)
    counts as missing. *)
Theorem read_csv_empty_strength (pre rest : list string) (marker : string) :
  Forall (λ l, strength_marker l = false) pre →
  strength_marker marker = true →
  match rest with
  | [] => True
  | l :: _ => Py.strip l = "" ∨
              (marker_line l = true ∧ strength_marker l = false)
  end →
  read_csv (pre ++ marker :: rest) =
  read_dicts (fallback_text (pre ++ marker :: rest)).
Proof.
  intros Hpre Hm Hrest. rewrite <- read_whole_file_text.
  unfold read_csv. cbv zeta. fold scan0.
  rewrite scan_before by done. rewrite scan_marker by done.
  destruct rest as [|l rest]; [done|].
  destruct Hrest as [Hl|[Hl1 Hl2]].
  - assert (marker_line l = false) as Hml.
    { unfold marker_line. by rewrite Hl. }
    rewrite scan_header by done. rewrite Hl.
    assert (∀ ls acc,
              header_line
                (scan_lines ls
                   {| in_strength_section := true; header_line := Some "";
                      data_lines := acc |}) = Some "") as Hkeep.
    { induction ls as [|x ls IH]; intros acc; [done|].
      simpl. destruct (Py.startswith _ _).
      - destruct (Py.contains _ _); [apply IH|done].
      - destruct (Py.truthy _); apply IH. }
    by rewrite Hkeep.
  - by rewrite scan_stop.
Qed.
End Scan.

(** ** The dict of one record *)

Lemma clean_value_strip (x : option string) :
  clean_value x = from_option Py.strip "" x.
Proof. destruct x as [[|c v]|]; done. Qed.

Lemma clean_value_trimmed (x : option string) :
  Py.strip (clean_value x) = clean_value x.
Proof.
  rewrite clean_value_strip. destruct x as [v|]; simpl; [|done].
  apply strip_idemp.
Qed.

Lemma clean_step_lookup (d : list (string * option string)) (acc : row) k :
  k ∉ Py.strip <$> d.*1 →
  fold_left
    (λ clean_row kv,
       if Py.truthy kv.1
       then <[Py.strip kv.1 := clean_value kv.2]> clean_row
       else clean_row) d acc !! k = acc !! k.
Proof.
  revert acc. induction d as [|[k' v] d IH]; intros acc Hk; [done|].
  csimpl in *. apply not_elem_of_cons in Hk as [Hne Hk].
  rewrite IH by done. destruct (Py.truthy k'); [|done].
  by rewrite lookup_insert_ne.
Qed.

Lemma padded_keys fieldnames record : (padded fieldnames record).*1 = fieldnames.
Proof.
  revert record. induction fieldnames as [|k fn IH]; intros record; [done|].
  destruct record; csimpl; by rewrite IH.
Qed.

Lemma clean_padded_lookup fieldnames record (acc : row) i h :
  NoDup (Py.strip <$> fieldnames) →
  Forall (λ h, Py.strip h ≠ "") fieldnames →
  fieldnames !! i = Some h →
  fold_left
    (λ clean_row kv,
       if Py.truthy kv.1
       then <[Py.strip kv.1 := clean_value kv.2]> clean_row
       else clean_row) (padded fieldnames record) acc !! Py.strip h =
  Some (from_option Py.strip "" (record !! i)).
Proof.
  intros Hnd Hall. revert record acc i.
  induction Hall as [|k fn Hk Hall IH]; intros record acc i Hi; [done|].
  rewrite fmap_cons in Hnd. apply NoDup_cons in Hnd as [Hnin Hnd].
  assert (Py.truthy k = true) as Ht by by apply strip_empty_truthy.
  destruct i as [|i]; simpl in Hi.
  - injection Hi as ->.
    destruct record as [|v record]; cbn [padded fold_left fst snd];
      rewrite Ht;
      rewrite clean_step_lookup by (by rewrite padded_keys);
      rewrite lookup_insert_eq; by rewrite clean_value_strip.
  - destruct record as [|v record]; cbn [padded fold_left fst snd];
      rewrite Ht.
    + rewrite (IH Hnd [] _ i Hi). by rewrite lookup_nil.
    + by rewrite (IH Hnd record _ i Hi).
Qed.

(** X4.  Lines 200-205 on one record, when the trimmed field names are
    distinct and not empty: the row maps each trimmed field name to the
    trimmed field of the same position, to the empty string when the
    record is too short, and has no other key; fields past the last
    field name are dropped. *)
Theorem extracted_row_fields (fieldnames record : list string) :
  NoDup (Py.strip <$> fieldnames) →
  Forall (λ h, Py.strip h ≠ "") fieldnames →
  let clean_row := clean (dict_row fieldnames record) in
  (∀ i h, fieldnames !! i = Some h →
          clean_row !! Py.strip h =
            Some (from_option Py.strip "" (record !! i))) ∧
  (∀ k, k ∉ Py.strip <$> fieldnames → clean_row !! k = None).
Proof.
  intros Hnd Hall clean_row. unfold clean_row, clean.
  rewrite dict_row_padded by (by apply NoDup_fmap_1 in Hnd).
  split.
  - intros i h Hi. by apply clean_padded_lookup.
  - intros k Hk. rewrite clean_step_lookup by (by rewrite padded_keys).
    apply lookup_empty.
Qed.

(** ** Rows are trimmed *)

Lemma clean_trimmed (d : list (string * option string)) k v :
  clean d !! k = Some v → Py.strip k = k ∧ Py.strip v = v.
Proof.
  unfold clean.
  assert (∀ acc : row,
            map_Forall (λ k v, Py.strip k = k ∧ Py.strip v = v) acc →
            map_Forall (λ k v, Py.strip k = k ∧ Py.strip v = v)
              (fold_left
                 (λ clean_row kv,
                    if Py.truthy kv.1
                    then <[Py.strip kv.1 := clean_value kv.2]> clean_row
                    else clean_row) d acc)) as Hfold.
  { induction d as [|[k' v'] d IH]; intros acc Hacc; [done|].
    simpl. apply IH. destruct (Py.truthy k'); [|done].
    apply map_Forall_insert_2; [|done].
    split; [apply strip_idemp|apply clean_value_trimmed]. }
  intros Hkv. eapply (Hfold ∅); [apply map_Forall_empty|done].
Qed.

Section Rows.
Context `{Runtime}.

Lemma elem_of_read_dicts text r :
  r ∈ read_dicts text →
  r ≠ ∅ ∧ ∃ fieldnames record, r = clean (dict_row fieldnames record).
Proof.
  unfold read_dicts. destruct (csv_reader text) as [|fn records].
  { intros []%elem_of_nil. }
  rewrite list_elem_of_In, filter_In, <- list_elem_of_In.
  intros [Hin Hne]. apply negb_true_iff, bool_decide_eq_false in Hne.
  split; [done|].
  apply list_elem_of_fmap in Hin as (record & -> & _). eauto.
Qed.

Lemma read_csv_read_dicts lines : ∃ text, read_csv lines = read_dicts text.
Proof.
  unfold read_csv. cbv zeta.
  destruct (header_line _) as [h|].
  - destruct (Py.truthy h); [eauto|].
    rewrite read_whole_file_text. eauto.
  - rewrite read_whole_file_text. eauto.
Qed.

(** X5.  Lines 186-192 and 201-207.  Every extracted row has a key, and its
    keys and values carry no surrounding whitespace. *)
Theorem extracted_rows_trimmed (lines : list string) (r : row) :
  r ∈ read_csv lines →
  r ≠ ∅ ∧ ∀ k v, r !! k = Some v → Py.strip k = k ∧ Py.strip v = v.
Proof.
  destruct (read_csv_read_dicts lines) as [text ->].
  intros (Hne & fn & record & ->)%elem_of_read_dicts.
  split; [done|]. intros k v. apply clean_trimmed.
Qed.

(** ** No record is dropped for blank fields *)

Lemma dict_set_elem {V} k (v : V) d k' :
  k' ∈ (dict_set k v d).*1 ↔ k' = k ∨ k' ∈ d.*1.
Proof.
  rewrite dict_set_keys. case_decide.
  - naive_solver.
  - rewrite elem_of_app, list_elem_of_singleton. naive_solver.
Qed.

Lemma dict_row_keys fieldnames record k :
  k ∈ fieldnames → k ∈ (dict_row fieldnames record).*1.
Proof.
  unfold dict_row. cbv zeta.
  assert (∀ ks (d : list (string * option string)),
            k ∈ d.*1 ∨ k ∈ ks →
            k ∈ (fold_left (λ d k, dict_set k None d) ks d).*1) as Hrest.
  { induction ks as [|k0 ks IH]; intros d [Hk|Hk]; simpl.
    - done.
    - by apply elem_of_nil in Hk.
    - apply IH. left. apply dict_set_elem. by right.
    - apply elem_of_cons in Hk as [->|Hk].
      + apply IH. left. apply dict_set_elem. by left.
      + apply IH. by right. }
  assert (∀ kvs (d : list (string * option string)),
            k ∈ d.*1 ∨ k ∈ kvs.*1 →
            k ∈ (fold_left (λ d (kv : string * string),
                              dict_set kv.1 (Some kv.2) d) kvs d).*1)
    as Hzip.
  { induction kvs as [|[k0 v0] kvs IH]; intros d [Hk|Hk]; csimpl in *.
    - done.
    - by apply elem_of_nil in Hk.
    - apply IH. left. apply dict_set_elem. by right.
    - apply elem_of_cons in Hk as [->|Hk].
      + apply IH. left. apply dict_set_elem. by left.
      + apply IH. by right. }
  intros Hk.
  rewrite <- (take_drop (length record) fieldnames) in Hk.
  apply elem_of_app in Hk as [Hk|Hk].
  - apply Hrest. left. apply Hzip. right. clear -Hk.
    revert record Hk.
    induction fieldnames as [|k0 fn IH]; intros record Hk.
    { rewrite take_nil in Hk. by apply elem_of_nil in Hk. }
    destruct record as [|v record]; [by apply elem_of_nil in Hk|].
    csimpl in *. apply elem_of_cons in Hk as [->|Hk].
    + apply list_elem_of_here.
    + apply list_elem_of_further. by apply IH.
  - apply Hrest. by right.
Qed.

Lemma clean_has_key (d : list (string * option string)) k :
  k ∈ d.*1 → Py.truthy k = true → is_Some (clean d !! Py.strip k).
Proof.
  intros Hk Ht. unfold clean.
  assert (∀ acc : row,
            is_Some (acc !! Py.strip k) ∨ k ∈ d.*1 →
            is_Some
              (fold_left
                 (λ clean_row kv,
                    if Py.truthy kv.1
                    then <[Py.strip kv.1 := clean_value kv.2]> clean_row
                    else clean_row) d acc !! Py.strip k)) as Hfold.
  { clear Hk. induction d as [|[k0 v0] d IH]; intros acc Hacc.
    { destruct Hacc as [?|[]%elem_of_nil]. done. }
    csimpl in *. apply IH. destruct Hacc as [Hacc|Hin].
    - left. destruct (Py.truthy k0); [|done].
      apply lookup_insert_is_Some.
      destruct (decide (Py.strip k0 = Py.strip k)); [by left|by right].
    - apply elem_of_cons in Hin as [->|Hin]; [|by right].
      left. rewrite Ht, lookup_insert_eq. by eexists. }
  apply Hfold. by right.
Qed.

(** X6.  Lines 200-207.  The test of line 206 drops no record when the header
    has a field
    name that is not empty: a record is left out only when it is an
    empty CSV record, so a record of blank fields is still extracted. *)
Theorem read_dicts_keeps_blank_records (text : string)
    (fieldnames : list string) (records : list (list string)) :
  csv_reader text = fieldnames :: records →
  (∃ h, h ∈ fieldnames ∧ h ≠ "") →
  read_dicts text =
    (λ record, clean (dict_row fieldnames record)) <$>
      List.filter (λ record, negb (bool_decide (record = []))) records.
Proof.
  intros Htext (h & Hh & Hne). unfold read_dicts. rewrite Htext.
  generalize (List.filter (λ record : list string,
                             negb (bool_decide (record = []))) records).
  intros l. induction l as [|record l IH]; [done|].
  rewrite fmap_cons. cbn [List.filter].
  assert (clean (dict_row fieldnames record) ≠ ∅) as Hrow.
  { intros Hemp.
    destruct (clean_has_key (dict_row fieldnames record) h) as [v Hv].
    - by apply dict_row_keys.
    - by apply truthy_iff.
    - rewrite Hemp, lookup_empty in Hv. discriminate. }
  rewrite bool_decide_eq_false_2 by done. simpl. by rewrite IH.
Qed.
End Rows.

(** ** Keys of a table *)

Lemma omap_key_NoDup {A B K} (f : A → option B) (key : B → K) (l : list A) :
  (∀ i j a b x y, l !! i = Some a → l !! j = Some b →
                  f a = Some x → f b = Some y → key x = key y → i = j) →
  NoDup (key <$> omap f l).
Proof.
  induction l as [|a l IH] using rev_ind; intros Hinj; [constructor|].
  rewrite omap_snoc, fmap_app. apply NoDup_app. split_and!.
  - apply IH. intros i j a' b' x y Hi Hj. apply Hinj.
    + by apply lookup_app_l_Some.
    + by apply lookup_app_l_Some.
  - intros k (y & -> & Hy)%list_elem_of_fmap Hk.
    apply list_elem_of_omap in Hy as (b & Hb & Hfb).
    apply list_elem_of_lookup in Hb as [j Hj].
    destruct (f a) as [x|] eqn:Hfa; simpl in Hk; [|by apply elem_of_nil in Hk].
    apply list_elem_of_singleton in Hk.
    assert (j = length l) as ->.
    { eapply (Hinj j (length l) b a y x); try done.
      - by apply lookup_app_l_Some.
      - by rewrite lookup_app_r, Nat.sub_diag by lia. }
    apply lookup_lt_Some in Hj. lia.
  - destruct (f a); simpl; [apply NoDup_singleton|constructor].
Qed.

Section Builder_more.
Context `{Runtime}.
Implicit Types (rows : list row) (s : state).

(** ** One workout_exercises row per pair *)

Lemma link_pair_index g (l : list event) i j d1 n1 x1 d2 n2 x2 :
  log_ok g l →
  l !! i = Some (InsWorkoutExercise d1 n1 x1) →
  l !! j = Some (InsWorkoutExercise d2 n2 x2) →
  we_workout_id x1 = we_workout_id x2 →
  we_exercise_id x1 = we_exercise_id x2 →
  i = j.
Proof.
  intros Hl Hi Hj Hw Hx.
  assert (d1 = d2 ∧ n1 = n2) as [-> ->].
  { destruct (Hl _ _ Hi) as (_ & _ & _ & (w1 & Hw1 & Hid1) &
                             (e1 & y1 & Hy1 & Hn1 & Hyid1) & _).
    destruct (Hl _ _ Hj) as (_ & _ & _ & (w2 & Hw2 & Hid2) &
                             (e2 & y2 & Hy2 & Hn2 & Hyid2) & _).
    apply elem_of_take_elem in Hw1, Hw2, Hy1, Hy2.
    destruct (workout_id_inj g l d1 w1 d2 w2) as [-> _]; [done..|congruence|].
    destruct (exercise_id_inj g l e1 y1 e2 y2) as [_ ->];
      [done..|congruence|].
    split; [done|congruence]. }
  destruct (lt_eq_lt_dec i j) as [[Hlt| ->]|Hlt]; [|done|].
  - destruct (Hl _ _ Hj) as (_ & _ & _ & _ & _ & Hfresh & _).
    destruct (Hfresh (InsWorkoutExercise d2 n2 x1)); [|done..].
    apply elem_of_take. eauto.
  - destruct (Hl _ _ Hi) as (_ & _ & _ & _ & _ & Hfresh & _).
    destruct (Hfresh (InsWorkoutExercise d2 n2 x2)); [|done..].
    apply elem_of_take. eauto.
Qed.

Lemma link_pairs_NoDup g (l : list event) :
  log_ok g l →
  NoDup ((λ x, (we_workout_id x, we_exercise_id x)) <$>
           workout_exercises_table l).
Proof.
  intros Hl.
  apply omap_key_NoDup. intros i j a b x y Hi Hj Ha Hb [= Hw Hx].
  destruct a as [| |d1 n1 x1|]; try done.
  destruct b as [| |d2 n2 x2|]; try done.
  simpl in Ha, Hb. simplify_eq. by eapply link_pair_index.
Qed.

(** X7.  Lines 290-291 and 307.  No two rows of workout_exercises have the
    same workout_id and exercise_id, in a completed run and in one that
    was aborted. *)
Theorem link_pairs_unique rows :
  NoDup ((λ x, (we_workout_id x, we_exercise_id x)) <$>
           workout_exercises_table
             (conn (final_state (build_hierarchy rows initial_state)))).
Proof. destruct (run_inv rows) as [Hl _]. by eapply link_pairs_NoDup. Qed.

(** ** The exit status *)

(** X8.  Lines 218-220, 287, 293, 310, 322-323 and 326-333.  The
    conversion ends with status 0 exactly when a record was extracted and,
    in the records that reach the sets loop, the numeric fields parse and
    the reps values fit the signed 64-bit range of an SQLite INTEGER; it
    ends with status 1 otherwise.  The builder stops early only with the
    ValueError of [float] or [int] on a record that reaches the sets loop,
    or with the OverflowError of the sets INSERT on such a record whose
    reps value is out of range; never with the KeyError of a dict lookup
    or the IndexError of [exercise_rows[0]]. *)
Theorem exit_status (lines : list string) (db : option (list event)) :
  let rows := read_csv lines in
  (exit_code (convert_csv_to_db lines db) = 0%Z ↔
   rows ≠ [] ∧
   forallb insertable (filter (λ r, kept r = true) rows) = true) ∧
  (exit_code (convert_csv_to_db lines db) ≠ 0%Z →
   exit_code (convert_csv_to_db lines db) = 1%Z) ∧
  (∀ e s, build_hierarchy rows initial_state = Raised e s →
     ∃ r, r ∈ rows ∧ kept r = true ∧
          (e = ValueError ∧ numeric_ok r = false ∨
           e = OverflowError ∧ numeric_ok r = true ∧ reps_fits r = false)).
Proof.
  intros rows.
  assert (∀ e s, build_hierarchy rows initial_state = Raised e s →
                 forallb insertable (filter (λ r, kept r = true) rows) = false)
    as Hraised.
  { intros e s Hrun.
    destruct (forallb insertable (filter (λ r, kept r = true) rows)) eqn:E;
      [|done].
    destruct (run_numeric_ok rows E) as [s' Hs']. congruence. }
  split_and!.
  - unfold convert_csv_to_db. cbv zeta. fold rows.
    destruct rows as [|r rows'] eqn:Erows; [simpl; naive_solver|].
    rewrite <- Erows in *.
    destruct (build_hierarchy rows initial_state) as [[] s|e s] eqn:Hrun.
    + simpl. split; [|done]. intros _. split; [by rewrite Erows|].
      destruct (forallb insertable (filter (λ r, kept r = true) rows)) eqn:E;
        [done|].
      destruct (run_numeric_bad rows E) as (e' & s' & Hs' & _). congruence.
    + simpl. pose proof (Hraised e s eq_refl) as Hbad.
      split; [done|]. intros [_ Hok]. congruence.
  - unfold convert_csv_to_db. cbv zeta.
    destruct (read_csv lines); [done|].
    by destruct (build_hierarchy _ _).
  - intros e s Hrun.
    destruct (run_raised _ _ _ Hrun) as (r & Hr & Hk & Herr).
    exists r. split; [done|]. split; [done|].
    by apply row_error_kind.
Qed.

(** ** Records without a date *)

Lemma group_by_date_dated rows :
  group_by_date (filter (λ r, date_of r ≠ "") rows) = group_by_date rows.
Proof.
  unfold group_by_date, group_rows. generalize (@nil (string * list row)).
  induction rows as [|r rows IH]; intros acc; [done|].
  rewrite filter_cons. simpl.
  destruct (decide (date_of r ≠ "")) as [Hne|Heq].
  - simpl. by rewrite IH.
  - rewrite IH. apply dec_stable in Heq. by rewrite Heq.
Qed.

(** X9.  Lines 238-242.  A record without a date has no effect on the
    hierarchy builder. *)
Theorem dateless_records_ignored rows s :
  build_hierarchy rows s =
  build_hierarchy (filter (λ r, date_of r ≠ "") rows) s.
Proof. unfold build_hierarchy. cbv zeta. by rewrite group_by_date_dated. Qed.

(** X10.  Lines 218-220 and 238-250.  When no extracted record has a date the
    conversion still ends with status 0, and the new database has no data
    row. *)
Theorem undated_input_succeeds (lines : list string)
    (db : option (list event)) :
  read_csv lines ≠ [] →
  Forall (λ r, date_of r = "") (read_csv lines) →
  convert_csv_to_db lines db = {| exit_code := 0; db_file := Some [] |}.
Proof.
  intros Hne Hall.
  assert (build_hierarchy (read_csv lines) initial_state =
          Done tt initial_state) as Hrun.
  { unfold build_hierarchy. cbv zeta. rewrite <- group_by_date_dated.
    replace (filter (λ r, date_of r ≠ "") (read_csv lines)) with (@nil row);
      [done|].
    symmetry. clear Hne. induction Hall as [|r l Hr Hl IH]; [done|].
    rewrite filter_cons, decide_False by (intros Hc; by apply Hc).
    exact IH. }
  by rewrite (convert_done _ _ _ Hne Hrun).
Qed.
End Builder_more.

(** ** The columns of the inserted rows *)

Section Detail_pass.
Context `{Runtime}.
Implicit Types (l pre : list event) (e : event) (s : state).

Lemma log_detail_nil g : log_detail g [].
Proof. intros i e Hi. by rewrite lookup_nil in Hi. Qed.

Lemma log_detail_snoc g l e :
  log_detail g l → event_detail g l e → log_detail g (l ++ [e]).
Proof.
  intros Hl He i e' Hi.
  apply lookup_snoc_Some in Hi as [[Hlt Hi]|[-> ->]].
  - rewrite take_app_le by lia. by apply Hl.
  - by rewrite take_app_length.
Qed.

Lemma log_detail_snoc_inv g l e :
  log_detail g (l ++ [e]) → log_detail g l ∧ event_detail g l e.
Proof.
  intros Hl. split.
  - intros i e' Hi. pose proof (lookup_lt_Some _ _ _ Hi) as Hlt.
    specialize (Hl i e'). rewrite take_app_le in Hl by lia.
    apply Hl. by apply lookup_app_l_Some.
  - specialize (Hl (length l) e). rewrite take_app_length in Hl.
    apply Hl. by rewrite lookup_app_r, Nat.sub_diag by lia.
Qed.

Lemma group_sets_app d n l1 l2 :
  group_sets d n (l1 ++ l2) = group_sets d n l1 ++ group_sets d n l2.
Proof. apply omap_app. Qed.

Lemma group_sets_nil d n l :
  (∀ r st, InsSet d n r st ∉ l) → group_sets d n l = [].
Proof.
  intros Hl. apply omap_nil_iff. intros e He.
  destruct e as [| | |d' n' r st]; try done.
  destruct (decide (d' = d ∧ n' = n)) as [[-> ->]|]; [|done].
  by destruct (Hl r st).
Qed.

Lemma detail_same_core g s s' : same_core s s' → detail g s → detail g s'.
Proof.
  intros (Hc & _ & _ & Hx & _) [Hlog Hrec]. split.
  - by rewrite Hc.
  - intros d n x. rewrite Hc, Hx. apply Hrec.
Qed.

Lemma detail_insert g s e :
  detail g s → event_detail g (conn s) e →
  match e with
  | InsWorkoutExercise _ _ x =>
      workout_exercises s !! (we_workout_id x, we_exercise_id x) = None
  | _ => True
  end →
  detail g (after_insert s e).
Proof.
  intros [Hlog Hrec] He Hkey. split.
  { simpl. by apply log_detail_snoc. }
  intros d n x. simpl. intros [Hin| <-]%elem_of_snoc.
  - specialize (Hrec d n x Hin).
    destruct e as [| |d' n' x'|]; try done.
    rewrite lookup_insert_ne; [done|]. intros Heq. rewrite Heq in Hkey.
    congruence.
  - by rewrite lookup_insert_eq.
Qed.

Lemma detail_after_uid g s : detail g s → detail g (after_uid s).
Proof. by intros [Hlog Hrec]. Qed.

(** The sets loop numbers the rows of the group from [set_index] on. *)
Lemma create_sets_detail g d n w x we i rs s :
  detail g s →
  i = length (group_sets d n (conn s)) →
  drop i (exercise_rows_of g d n) = rs →
  detail g (final_state (create_sets d n w x we i rs s)) ∧
  ∃ ext, conn (final_state (create_sets d n w x we i rs s)) = conn s ++ ext ∧
         Forall (λ e, ∃ r st, e = InsSet d n r st) ext.
Proof.
  revert s i. induction rs as [|r rs IH]; intros s i Hlog Hi Hdrop.
  { simpl. split; [done|]. exists []. by rewrite app_nil_r. }
  destruct (parse_datetime_run (Py.get r "Date" d) (Py.get r "Time" "00:00") s)
    as (s1 & Hrun & Hcore).
  pose proof (detail_same_core _ _ _ Hcore Hlog) as Hlog1.
  destruct Hcore as (Hc & _).
  cbn [create_sets]. cbv zeta.
  rewrite (bind_done _ _ _ _ _ Hrun).
  pose proof (parse_weight_run r s1) as Hw. cbv zeta in Hw.
  pose proof (parse_reps_run r s1) as Hr. cbv zeta in Hr.
  destruct (weight_ok r); cycle 1.
  { rewrite (bind_raised _ _ _ _ _ Hw). simpl. rewrite Hc.
    split; [done|]. exists []. by rewrite app_nil_r. }
  rewrite (bind_done _ _ _ _ _ Hw).
  destruct (reps_ok r); cycle 1.
  { rewrite (bind_raised _ _ _ _ _ Hr). simpl. rewrite Hc.
    split; [done|]. exists []. by rewrite app_nil_r. }
  rewrite (bind_done _ _ _ _ _ Hr).
  destruct (reps_fits r) eqn:Ef; cycle 1.
  { rewrite set_step_overflow by exact Ef. simpl. rewrite Hc.
    split; [by apply detail_after_uid|]. exists []. by rewrite app_nil_r. }
  rewrite set_step by exact Ef.
  match goal with |- context [after_insert s1 ?e] => set (ev := e) end.
  assert (exercise_rows_of g d n !! i = Some r) as Hlook.
  { rewrite <- (Nat.add_0_r i), <- lookup_drop, Hdrop. done. }
  destruct (IH (after_insert s1 ev) (S i)) as [Hlog' (ext & Hext & Hshape)].
  - apply detail_insert; [done| |done].
    simpl. rewrite Hc. by rewrite <- Hi.
  - simpl. rewrite Hc, group_sets_app, length_app. simpl.
    rewrite decide_True by done. simpl. lia.
  - rewrite (drop_S _ _ _ Hlook) in Hdrop. by injection Hdrop.
  - split; [done|]. exists (ev :: ext). rewrite Hext. simpl.
    rewrite Hc, <- app_assoc. split; [done|]. constructor; [|done].
    by eexists _, _.
Qed.

Lemma ensure_exercise_detail g d n t s :
  detail g s →
  (∃ w0, InsWorkout d w0 ∈ conn s ∧ wo_started_at w0 = t) →
  detail g (final_state (ensure_exercise d n t s)) ∧
  ∃ ext, conn (final_state (ensure_exercise d n t s)) = conn s ++ ext ∧
         Forall (λ e, ∃ y, e = InsExercise d y) ext.
Proof.
  intros Hlog (w0 & Hw0 & Ht). unfold ensure_exercise.
  rewrite (bind_done get_state _ s s s eq_refl).
  destruct (exercises s !! n) as [id|] eqn:Eex.
  - rewrite (bind_done (mret tt) _ s tt s eq_refl).
    rewrite (bind_done get_state _ s s s eq_refl). rewrite Eex. simpl.
    split; [done|]. exists []. by rewrite app_nil_r.
  - rewrite (bind_done _ _ _ _ _ (new_exercise_run d n t s)).
    rewrite (bind_done get_state _ _ _ _ eq_refl).
    simpl. rewrite lookup_insert_eq.
    change (final_state (Done ?a ?s0)) with s0. split.
    + apply detail_insert; [done| |done]. simpl. exists w0. by split.
    + eexists [_]. split; [done|]. constructor; [|done]. by eexists.
Qed.

Lemma ensure_workout_exercise_detail g d n w x order rs s :
  detail g s →
  exercise_rows_of g d n = rs →
  detail g (final_state (ensure_workout_exercise d n w x order rs s)) ∧
  ∃ ext,
    conn (final_state (ensure_workout_exercise d n w x order rs s)) =
      conn s ++ ext ∧
    Forall (λ e, ∃ y, e = InsWorkoutExercise d n y) ext.
Proof.
  intros Hlog Hrs. unfold ensure_workout_exercise. cbv zeta.
  rewrite (bind_done get_state _ s s s eq_refl).
  destruct (workout_exercises s !! (w, x)) as [id|] eqn:Ekey.
  { rewrite (bind_done (mret order) _ s order s eq_refl).
    rewrite (bind_done get_state _ s s s eq_refl). rewrite Ekey. simpl.
    split; [done|]. exists []. by rewrite app_nil_r. }
  destruct rs as [|first rest].
  { match goal with |- context [mbind ?f ?m s] =>
      assert (m s = Raised IndexError s) as Hinner by reflexivity
    end.
    rewrite (bind_raised _ _ _ _ _ Hinner). simpl.
    split; [done|]. exists []. by rewrite app_nil_r. }
  destruct (parse_datetime_run (Py.get first "Date" d)
              (Py.get first "Time" "00:00") s) as (s1 & Hrun & Hcore).
  pose proof (detail_same_core _ _ _ Hcore Hlog) as Hlog1.
  destruct Hcore as (Hc & _ & _ & Hcx & _).
  set (t := parse_datetime_at _ _ _) in Hrun.
  set (ev := InsWorkoutExercise d n
               {| we_id := S (length (workout_exercises_table (conn s1)));
                  we_uid := uid_calls s1; we_workout_id := w;
                  we_exercise_id := x; we_order_index := order;
                  we_note := or_none (Py.strip (Py.get first "Notes" ""));
                  we_performed_at := t; we_completed_at := t |}).
  match goal with |- context [mbind ?f ?m s] =>
    assert (m s = Done (S order) (after_insert s1 ev)) as Hinner
  end.
  { rewrite (bind_done (first_row (first :: rest)) _ s first s eq_refl).
    rewrite (bind_done _ _ _ _ _ Hrun).
    by rewrite link_step. }
  rewrite (bind_done _ _ _ _ _ Hinner).
  rewrite (bind_done get_state _ _ _ _ eq_refl).
  simpl. rewrite lookup_insert_eq.
  change (final_state (Done ?a ?s0)) with s0. split.
  - apply detail_insert; [done| |simpl; by rewrite Hcx].
    simpl. exists first, (now_calls s). rewrite Hrs. by split_and!.
  - eexists [_]. simpl. rewrite Hc. split; [done|].
    constructor; [|done]. by eexists.
Qed.

Lemma process_exercises_detail g d w t order groups s :
  detail g s →
  (∃ w0, InsWorkout d w0 ∈ conn s ∧ wo_started_at w0 = t) →
  NoDup groups.*1 →
  Forall (λ p, exercise_rows_of g d p.1 = p.2) groups →
  (∀ n, n ∈ groups.*1 → group_sets d n (conn s) = []) →
  detail g (final_state (process_exercises d w t order groups s)) ∧
  ∃ ext,
    conn (final_state (process_exercises d w t order groups s)) =
      conn s ++ ext ∧
    Forall (λ e, event_date e = d) ext.
Proof.
  intros Hlog Hw Hnd Hgroups. revert s order Hlog Hw Hnd.
  induction Hgroups as [|[n rs] groups Hrs Hgroups IH];
    intros s order Hlog Hw Hnd Hnone.
  { simpl. split; [done|]. exists []. by rewrite app_nil_r. }
  simpl in Hrs. rewrite fmap_cons in Hnd, Hnone.
  apply NoDup_cons in Hnd as [Hnin Hnd].
  cbn [process_exercises]. cbv zeta.
  destruct (ensure_exercise_detail g d n t s Hlog Hw)
    as [Hlog1 (ext1 & Hc1 & Hsh1)].
  destruct (ensure_exercise d n t s) as [x s1|exn s1] eqn:E1;
    simpl in Hlog1, Hc1; cycle 1.
  { rewrite (bind_raised _ _ _ _ _ E1). simpl. split; [done|].
    exists ext1. split; [done|].
    eapply Forall_impl; [exact Hsh1|]. by intros ? [? ->]. }
  rewrite (bind_done _ _ _ _ _ E1).
  destruct (ensure_workout_exercise_detail g d n w x order rs s1 Hlog1 Hrs)
    as [Hlog2 (ext2 & Hc2 & Hsh2)].
  destruct (ensure_workout_exercise d n w x order rs s1)
    as [[we order'] s2|exn s2] eqn:E2; simpl in Hlog2, Hc2; cycle 1.
  { rewrite (bind_raised _ _ _ _ _ E2). simpl. split; [done|].
    exists (ext1 ++ ext2). rewrite Hc2, Hc1, <- app_assoc. split; [done|].
    apply Forall_app. split.
    - eapply Forall_impl; [exact Hsh1|]. by intros ? [? ->].
    - eapply Forall_impl; [exact Hsh2|]. by intros ? [? ->]. }
  rewrite (bind_done _ _ _ _ _ E2). cbn beta iota.
  assert (group_sets d n (conn s2) = []) as Hzero.
  { rewrite Hc2, Hc1, !group_sets_app.
    rewrite (Hnone n) by apply list_elem_of_here.
    rewrite (group_sets_nil d n ext1), (group_sets_nil d n ext2); [done| |].
    - intros r st Hin. rewrite Forall_forall in Hsh2.
      by destruct (Hsh2 _ Hin).
    - intros r st Hin. rewrite Forall_forall in Hsh1.
      by destruct (Hsh1 _ Hin). }
  destruct (create_sets_detail g d n w x we 0 rs s2)
    as [Hlog3 (ext3 & Hc3 & Hsh3)]; [done|by rewrite Hzero|by rewrite drop_0|].
  assert (Forall (λ e, event_date e = d) (ext1 ++ ext2 ++ ext3)) as Hdates.
  { rewrite !Forall_app. split_and!.
    - eapply Forall_impl; [exact Hsh1|]. by intros ? [? ->].
    - eapply Forall_impl; [exact Hsh2|]. by intros ? [? ->].
    - eapply Forall_impl; [exact Hsh3|]. by intros ? (? & ? & ->). }
  destruct (create_sets d n w x we 0 rs s2) as [[] s3|exn s3] eqn:E3;
    simpl in Hlog3, Hc3; cycle 1.
  { rewrite (bind_raised _ _ _ _ _ E3). simpl. split; [done|].
    exists (ext1 ++ ext2 ++ ext3).
    rewrite Hc3, Hc2, Hc1, <- !app_assoc. by split. }
  rewrite (bind_done _ _ _ _ _ E3).
  destruct (IH s3 order') as [Hlog4 (ext4 & Hc4 & Hsh4)]; try done.
  { destruct Hw as (w0 & Hw0 & ?). exists w0. split; [|done].
    rewrite Hc3, Hc2, Hc1. rewrite !elem_of_app. by do 3 left. }
  { intros n' Hn'. rewrite Hc3, Hc2, Hc1, !group_sets_app.
    rewrite (Hnone n') by (by apply list_elem_of_further).
    rewrite (group_sets_nil d n' ext1), (group_sets_nil d n' ext2),
      (group_sets_nil d n' ext3); [done| | |].
    - intros r st Hin. rewrite Forall_forall in Hsh3.
      destruct (Hsh3 _ Hin) as (r' & st' & [= <- _ _]). done.
    - intros r st Hin. rewrite Forall_forall in Hsh2.
      by destruct (Hsh2 _ Hin).
    - intros r st Hin. rewrite Forall_forall in Hsh1.
      by destruct (Hsh1 _ Hin). }
  split; [done|]. exists ((ext1 ++ ext2 ++ ext3) ++ ext4).
  rewrite Hc4, Hc3, Hc2, Hc1, <- !app_assoc. split; [done|].
  rewrite !Forall_app in Hdates. rewrite !Forall_app. tauto.
Qed.

Lemma process_day_detail g d s :
  detail g s →
  (∀ e', e' ∈ conn s → event_date e' ≠ d) →
  detail g (final_state (process_day g d s)) ∧
  ∃ ext, conn (final_state (process_day g d s)) = conn s ++ ext ∧
         Forall (λ e, event_date e = d) ext.
Proof.
  intros Hlog Hfresh.
  destruct (min_of (times_of (group_get g d))) as [t1|] eqn:Emin; cycle 1.
  { assert (process_day g d s = Raised ValueError s) as ->.
    { unfold process_day, py_min. cbv zeta. by rewrite Emin. }
    simpl. split; [done|]. exists []. by rewrite app_nil_r. }
  destruct (max_of (times_of (group_get g d))) as [t2|] eqn:Emax; cycle 1.
  { assert (process_day g d s = Raised ValueError s) as ->.
    { unfold process_day, py_min, py_max. cbv zeta. by rewrite Emin, Emax. }
    simpl. split; [done|]. exists []. by rewrite app_nil_r. }
  destruct (parse_datetime_run d t1 s) as (s1 & Hrun1 & Hcore1).
  destruct (parse_datetime_run d t2 s1) as (s2 & Hrun2 & Hcore2).
  assert (detail g s2) as Hlog2 by eauto using detail_same_core.
  assert (conn s2 = conn s) as Hc.
  { destruct Hcore1 as (? & _), Hcore2 as (? & _). congruence. }
  set (ev := InsWorkout d
               {| wo_id := S (length (workouts_table (conn s2)));
                  wo_uid := uid_calls s2;
                  wo_started_at :=
                    parse_datetime_at (now_ms (now_calls s)) d t1;
                  wo_completed_at :=
                    parse_datetime_at (now_ms (now_calls s1)) d t2 |}).
  assert (process_day g d s =
          process_exercises d (S (length (workouts_table (conn s2))))
            (parse_datetime_at (now_ms (now_calls s)) d t1) 0
            (group_by_exercise (group_get g d)) (after_insert s2 ev)) as ->.
  { unfold process_day. cbv zeta. unfold py_min, py_max.
    rewrite Emin, Emax.
    rewrite (bind_done (mret t1) _ s t1 s eq_refl).
    rewrite (bind_done (mret t2) _ s t2 s eq_refl).
    rewrite (bind_done _ _ _ _ _ Hrun1), (bind_done _ _ _ _ _ Hrun2).
    reflexivity. }
  destruct (process_exercises_detail g d
              (S (length (workouts_table (conn s2))))
              (parse_datetime_at (now_ms (now_calls s)) d t1) 0
              (group_by_exercise (group_get g d)) (after_insert s2 ev))
    as [Hlog' (ext & Hc' & Hsh)].
  - by apply detail_insert.
  - eexists. split; [simpl; apply elem_of_app; right; apply list_elem_of_here|].
    done.
  - apply group_rows_wf.
  - destruct (group_rows_wf exercise_of (group_get g d)) as [Hnd _].
    apply Forall_forall. intros [n rs] Hp. simpl.
    by apply group_get_elem.
  - intros n _. simpl. rewrite Hc. apply group_sets_nil.
    intros r st [Hin|Hin]%elem_of_snoc; [|done].
    by destruct (Hfresh _ Hin).
  - split; [done|]. exists (ev :: ext). rewrite Hc'. simpl.
    rewrite Hc, <- app_assoc. split; [done|]. by constructor.
Qed.

Lemma process_days_detail g dates s :
  detail g s → NoDup dates →
  (∀ e' d, e' ∈ conn s → d ∈ dates → event_date e' ≠ d) →
  detail g (final_state (process_days g dates s)).
Proof.
  revert s. induction dates as [|d dates IH]; intros s Hlog Hnd Hfresh.
  { done. }
  apply NoDup_cons in Hnd as [Hnin Hnd].
  cbn [process_days].
  destruct (process_day_detail g d s) as [Hlog1 (ext1 & Hc1 & Hsh1)];
    [done| |].
  { intros e' He'. apply Hfresh; [done|]. apply list_elem_of_here. }
  destruct (process_day g d s) as [[] s1|exn s1] eqn:E1;
    simpl in Hlog1, Hc1; cycle 1.
  { by rewrite (bind_raised _ _ _ _ _ E1). }
  rewrite (bind_done _ _ _ _ _ E1). apply IH; [done..|].
  intros e' d' He' Hd'. rewrite Hc1 in He'.
  apply elem_of_app in He' as [He'|He'].
  - apply Hfresh; [done|]. by apply list_elem_of_further.
  - rewrite Forall_forall in Hsh1. rewrite (Hsh1 _ He'). by intros ->.
Qed.

Lemma run_detail_state rows :
  detail (group_by_date rows)
    (final_state (build_hierarchy rows initial_state)).
Proof.
  unfold build_hierarchy. cbv zeta. apply process_days_detail.
  - split; [apply log_detail_nil|]. intros d n x []%elem_of_nil.
  - apply sorted_reverse_NoDup, group_by_date_ok.
  - intros e' d []%elem_of_nil.
Qed.

Lemma run_detail rows :
  log_detail (group_by_date rows)
    (conn (final_state (build_hierarchy rows initial_state))).
Proof. apply run_detail_state. Qed.
End Detail_pass.

Lemma omap_ext_elem {A B} (f g : A → option B) (l : list A) :
  (∀ x, x ∈ l → f x = g x) → omap f l = omap g l.
Proof.
  induction l as [|x l IH]; intros Hfg; [done|].
  csimpl. rewrite (Hfg x) by apply list_elem_of_here.
  rewrite IH; [done|]. intros y Hy. apply Hfg. by apply list_elem_of_further.
Qed.

Lemma group_get_truthy key (rows : list row) k :
  group_get (group_rows key rows) k ≠ [] →
  Py.truthy k = true ∧ k ∈ (group_rows key rows).*1.
Proof.
  intros Hne.
  destruct (decide (k ∈ (group_rows key rows).*1)) as [Hin|Hnin]; cycle 1.
  { by rewrite group_get_notin in Hne. }
  split; [|done].
  destruct (group_rows_wf key rows) as [_ Hwf].
  apply group_elem_get in Hin. rewrite Forall_forall in Hwf.
  by destruct (Hwf _ Hin) as (_ & ? & _).
Qed.

Section Columns.
Context `{Runtime}.
Implicit Types (rows : list row) (l : list event) (s : state).

(** The records of one exercise on one date. *)
Lemma exercise_rows_filter rows d n :
  exercise_rows_of (group_by_date rows) d n ≠ [] →
  d ≠ "" ∧ n ≠ "" ∧
  d ∈ (group_by_date rows).*1 ∧
  n ∈ (group_by_exercise (group_get (group_by_date rows) d)).*1 ∧
  exercise_rows_of (group_by_date rows) d n =
    filter (λ r, exercise_of r = n) (filter (λ r, date_of r = d) rows).
Proof.
  intros Hne. unfold exercise_rows_of in *.
  destruct (group_get_truthy _ _ _ Hne) as [Hn Hnk].
  assert (group_get (group_by_date rows) d ≠ []) as Hd.
  { intros Hnil. rewrite Hnil in Hne. done. }
  destruct (group_get_truthy _ _ _ Hd) as [Hdt Hdk].
  split_and!; [by apply truthy_iff..|done|done|].
  unfold group_by_exercise, group_by_date.
  by rewrite !group_rows_get.
Qed.

Lemma link_name_index g l i j d n x y :
  log_ok g l →
  l !! i = Some (InsWorkoutExercise d n x) →
  l !! j = Some (InsWorkoutExercise d n y) → i = j.
Proof.
  intros Hl Hi Hj.
  destruct (lt_eq_lt_dec i j) as [[Hlt| ->]|Hlt]; [|done|].
  - destruct (Hl _ _ Hj) as (_ & _ & _ & _ & _ & Hfresh & _).
    destruct (Hfresh (InsWorkoutExercise d n x)); [|done..].
    apply elem_of_take. eauto.
  - destruct (Hl _ _ Hi) as (_ & _ & _ & _ & _ & Hfresh & _).
    destruct (Hfresh (InsWorkoutExercise d n y)); [|done..].
    apply elem_of_take. eauto.
Qed.

(** The sets rows of a workout_exercises row are those inserted for its
    date and exercise name. *)
Lemma link_sets_group g l d n x :
  log_ok g l → InsWorkoutExercise d n x ∈ l →
  link_sets (we_id x) l = group_sets d n l.
Proof.
  intros Hl Hx. apply omap_ext_elem. intros e He.
  destruct e as [| | |d' n' r st]; try done.
  destruct (log_ok_elem _ _ _ Hl He)
    as (j & Hj & _ & _ & _ & (y & Hy%elem_of_take_elem & Hyid & _) & _).
  destruct (decide (d' = d ∧ n' = n)) as [[-> ->]|Hne].
  - apply list_elem_of_lookup in Hx as [i Hi].
    apply list_elem_of_lookup in Hy as [k Hk].
    assert (i = k) as -> by eauto using link_name_index.
    simplify_eq. by rewrite decide_True.
  - rewrite decide_False; [done|]. intros Hid.
    destruct (link_id_inj g l d' n' y d n x) as (? & ? & _);
      [done..|congruence|].
    by destruct Hne.
Qed.

(** The sets rows of one exercise of one date are numbered from 0 and
    made from the records of the group, in order. *)
Lemma group_sets_positions g l d n :
  log_detail g l →
  set_index <$> (group_sets d n l).*2 = seq 0 (length (group_sets d n l)) ∧
  (group_sets d n l).*1 =
    take (length (group_sets d n l)) (exercise_rows_of g d n).
Proof.
  induction l as [|e l IH] using rev_ind; [done|].
  intros [Hl He]%log_detail_snoc_inv. destruct (IH Hl) as [IH1 IH2].
  rewrite group_sets_app. simpl.
  destruct e as [| | |d' n' r st]; simpl; rewrite ?app_nil_r; try done.
  destruct (decide (d' = d ∧ n' = n)) as [[-> ->]|Hne];
    simpl; rewrite ?app_nil_r; [|done].
  destruct He as (Hidx & Hrow & _).
  rewrite !fmap_app, length_app, seq_app. simpl.
  rewrite Nat.add_1_r. split.
  - by rewrite IH1, Hidx.
  - rewrite Hidx in Hrow. rewrite (take_S_r _ _ _ Hrow). by rewrite IH2.
Qed.

Lemma tag_set_skeleton d n l :
  (group_sets d n l).*1 = omap (tag_set d n) (skeleton l).
Proof.
  unfold group_sets, skeleton.
  induction l as [|e l IH]; [done|].
  csimpl. destruct e as [| | |d' n' r st]; csimpl; try done.
  destruct (decide (d' = d ∧ n' = n)); csimpl; by rewrite IH.
Qed.

Lemma exercise_skeleton_set d n d' p :
  omap (tag_set d n) (exercise_skeleton d' p) =
  if decide (d' = d ∧ p.1 = n) then p.2 else [].
Proof.
  unfold exercise_skeleton. csimpl.
  destruct (decide (d' = d ∧ p.1 = n)) as [Heq|Hne].
  - induction p.2 as [|r rs IH]; [done|].
    csimpl. rewrite decide_True by done. by rewrite IH.
  - induction p.2 as [|r rs IH]; [done|].
    csimpl. rewrite decide_False by done. by rewrite IH.
Qed.

Lemma groups_skeleton_set d n d' (groups : list (string * list row)) :
  NoDup groups.*1 →
  omap (tag_set d n) (concat (exercise_skeleton d' <$> groups)) =
  if decide (d' = d) then group_get groups n else [].
Proof.
  induction groups as [|[k rs] groups IH]; intros Hnd.
  { by destruct (decide (d' = d)). }
  rewrite fmap_cons in Hnd. apply NoDup_cons in Hnd as [Hnin Hnd].
  rewrite fmap_cons. cbn [concat]. rewrite omap_app, exercise_skeleton_set.
  rewrite (IH Hnd). simpl.
  destruct (decide (d' = d)) as [->|Hne]; cycle 1.
  { rewrite decide_False by tauto. done. }
  destruct (decide (n = k)) as [->|Hnk].
  - rewrite decide_True by done. rewrite group_get_notin by done.
    by rewrite app_nil_r.
  - rewrite decide_False; [done|]. intros [_ ->]. done.
Qed.

Lemma day_skeleton_set g d n d' :
  omap (tag_set d n) (day_skeleton g d') =
  if decide (d' = d) then exercise_rows_of g d n else [].
Proof.
  unfold day_skeleton. csimpl.
  rewrite groups_skeleton_set by apply group_rows_wf.
  by destruct (decide (d' = d)) as [->|].
Qed.

Lemma skeleton_sets g d n dates :
  NoDup dates → d ∈ dates →
  omap (tag_set d n) (concat (day_skeleton g <$> dates)) =
  exercise_rows_of g d n.
Proof.
  induction dates as [|d' dates IH]; intros Hnd Hd.
  { by apply elem_of_nil in Hd. }
  apply NoDup_cons in Hnd as [Hnin Hnd].
  rewrite fmap_cons. cbn [concat]. rewrite omap_app, day_skeleton_set.
  destruct (decide (d' = d)) as [->|Hne].
  - replace (omap (tag_set d n) (concat (day_skeleton g <$> dates)))
      with (@nil row); [by rewrite app_nil_r|].
    symmetry. clear IH Hnd Hd.
    induction dates as [|d0 dates IH]; [done|].
    apply not_elem_of_cons in Hnin as [Hne Hnin].
    rewrite fmap_cons. cbn [concat]. rewrite omap_app, day_skeleton_set.
    rewrite decide_False by done. by apply IH.
  - apply elem_of_cons in Hd as [->|Hd]; [done|]. simpl. by apply IH.
Qed.

Lemma link_anchor g s d n x :
  inv g s → InsWorkoutExercise d n x ∈ conn s →
  workouts s !! d = Some (we_workout_id x) ∧
  exercises s !! n = Some (we_exercise_id x).
Proof.
  intros [Hl Hm] Hx.
  destruct (log_ok_elem _ _ _ Hl Hx)
    as (i & _ & _ & _ & _ & (w & Hw%elem_of_take_elem & Hwid) &
        (d0 & y & Hy%elem_of_take_elem & Hyn & Hyid) & _).
  split.
  - apply (mo_wo _ Hm). eauto.
  - apply (mo_ex _ Hm). eauto.
Qed.

(** X11.  Lines 313-334.  The sets rows of a workout_exercises row have, in
    insertion order, the positions 0, 1, 2, ... and are made from the
    records of its date and exercise name in file order; a completed run
    has a sets row for every one of these records. *)
Theorem set_positions rows d n x :
  let o := build_hierarchy rows initial_state in
  let s := final_state o in
  InsWorkoutExercise d n x ∈ conn s →
  let sets := link_sets (we_id x) (conn s) in
  let records :=
    filter (λ r, exercise_of r = n) (filter (λ r, date_of r = d) rows) in
  workouts s !! d = Some (we_workout_id x) ∧
  exercises s !! n = Some (we_exercise_id x) ∧
  set_index <$> sets.*2 = seq 0 (length sets) ∧
  sets.*1 = take (length sets) records ∧
  (is_done o → sets.*1 = records).
Proof.
  intros o s Hx sets records.
  pose proof (run_inv rows) as Hinv. fold o s in Hinv.
  pose proof (run_detail rows) as Hdet. fold o s in Hdet.
  destruct (link_anchor _ _ _ _ _ Hinv Hx) as [Hwo Hex].
  destruct Hinv as [Hl Hm].
  assert (exercise_rows_of (group_by_date rows) d n = records ∧
          d ∈ (group_by_date rows).*1) as [Hrec Hkey].
  { apply list_elem_of_lookup in Hx as [i Hi].
    destruct (Hdet _ _ Hi) as (first & k & Hhead & _).
    destruct (exercise_rows_filter rows d n) as (_ & _ & ? & _ & ?); [|done].
    intros Hnil. by rewrite Hnil in Hhead. }
  unfold sets. rewrite (link_sets_group _ _ _ _ _ Hl Hx).
  destruct (group_sets_positions _ _ d n Hdet) as [Hidx Hsrc].
  rewrite Hrec in Hsrc. split_and!; [done..|].
  intros Hdone.
  assert (build_hierarchy rows initial_state = Done tt s) as Hrun.
  { unfold s, o in *. by destruct (build_hierarchy rows initial_state) as [[]|]. }
  destruct (run_done _ _ Hrun) as [_ Hsk].
  rewrite tag_set_skeleton, Hsk, skeleton_sets; [done| |].
  - apply sorted_reverse_NoDup, group_by_date_ok.
  - by apply elem_of_sorted_reverse.
Qed.

(** X12.  Lines 292-306.  The note and the two times of a workout_exercises
    row come from the first record of its date and exercise name:
    the note is that record's trimmed note, NULL when blank, and
    performed_at and completed_at are both [parse_datetime] of its date
    and time. *)
Theorem link_from_first_record rows d n x :
  let s := final_state (build_hierarchy rows initial_state) in
  InsWorkoutExercise d n x ∈ conn s →
  let records :=
    filter (λ r, exercise_of r = n) (filter (λ r, date_of r = d) rows) in
  ∃ first k,
    head records = Some first ∧
    we_note x = or_none (Py.strip (Py.get first "Notes" "")) ∧
    we_performed_at x =
      parse_datetime_at (now_ms k) d (Py.get first "Time" "00:00") ∧
    we_completed_at x = we_performed_at x ∧
    workouts s !! d = Some (we_workout_id x) ∧
    exercises s !! n = Some (we_exercise_id x).
Proof.
  intros s Hx records.
  pose proof (run_inv rows) as Hinv. fold s in Hinv.
  pose proof (run_detail rows) as Hdet. fold s in Hdet.
  destruct (link_anchor _ _ _ _ _ Hinv Hx) as [Hwo Hex].
  apply list_elem_of_lookup in Hx as [i Hi].
  destruct (Hdet _ _ Hi) as (first & k & Hhead & Hnote & Hperf & Hcomp).
  destruct (exercise_rows_filter rows d n) as (_ & _ & _ & _ & Hrec).
  { intros Hnil. by rewrite Hnil in Hhead. }
  rewrite Hrec in Hhead. fold records in Hhead.
  exists first, k. split_and!; try done.
  rewrite Hperf. f_equal.
  assert (first ∈ records) as Hin.
  { destruct records; [done|]. injection Hhead as ->. apply list_elem_of_here. }
  unfold records in Hin.
  apply list_elem_of_filter in Hin as [_ Hin].
  apply list_elem_of_filter in Hin as [<- _].
  apply get_date_default.
Qed.

(** X13.  Lines 315-332.  A sets row is made from one extracted record with a
    date and an exercise name: its note is the record's trimmed note,
    NULL when blank, its time is [parse_datetime] of the record's own
    date and time, and is_warmup is 0. *)
Theorem set_from_own_record rows d n r st :
  let s := final_state (build_hierarchy rows initial_state) in
  InsSet d n r st ∈ conn s →
  r ∈ rows ∧ kept r = true ∧ date_of r = d ∧ exercise_of r = n ∧
  set_note st = or_none (Py.strip (Py.get r "Notes" "")) ∧
  set_is_warmup st = 0%Z ∧
  ∃ k, set_performed_at st =
         parse_datetime_at (now_ms k) (date_of r) (Py.get r "Time" "00:00").
Proof.
  intros s Hin.
  destruct (run_inv rows) as [Hl _]. fold s in Hl.
  pose proof (run_detail rows) as Hdet. fold s in Hdet.
  apply list_elem_of_lookup in Hin as [i Hi].
  destruct (Hl _ _ Hi)
    as (_ & _ & _ & _ & Hr & Hd & Hn & _ & _ & _ & Hwarm & k & Ht).
  destruct (Hdet _ _ Hi) as (_ & Hrow & Hnote).
  destruct (elem_of_date_group _ _ _ Hr) as (Hrows & _ & Hdne).
  assert (n ≠ "") as Hnne.
  { destruct (exercise_rows_filter rows d n) as (_ & ? & _); [|done].
    intros Hnil. by rewrite Hnil in Hrow. }
  split_and!; try done.
  - apply kept_iff. rewrite Hd, Hn. split; by apply truthy_iff.
  - exists k. rewrite Ht, <- Hd. by rewrite get_date_default.
Qed.

(** X14.  Line 283.  In a completed run the created_at of an exercises row is
    the started_at of a workout: the one of the greatest date string
    that has a record with the exercise's name. *)
Theorem exercise_created_at rows s x :
  build_hierarchy rows initial_state = Done tt s →
  x ∈ exercises_table (conn s) →
  ∃ d w,
    (∃ r, r ∈ rows ∧ date_of r = d ∧ exercise_of r = ex_name x) ∧
    (∀ r, r ∈ rows → kept r = true → exercise_of r = ex_name x →
          String.le (date_of r) d) ∧
    day_workouts d (conn s) = [w] ∧
    workouts s !! d = Some (wo_id w) ∧
    ex_created_at x = wo_started_at w.
Proof.
  intros Hrun [d Hx]%elem_of_exercises_table.
  destruct (run_done _ _ Hrun) as [[Hl Hm] _].
  pose proof (run_detail rows) as Hdet. rewrite Hrun in Hdet. simpl in Hdet.
  apply list_elem_of_lookup in Hx as [i Hi].
  destruct (Hdet _ _ Hi) as (w & Hw%elem_of_take_elem & Hcreated).
  destruct (Hl _ _ Hi) as (_ & _ & _ & _ & Hname).
  exists d, w. split_and!.
  - pose proof (workout_date _ _ _ _ Hrun Hw) as Hkey.
    pose proof (group_by_exercise_ok _ d (group_by_date_ok rows) Hkey) as Hg.
    apply list_elem_of_fmap in Hname as ([n rs] & Hn & Hp). simpl in Hn.
    rewrite Forall_forall in Hg. destruct (Hg _ Hp) as (Hne & _ & Hrs).
    simpl in Hne, Hrs. destruct rs as [|r rs]; [done|].
    apply Forall_cons in Hrs as [(Hr & Hd & Hnr) _].
    exists r. destruct (elem_of_date_group _ _ _ Hr) as (? & _).
    split_and!; [done..|]. by rewrite Hn.
  - intros r Hr Hk Hnr.
    destruct (run_covers _ _ _ Hrun Hr Hk) as (d' & n' & st & Hin).
    apply list_elem_of_lookup in Hin as [j Hj].
    destruct (Hl _ _ Hj) as (_ & _ & _ & _ & _ & Hd' & Hn' & _).
    destruct (exercise_before_use _ _ j _ n' Hl Hj eq_refl)
      as (i' & d0 & x0 & Hlt & Hi' & Hname0 & _).
    assert (i' = i) as ->.
    { eapply exercise_name_index; [done..|]. congruence. }
    rewrite Hd'.
    apply (log_ok_dates _ _ i j _ _ Hl Hi Hj Hlt).
  - by eapply day_workouts_unique.
  - apply (mo_wo _ Hm). eauto.
  - done.
Qed.
End Columns.

(** ** The dicts and the tables *)

Lemma size_of_table `{Countable K} {V A B} (m : gmap K V)
    (f : A → option B) (key : B → K) (val : B → V) (l : list A) :
  NoDup (key <$> omap f l) →
  (∀ k v, m !! k = Some v ↔ ∃ b, b ∈ omap f l ∧ key b = k ∧ val b = v) →
  size m = length (omap f l).
Proof.
  intros Hnd Hm.
  set (kvs := (λ b, (key b, val b)) <$> omap f l).
  assert (kvs.*1 = key <$> omap f l) as Hkeys.
  { unfold kvs. rewrite <- list_fmap_compose. done. }
  assert (m = list_to_map kvs) as ->.
  { apply map_eq. intros k. apply option_eq. intros v.
    rewrite Hm, <- elem_of_list_to_map by (by rewrite Hkeys).
    unfold kvs. rewrite list_elem_of_fmap. split.
    - intros (b & Hb & <- & <-). eauto.
    - intros (b & [= -> ->] & Hb). eauto. }
  rewrite map_size_list_to_map by (by rewrite Hkeys).
  unfold kvs. by rewrite length_fmap.
Qed.

Section Summary.
Context `{Runtime}.
Implicit Types (rows : list row) (l : list event) (s : state).

Lemma length_dated_workouts l :
  length (omap dated_workout l) = length (workouts_table l).
Proof.
  unfold workouts_table. induction l as [|e l IH]; [done|].
  csimpl. destruct e; simpl; by rewrite ?IH.
Qed.

(** X15.  Lines 341-345.  The four counts of the summary are the numbers of
    rows inserted into the four tables, whether the run completes or is
    aborted. *)
Theorem summary_counts rows :
  let s := final_state (build_hierarchy rows initial_state) in
  size (exercises s) = length (exercises_table (conn s)) ∧
  size (workouts s) = length (workouts_table (conn s)) ∧
  size (workout_exercises s) = length (workout_exercises_table (conn s)) ∧
  set_count s = length (sets_table (conn s)).
Proof.
  intros s.
  destruct (run_inv rows) as [Hl Hm]. fold s in Hl, Hm.
  destruct (run_detail_state rows) as [_ Hrec]. fold s in Hrec.
  split_and!.
  - apply (size_of_table _ exercises_of ex_name ex_id).
    + apply omap_key_NoDup. intros i j a b x y Hi Hj Ha Hb Hname.
      destruct a as [|d1 x1| |]; try done.
      destruct b as [|d2 x2| |]; try done.
      simpl in Ha, Hb. simplify_eq. by eapply exercise_name_index.
    + intros n id. rewrite (mo_ex _ Hm). split.
      * intros (d & x & Hx & ? & ?). exists x. split; [|done].
        apply elem_of_exercises_table. eauto.
      * intros (x & [d Hx]%elem_of_exercises_table & ? & ?). eauto.
  - rewrite <- length_dated_workouts.
    apply (size_of_table _ dated_workout fst (wo_id ∘ snd)).
    + apply omap_key_NoDup. intros i j a b x y Hi Hj Ha Hb Hdate.
      destruct a as [d1 w1| | |]; try done.
      destruct b as [d2 w2| | |]; try done.
      simpl in Ha, Hb. simplify_eq. simpl in Hdate. subst d2.
      destruct (lt_eq_lt_dec i j) as [[Hlt| ->]|Hlt]; [|done|].
      * destruct (Hl _ _ Hj) as (_ & _ & _ & Hfresh & _).
        destruct (Hfresh (InsWorkout d1 w1)); [|done].
        apply elem_of_take. eauto.
      * destruct (Hl _ _ Hi) as (_ & _ & _ & Hfresh & _).
        destruct (Hfresh (InsWorkout d1 w2)); [|done].
        apply elem_of_take. eauto.
    + intros d id. rewrite (mo_wo _ Hm). split.
      * intros (w & Hw & ?). exists (d, w). split; [|done].
        apply list_elem_of_omap. by exists (InsWorkout d w).
      * intros ([d' w] & (e & He & Hf)%list_elem_of_omap & ? & ?).
        destruct e; simplify_eq/=. eauto.
  - apply (size_of_table _ workout_exercises_of
             (λ x, (we_workout_id x, we_exercise_id x)) we_id).
    + by eapply link_pairs_NoDup.
    + intros [w x] id. split.
      * intros (d & n & y & Hy & ? & ? & ?)%(mo_we _ Hm).
        exists y. split; [|by simplify_eq].
        apply list_elem_of_omap. by exists (InsWorkoutExercise d n y).
      * intros (y & (e & He & Hf)%list_elem_of_omap & [= <- <-] & <-).
        destruct e; simplify_eq/=. by eapply Hrec.
  - apply (mo_count _ Hm).
Qed.
End Summary.

Section Constraints.
Context `{Runtime}.
Implicit Types (rows : list row) (l : list event) (s : state).

Lemma elem_of_workouts_table l w :
  w ∈ workouts_table l ↔ ∃ d, InsWorkout d w ∈ l.
Proof.
  unfold workouts_table. rewrite list_elem_of_omap. split.
  - intros (e & He & Hw). destruct e; simplify_eq/=. eauto.
  - intros (d & Hd). by exists (InsWorkout d w).
Qed.

Lemma elem_of_links_table l x :
  x ∈ workout_exercises_table l ↔ ∃ d n, InsWorkoutExercise d n x ∈ l.
Proof.
  unfold workout_exercises_table. rewrite list_elem_of_omap. split.
  - intros (e & He & Hx). destruct e; simplify_eq/=. eauto.
  - intros (d & n & Hd). by exists (InsWorkoutExercise d n x).
Qed.

Lemma elem_of_sets_table l st :
  st ∈ sets_table l ↔ ∃ d n r, InsSet d n r st ∈ l.
Proof.
  unfold sets_table. rewrite list_elem_of_omap. split.
  - intros (e & He & Hx). destruct e; simplify_eq/=. eauto.
  - intros (d & n & r & Hd). by exists (InsSet d n r st).
Qed.

(** X16.  The script inserts with foreign keys switched off (line 227) and
    switches them on at the end (line 337).  The rows it inserts keep the
    constraints of the schema by themselves, in a completed run and in
    one that was aborted: exercise names are unique, and every workout_id,
    exercise_id and workout_exercise_id of a workout_exercises or sets
    row is the id of a row of the table it refers to. *)
Theorem schema_constraints_kept rows :
  let log := conn (final_state (build_hierarchy rows initial_state)) in
  NoDup (ex_name <$> exercises_table log) ∧
  (∀ x, x ∈ workout_exercises_table log →
        (∃ w, w ∈ workouts_table log ∧ wo_id w = we_workout_id x) ∧
        (∃ y, y ∈ exercises_table log ∧ ex_id y = we_exercise_id x)) ∧
  (∀ st, st ∈ sets_table log →
         (∃ w, w ∈ workouts_table log ∧ wo_id w = set_workout_id st) ∧
         (∃ y, y ∈ exercises_table log ∧ ex_id y = set_exercise_id st) ∧
         (∃ x, x ∈ workout_exercises_table log ∧
               we_id x = set_workout_exercise_id st)).
Proof.
  intros log. destruct (run_inv rows) as [Hl _]. fold log in Hl.
  assert (∀ x, x ∈ workout_exercises_table log →
               (∃ w, w ∈ workouts_table log ∧ wo_id w = we_workout_id x) ∧
               (∃ y, y ∈ exercises_table log ∧ ex_id y = we_exercise_id x))
    as Hlinks.
  { intros x (d & n & Hx)%elem_of_links_table.
    destruct (log_ok_elem _ _ _ Hl Hx)
      as (i & _ & _ & _ & _ & (w & Hw%elem_of_take_elem & Hwid) &
          (d0 & y & Hy%elem_of_take_elem & _ & Hyid) & _).
    split.
    - exists w. split; [|done]. apply elem_of_workouts_table. eauto.
    - exists y. split; [|done]. apply elem_of_exercises_table. eauto. }
  split_and!.
  - apply omap_key_NoDup. intros i j a b x y Hi Hj Ha Hb Hname.
    destruct a as [|d1 x1| |]; try done.
    destruct b as [|d2 x2| |]; try done.
    simpl in Ha, Hb. simplify_eq. by eapply exercise_name_index.
  - done.
  - intros st (d & n & r & Hst)%elem_of_sets_table.
    destruct (log_ok_elem _ _ _ Hl Hst)
      as (i & _ & _ & _ & _ & (x & Hx%elem_of_take_elem & Hxid & Hxw & Hxe) & _).
    assert (x ∈ workout_exercises_table log) as Hxt.
    { apply elem_of_links_table. eauto. }
    destruct (Hlinks x Hxt) as [(w & Hw & Hwid) (y & Hy & Hyid)].
    split_and!.
    + exists w. split; [done|]. congruence.
    + exists y. split; [done|]. congruence.
    + by exists x.
Qed.

Lemma lookup_link_tag (l : list event) i d n :
  tag_of <$> l !! i = Some (Some (TLink d n)) →
  ∃ x, l !! i = Some (InsWorkoutExercise d n x).
Proof.
  destruct (l !! i) as [[| |d' n' x|]|]; simpl; intros [=]. subst. eauto.
Qed.
End Constraints.

(** * The claims on concrete inputs *)

Section Reading.
Context `{Runtime}.

Lemma done_final (o : outcome unit) : is_done o → o = Done tt (final_state o).
Proof. by destruct o as [[] s|]. Qed.

Lemma final_of_done (o : outcome unit) s : o = Done tt s → s = final_state o.
Proof. by intros ->. Qed.

Lemma run_cases (o : outcome unit) :
  is_done o → ∃ s, o = Done tt s ∧ final_state o = s.
Proof. destruct o as [[] s|]; [eauto|done]. Qed.

Lemma lookup_workout_tag (l : list event) i d :
  tag_of <$> l !! i = Some (Some (TWorkout d)) →
  ∃ w, l !! i = Some (InsWorkout d w).
Proof.
  destruct (l !! i) as [[d' w| | |]|]; simpl; intros [=]. subst. eauto.
Qed.

Lemma lookup_set_tag (l : list event) i d n r :
  tag_of <$> l !! i = Some (Some (TSet d n r)) →
  ∃ st, l !! i = Some (InsSet d n r st).
Proof.
  destruct (l !! i) as [[| | |d' n' r' st]|]; simpl; intros [=]. subst. eauto.
Qed.

Lemma lookup_date (l : list event) i d :
  event_date <$> l !! i = Some d → ∃ e, l !! i = Some e ∧ event_date e = d.
Proof. destruct (l !! i) as [e|]; simpl; intros [=]. eauto. Qed.
End Reading.

Lemma lookup_view {A B} (f : A → B) (l : list A) i b :
  f <$> l !! i = Some b → ∃ x, l !! i = Some x ∧ f x = b.
Proof. destruct (l !! i) as [x|]; simpl; intros [=]. eauto. Qed.

#[local] Existing Instance Sample.runtime.

Ltac by_compute := vm_compute; reflexivity.
Ltac by_decide :=
  lazymatch goal with
  | |- ?P => apply (bool_decide_eq_true_1 P); vm_compute; reflexivity
  end.
Ltac run_done := vm_compute; exact I.

(** C1 as stated fails: the extractor returns two records, both with
    numeric fields that parse, and one sets row is inserted, because the
    second record has no date. *)
Lemma one_set_per_record_fails :
  length (read_csv Sample.blank_date) = 2 ∧
  length (sets_table
            (conn (final_state
                     (build_hierarchy (read_csv Sample.blank_date)
                        initial_state)))) = 1 ∧
  ¬ one_set_per_record Sample.blank_date.
Proof.
  split; [by_compute|]. split; [by_compute|].
  intros Hc. destruct Hc as (s & Hrun & Hlen); [by_compute|].
  apply final_of_done in Hrun. subst s. vm_compute in Hlen. discriminate.
Qed.

Lemma sets_match_kept_records_witness :
  forallb insertable
    (filter (λ r, kept r = true) (read_csv Sample.blank_date)) = true ∧
  ∃ s, build_hierarchy (read_csv Sample.blank_date) initial_state =
         Done tt s ∧
       length (sets_table (conn s)) = 1 ∧ set_count s = 1.
Proof.
  assert (forallb insertable
            (filter (λ r, kept r = true) (read_csv Sample.blank_date)) = true)
    as Hok by by_compute.
  split; [exact Hok|].
  destruct (sets_match_kept_records Sample.blank_date Hok)
    as (s & Hrun & Hlen & Hcount).
  exists s. split; [exact Hrun|]. rewrite Hlen, Hcount. split; by_compute.
Defined.

(** C2 as stated fails: 1 February 2026 is the more recent day, and the
    rows of 2 January 2026, whose date string is the greater one, are
    inserted first. *)
Lemma most_recent_first_fails :
  let log := conn (final_state
                     (build_hierarchy (read_csv Sample.two_months)
                        initial_state)) in
  event_date <$> log !! 0 = Some "02/01/2026" ∧
  event_date <$> log !! 4 = Some "01/02/2026" ∧
  date_ms "02/01/2026" = Some 1767312000000%Z ∧
  date_ms "01/02/2026" = Some 1769904000000%Z ∧
  ¬ most_recent_first (read_csv Sample.two_months).
Proof.
  cbv zeta.
  set (log := conn (final_state
                      (build_hierarchy (read_csv Sample.two_months)
                         initial_state))).
  assert (event_date <$> log !! 0 = Some "02/01/2026") as H0 by by_compute.
  assert (event_date <$> log !! 4 = Some "01/02/2026") as H4 by by_compute.
  split_and!; [exact H0|exact H4|by_compute|by_compute|].
  intros Hc. unfold most_recent_first in Hc. cbv zeta in Hc. fold log in Hc.
  destruct (lookup_date _ _ _ H0) as (e2 & E2 & Hd2).
  destruct (lookup_date _ _ _ H4) as (e1 & E1 & Hd1).
  destruct (Hc 4 0 e1 e2 1769904000000%Z 1767312000000%Z E1 E2) as [Hlt _].
  - rewrite Hd1. by_compute.
  - rewrite Hd2. by_compute.
  - by_compute.
  - lia.
Qed.

Lemma descending_date_strings_witness :
  let log := conn (final_state
                     (build_hierarchy (read_csv Sample.two_months)
                        initial_state)) in
  ∃ e1 e2,
    (log !! 0 = Some e1 ∧ log !! 4 = Some e2 ∧
     String.ltb (event_date e2) (event_date e1) = true) ∧
    0 < 4 ∧ event_uid e1 < event_uid e2.
Proof.
  cbv zeta.
  set (log := conn (final_state
                      (build_hierarchy (read_csv Sample.two_months)
                         initial_state))).
  assert (event_date <$> log !! 0 = Some "02/01/2026") as H0 by by_compute.
  assert (event_date <$> log !! 4 = Some "01/02/2026") as H4 by by_compute.
  destruct (lookup_date _ _ _ H0) as (e1 & E1 & Hd1).
  destruct (lookup_date _ _ _ H4) as (e2 & E2 & Hd2).
  assert (String.ltb (event_date e2) (event_date e1) = true) as Hlt.
  { rewrite Hd1, Hd2. by_compute. }
  exists e1, e2. split; [exact (conj E1 (conj E2 Hlt))|].
  exact (descending_date_strings (read_csv Sample.two_months) 0 4 e1 e2
           E1 E2 Hlt).
Defined.

(** C3 as stated fails: with the header field date in place of Date the
    record has no date for the builder and nothing is inserted. *)
Lemma header_case_insensitive_fails :
  length (conn (final_state
                  (build_hierarchy (read_dicts Sample.text_plain)
                     initial_state))) = 4 ∧
  length (conn (final_state
                  (build_hierarchy (read_dicts Sample.text_lower)
                     initial_state))) = 0 ∧
  ¬ header_case_insensitive Sample.text_plain Sample.text_lower.
Proof.
  split_and!; [by_compute..|].
  intros Hc.
  assert (build_hierarchy (read_dicts Sample.text_plain) initial_state =
          build_hierarchy (read_dicts Sample.text_lower) initial_state)
    as Heq.
  { apply (Hc ["Date"; "Exercise"] ["date"; "Exercise"]
              [["19/01/2026"; "Squat"]]); by_compute. }
  apply (f_equal (λ o, length (conn (final_state o)))) in Heq.
  vm_compute in Heq. discriminate.
Qed.

Lemma header_whitespace_insensitive_witness :
  (csv_reader Sample.text_plain =
     ["Date"; "Exercise"] :: [["19/01/2026"; "Squat"]] ∧
   csv_reader Sample.text_spaced =
     [" Date "; "Exercise"] :: [["19/01/2026"; "Squat"]] ∧
   Py.strip <$> ["Date"; "Exercise"] = Py.strip <$> [" Date "; "Exercise"] ∧
   NoDup (Py.strip <$> ["Date"; "Exercise"]) ∧
   Forall (λ h, Py.strip h ≠ "") ["Date"; "Exercise"]) ∧
  read_dicts Sample.text_plain = read_dicts Sample.text_spaced ∧
  build_hierarchy (read_dicts Sample.text_plain) initial_state =
  build_hierarchy (read_dicts Sample.text_spaced) initial_state.
Proof.
  assert (NoDup (Py.strip <$> ["Date"; "Exercise"])) as Hnd by by_decide.
  assert (Forall (λ h, Py.strip h ≠ "") ["Date"; "Exercise"]) as Hall
    by by_decide.
  split; [split_and!; [by_compute..|exact Hnd|exact Hall]|].
  apply (header_whitespace_insensitive Sample.text_plain Sample.text_spaced
           ["Date"; "Exercise"] [" Date "; "Exercise"]
           [["19/01/2026"; "Squat"]]);
    [by_compute..|exact Hnd|exact Hall].
Defined.


(** C5 as stated fails: Squat is an exercise name of the extracted
    records, on a record without date, and has no exercises row. *)
Lemma one_exercise_per_name_fails :
  "Squat" ∈ exercise_of <$> read_csv Sample.blank_date ∧
  ex_name <$> exercises_table
                (conn (final_state
                         (build_hierarchy (read_csv Sample.blank_date)
                            initial_state))) = ["Bicep Curl"] ∧
  ¬ one_exercise_per_name (read_csv Sample.blank_date).
Proof.
  assert ("Squat" ∈ exercise_of <$> read_csv Sample.blank_date) as Hin
    by by_decide.
  assert (ex_name <$> exercises_table
                (conn (final_state
                         (build_hierarchy (read_csv Sample.blank_date)
                            initial_state))) = ["Bicep Curl"]) as F
    by by_compute.
  split; [exact Hin|]. split; [exact F|].
  intros Hc.
  destruct (run_cases
              (build_hierarchy (read_csv Sample.blank_date) initial_state))
    as (s & Hrun & Hfin); [run_done|].
  rewrite Hfin in F.
  destruct (Hc s "Squat" Hrun Hin) as [x Hx]; [discriminate|].
  assert ("Squat" ∈ ex_name <$> exercises_table (conn s)) as Hsq.
  { apply list_elem_of_fmap. exists x. split.
    - symmetry.
      assert (x ∈ filter (λ y, ex_name y = "Squat")
                    (exercises_table (conn s))) as Hf
        by (rewrite Hx; apply list_elem_of_here).
      apply list_elem_of_filter in Hf. exact (proj1 Hf).
    - assert (x ∈ filter (λ y, ex_name y = "Squat")
                    (exercises_table (conn s))) as Hf
        by (rewrite Hx; apply list_elem_of_here).
      apply list_elem_of_filter in Hf. exact (proj2 Hf). }
  rewrite F in Hsq. apply list_elem_of_singleton in Hsq. discriminate.
Qed.

Lemma one_exercise_per_kept_name_witness :
  ∃ s,
    (build_hierarchy (read_csv Sample.two_days) initial_state = Done tt s ∧
     ∃ r, r ∈ read_csv Sample.two_days ∧ kept r = true ∧
          exercise_of r = "Bicep Curl") ∧
    ∃ i d x,
      conn s !! i = Some (InsExercise d x) ∧ ex_name x = "Bicep Curl" ∧
      exercises s !! "Bicep Curl" = Some (ex_id x).
Proof.
  destruct (run_cases
              (build_hierarchy (read_csv Sample.two_days) initial_state))
    as (s & Hrun & Hfin); [run_done|].
  assert (∃ r, r ∈ read_csv Sample.two_days ∧ kept r = true ∧
               exercise_of r = "Bicep Curl") as Hr.
  { destruct (lookup_view (λ r, (kept r, exercise_of r))
                (read_csv Sample.two_days) 0 (true, "Bicep Curl"))
      as (r & Hr & Hv); [by_compute|].
    exists r. injection Hv as Hk Hn.
    exact (conj (list_elem_of_lookup_2 _ _ _ Hr) (conj Hk Hn)). }
  exists s. split; [exact (conj Hrun Hr)|].
  destruct (one_exercise_per_kept_name (read_csv Sample.two_days) s
              "Bicep Curl" Hrun Hr)
    as (i & d & x & Hi & Hx & Hmap & _).
  exists i, d, x. exact (conj Hi (conj Hx Hmap)).
Defined.

Lemma order_index_dense_first_seen_witness :
  ∃ s w,
    (build_hierarchy (read_csv Sample.two_days) initial_state = Done tt s ∧
     InsWorkout "20/01/2026" w ∈ conn s) ∧
    ∃ links,
      filter (λ x, we_workout_id x = wo_id w)
             (workout_exercises_table (conn s)) = links ∧
      we_order_index <$> links = [0; 1] ∧
      Forall2 (λ n x, exercises s !! n = Some (we_exercise_id x))
              ["Squat"; "Bicep Curl"] links.
Proof.
  assert (tag_of <$>
            conn (final_state
                    (build_hierarchy (read_csv Sample.two_days)
                       initial_state)) !! 0 =
          Some (Some (TWorkout "20/01/2026"))) as F by by_compute.
  assert (first_seen
            (filter (λ n, n ≠ "")
               (exercise_of <$>
                  filter (λ r, date_of r = "20/01/2026")
                    (read_csv Sample.two_days))) =
          ["Squat"; "Bicep Curl"]) as Hfs by by_compute.
  destruct (run_cases
              (build_hierarchy (read_csv Sample.two_days) initial_state))
    as (s & Hrun & Hfin); [run_done|].
  rewrite Hfin in F.
  destruct (lookup_workout_tag _ _ _ F) as [w Hw].
  apply list_elem_of_lookup_2 in Hw.
  exists s, w. split; [exact (conj Hrun Hw)|].
  destruct (order_index_dense_first_seen (read_csv Sample.two_days) s
              "20/01/2026" w Hrun Hw)
    as (_ & Horder & Hlen & Hnames).
  eexists. split; [reflexivity|].
  rewrite Hfs in Hlen. rewrite Hfs in Hnames.
  split; [|exact Hnames]. rewrite Horder, Hlen. reflexivity.
Defined.




(** On [Cases.big_reps] the day of 20 January is processed first: its
    workout, exercise and link are inserted, and the sets INSERT of its
    record is refused with OverflowError.  No sets row is inserted, the
    reps field of 19 January is never parsed, and the run ends with
    status 1 and a database without data rows. *)
Lemma out_of_range_reps_aborts :
  let o := build_hierarchy (read_csv Cases.big_reps) initial_state in
  (∃ s, o = Raised OverflowError s) ∧
  tag_of <$> conn (final_state o) =
    [Some (TWorkout "20/01/2026"); None; Some (TLink "20/01/2026" "Squat")] ∧
  convert_csv_to_db Cases.big_reps None =
    {| exit_code := 1; db_file := Some [] |}.
Proof.
  cbv zeta.
  assert (first_error (sources (read_csv Cases.big_reps)) =
          Some OverflowError) as Hfirst by by_compute.
  assert (read_csv Cases.big_reps ≠ []) as Hne.
  { intros Heq. apply (f_equal length) in Heq. vm_compute in Heq.
    discriminate. }
  pose proof (run_outcome (read_csv Cases.big_reps)) as Hrun.
  rewrite Hfirst in Hrun. destruct Hrun as [s Hrun].
  split; [by exists s|]. split; [by_compute|].
  exact (convert_raised _ _ _ _ Hne Hrun).
Qed.

Lemma empty_extraction_leaves_output_witness :
  let old := Some [InsWorkout "18/01/2026"
                     {| wo_id := 1; wo_uid := 0; wo_started_at := 0;
                        wo_completed_at := 0 |}] in
  read_csv Sample.header_only = [] ∧
  convert_csv_to_db Sample.header_only old =
    {| exit_code := 1; db_file := old |}.
Proof.
  cbv zeta.
  assert (read_csv Sample.header_only = []) as Hrows by by_compute.
  split; [exact Hrows|].
  apply empty_extraction_leaves_output. exact Hrows.
Defined.

Lemma set_references_consistent_witness :
  ∃ d n r st,
    conn (final_state
            (build_hierarchy (read_csv Sample.two_days) initial_state))
      !! 10 = Some (InsSet d n r st) ∧
    (∃ x, x ∈ workout_exercises_table
                (conn (final_state
                         (build_hierarchy (read_csv Sample.two_days)
                            initial_state))) ∧
          we_id x = set_workout_exercise_id st) ∧
    workouts (final_state
                (build_hierarchy (read_csv Sample.two_days) initial_state))
      !! d = Some (set_workout_id st).
Proof.
  assert (∃ d n r,
            tag_of <$>
              conn (final_state
                      (build_hierarchy (read_csv Sample.two_days)
                         initial_state)) !! 10 =
            Some (Some (TSet d n r))) as (d & n & r & F).
  { eexists _, _, _. by_compute. }
  destruct (lookup_set_tag _ _ _ _ _ F) as [st Hi].
  exists d, n, r, st. split; [exact Hi|].
  pose proof (set_references_consistent (read_csv Sample.two_days) d n r st)
    as Hthm.
  cbv zeta in Hthm.
  destruct (Hthm (list_elem_of_lookup_2 _ _ _ Hi)) as (Hx & _ & _ & Hw).
  exact (conj Hx Hw).
Defined.

(** ** The further properties on concrete inputs *)

Lemma read_csv_strength_section_witness :
  (Forall (λ l, strength_marker l = false) Cases.cardio ∧
   strength_marker Cases.marker = true ∧
   marker_line Cases.header = false ∧ Py.strip Cases.header ≠ "" ∧
   Forall (λ l, marker_line l = false) Cases.body ∧
   (Cases.notes = [] ∨
    ∃ m post', Cases.notes = m :: post' ∧ marker_line m = true ∧
               strength_marker m = false)) ∧
  read_csv Cases.sectioned =
  read_dicts (Py.strip Cases.header +:+ newline +:+
              join_lines (nonblank Cases.body)) ∧
  nonblank Cases.body =
    ["19/01/2026,18:30,Bicep Curl,6,50,Right"; "20/01/2026,09:40,Squat,8,100,"].
Proof.
  assert (Forall (λ l, strength_marker l = false) Cases.cardio) as H1
    by by_decide.
  assert (strength_marker Cases.marker = true) as H2 by by_compute.
  assert (marker_line Cases.header = false) as H3 by by_compute.
  assert (Py.strip Cases.header ≠ "") as H4 by by_decide.
  assert (Forall (λ l, marker_line l = false) Cases.body) as H5 by by_decide.
  assert (Cases.notes = [] ∨
          ∃ m post', Cases.notes = m :: post' ∧ marker_line m = true ∧
                     strength_marker m = false) as H6.
  { right. eexists _, _. split; [reflexivity|]. split; by_compute. }
  split; [exact (conj H1 (conj H2 (conj H3 (conj H4 (conj H5 H6)))))|].
  split; [|by_compute].
  exact (read_csv_strength_section Cases.cardio Cases.body Cases.notes
           Cases.marker Cases.header H1 H2 H3 H4 H5 H6).
Defined.

Lemma read_csv_without_strength_witness :
  Forall (λ l, strength_marker l = false) Cases.plain ∧
  read_csv Cases.plain = read_dicts (fallback_text Cases.plain).
Proof.
  assert (Forall (λ l, strength_marker l = false) Cases.plain) as H1
    by by_decide.
  split; [exact H1|]. exact (read_csv_without_strength Cases.plain H1).
Defined.

Lemma read_csv_empty_strength_witness :
  let pre := [Sample.line "Date,Exercise"; Sample.line "19/01/2026,Squat"] in
  let rest := [Sample.line ""; Sample.line "20/01/2026,Bench Press"] in
  (Forall (λ l, strength_marker l = false) pre ∧
   strength_marker Cases.marker = true ∧
   (Py.strip (Sample.line "") = "" ∨
    marker_line (Sample.line "") = true ∧
    strength_marker (Sample.line "") = false)) ∧
  read_csv (pre ++ Cases.marker :: rest) =
  read_dicts (fallback_text (pre ++ Cases.marker :: rest)).
Proof.
  cbv zeta.
  assert (Forall (λ l, strength_marker l = false)
            [Sample.line "Date,Exercise"; Sample.line "19/01/2026,Squat"])
    as H1 by by_decide.
  assert (strength_marker Cases.marker = true) as H2 by by_compute.
  assert (Py.strip (Sample.line "") = "" ∨
          marker_line (Sample.line "") = true ∧
          strength_marker (Sample.line "") = false) as H3
    by (left; by_compute).
  split; [exact (conj H1 (conj H2 H3))|].
  exact (read_csv_empty_strength
           [Sample.line "Date,Exercise"; Sample.line "19/01/2026,Squat"]
           [Sample.line ""; Sample.line "20/01/2026,Bench Press"]
           Cases.marker H1 H2 H3).
Defined.

Lemma extracted_row_fields_witness :
  let clean_row := clean (dict_row Cases.spaced_fields Cases.short_record) in
  (NoDup (Py.strip <$> Cases.spaced_fields) ∧
   Forall (λ h, Py.strip h ≠ "") Cases.spaced_fields) ∧
  clean_row !! "Date" = Some "19/01/2026" ∧
  clean_row !! "Exercise" = Some "Squat" ∧
  clean_row !! "Weight" = Some "" ∧
  clean_row !! "Notes" = None.
Proof.
  cbv zeta.
  assert (NoDup (Py.strip <$> Cases.spaced_fields)) as H1 by by_decide.
  assert (Forall (λ h, Py.strip h ≠ "") Cases.spaced_fields) as H2
    by by_decide.
  split; [exact (conj H1 H2)|].
  destruct (extracted_row_fields Cases.spaced_fields Cases.short_record
              H1 H2) as [Hfield Hother].
  split_and!.
  - exact (Hfield 0 " Date " eq_refl).
  - exact (Hfield 1 "Exercise" eq_refl).
  - exact (Hfield 2 "Weight" eq_refl).
  - apply Hother. by_decide.
Defined.

Lemma extracted_rows_trimmed_witness :
  ∃ r, r ∈ read_csv Cases.sectioned ∧
       r !! "Date" = Some "20/01/2026" ∧
       r ≠ ∅ ∧ ∀ k v, r !! k = Some v → Py.strip k = k ∧ Py.strip v = v.
Proof.
  destruct (lookup_view (λ r : row, r !! "Date") (read_csv Cases.sectioned) 1
              (Some "20/01/2026")) as (r & Hr & Hdate); [by_compute|].
  apply list_elem_of_lookup_2 in Hr.
  exists r. split; [exact Hr|]. split; [exact Hdate|].
  exact (extracted_rows_trimmed Cases.sectioned r Hr).
Defined.

Lemma read_dicts_keeps_blank_records_witness :
  (csv_reader Cases.blank_fields = ["Date"; "Exercise"] :: [[""; ""]] ∧
   ∃ h, h ∈ ["Date"; "Exercise"] ∧ h ≠ "") ∧
  read_dicts Cases.blank_fields =
    [clean (dict_row ["Date"; "Exercise"] [""; ""])].
Proof.
  assert (csv_reader Cases.blank_fields =
          ["Date"; "Exercise"] :: [[""; ""]]) as H1 by by_compute.
  assert (∃ h, h ∈ ["Date"; "Exercise"] ∧ h ≠ "") as H2.
  { exists "Date". split; [apply list_elem_of_here|discriminate]. }
  split; [exact (conj H1 H2)|].
  exact (read_dicts_keeps_blank_records Cases.blank_fields
           ["Date"; "Exercise"] [[""; ""]] H1 H2).
Defined.

Lemma undated_input_succeeds_witness :
  (read_csv Cases.undated ≠ [] ∧
   Forall (λ r, date_of r = "") (read_csv Cases.undated)) ∧
  convert_csv_to_db Cases.undated None =
    {| exit_code := 0; db_file := Some [] |}.
Proof.
  assert (read_csv Cases.undated ≠ []) as H1.
  { intros Heq. apply (f_equal length) in Heq. vm_compute in Heq.
    discriminate. }
  assert (Forall (λ r, date_of r = "") (read_csv Cases.undated)) as H2
    by by_decide.
  split; [exact (conj H1 H2)|].
  exact (undated_input_succeeds Cases.undated None H1 H2).
Defined.

Lemma set_positions_witness :
  let log := conn (final_state
                     (build_hierarchy (read_csv Sample.two_days)
                        initial_state)) in
  ∃ x, InsWorkoutExercise "20/01/2026" "Squat" x ∈ log ∧
       set_index <$> (link_sets (we_id x) log).*2 = [0; 1] ∧
       (λ r, Py.get r "Time" "") <$> (link_sets (we_id x) log).*1 =
         ["09:40"; "09:55"].
Proof.
  cbv zeta.
  assert (tag_of <$>
            conn (final_state
                    (build_hierarchy (read_csv Sample.two_days)
                       initial_state)) !! 2 =
          Some (Some (TLink "20/01/2026" "Squat"))) as F by by_compute.
  destruct (lookup_link_tag _ _ _ _ F) as [x Hx].
  apply list_elem_of_lookup_2 in Hx.
  exists x. split; [exact Hx|].
  pose proof (set_positions (read_csv Sample.two_days) "20/01/2026" "Squat" x)
    as T.
  cbv zeta in T. destruct (T Hx) as (_ & _ & Hidx & _ & Hdone).
  specialize (Hdone ltac:(vm_compute; exact I)).
  assert (length (link_sets (we_id x)
                    (conn (final_state
                             (build_hierarchy (read_csv Sample.two_days)
                                initial_state)))) = 2) as Hlen.
  { rewrite <- (length_fmap fst), Hdone. by_compute. }
  rewrite Hlen in Hidx. split; [exact Hidx|].
  rewrite Hdone. by_compute.
Defined.

Lemma link_from_first_record_witness :
  let s := final_state
             (build_hierarchy (read_csv Sample.two_days) initial_state) in
  ∃ x first k,
    InsWorkoutExercise "20/01/2026" "Squat" x ∈ conn s ∧
    Py.get first "Time" "00:00" = "09:40" ∧
    we_note x = or_none (Py.strip (Py.get first "Notes" "")) ∧
    we_performed_at x =
      parse_datetime_at (now_ms k) "20/01/2026"
        (Py.get first "Time" "00:00") ∧
    we_completed_at x = we_performed_at x.
Proof.
  cbv zeta.
  assert (tag_of <$>
            conn (final_state
                    (build_hierarchy (read_csv Sample.two_days)
                       initial_state)) !! 2 =
          Some (Some (TLink "20/01/2026" "Squat"))) as F by by_compute.
  destruct (lookup_link_tag _ _ _ _ F) as [x Hx].
  apply list_elem_of_lookup_2 in Hx.
  pose proof (link_from_first_record (read_csv Sample.two_days)
                "20/01/2026" "Squat" x) as T.
  cbv zeta in T.
  destruct (T Hx) as (first & k & Hhead & Hnote & Hperf & Hcomp & _).
  exists x, first, k. split; [exact Hx|].
  assert ((λ r, Py.get r "Time" "00:00") <$>
            head (filter (λ r, exercise_of r = "Squat")
                    (filter (λ r, date_of r = "20/01/2026")
                       (read_csv Sample.two_days))) = Some "09:40") as G
    by by_compute.
  rewrite Hhead in G. injection G as G.
  exact (conj G (conj Hnote (conj Hperf Hcomp))).
Defined.

Lemma set_from_own_record_witness :
  let s := final_state
             (build_hierarchy (read_csv Sample.two_days) initial_state) in
  ∃ d n r st,
    InsSet d n r st ∈ conn s ∧
    r ∈ read_csv Sample.two_days ∧ kept r = true ∧
    set_note st = or_none (Py.strip (Py.get r "Notes" "")) ∧
    set_is_warmup st = 0%Z.
Proof.
  cbv zeta.
  assert (∃ d n r,
            tag_of <$>
              conn (final_state
                      (build_hierarchy (read_csv Sample.two_days)
                         initial_state)) !! 10 =
            Some (Some (TSet d n r))) as (d & n & r & F).
  { eexists _, _, _. by_compute. }
  destruct (lookup_set_tag _ _ _ _ _ F) as [st Hi].
  apply list_elem_of_lookup_2 in Hi.
  pose proof (set_from_own_record (read_csv Sample.two_days) d n r st) as T.
  cbv zeta in T.
  destruct (T Hi) as (Hr & Hk & _ & _ & Hnote & Hwarm & _).
  exists d, n, r, st. exact (conj Hi (conj Hr (conj Hk (conj Hnote Hwarm)))).
Defined.

Lemma exercise_created_at_witness :
  ∃ s x,
    (build_hierarchy (read_csv Sample.two_days) initial_state = Done tt s ∧
     x ∈ exercises_table (conn s)) ∧
    ex_name x = "Squat" ∧
    ∃ d w, day_workouts d (conn s) = [w] ∧
           workouts s !! d = Some (wo_id w) ∧
           ex_created_at x = wo_started_at w.
Proof.
  destruct (lookup_view ex_name
              (exercises_table
                 (conn (final_state
                          (build_hierarchy (read_csv Sample.two_days)
                             initial_state)))) 0 "Squat")
    as (x & Hx & Hname); [by_compute|].
  destruct (run_cases
              (build_hierarchy (read_csv Sample.two_days) initial_state))
    as (s & Hrun & Hfin); [run_done|].
  rewrite Hfin in Hx. apply list_elem_of_lookup_2 in Hx.
  exists s, x. split; [exact (conj Hrun Hx)|]. split; [exact Hname|].
  destruct (exercise_created_at (read_csv Sample.two_days) s x Hrun Hx)
    as (d & w & _ & _ & Hw & Hmap & Hcreated).
  exists d, w. exact (conj Hw (conj Hmap Hcreated)).
Defined.
